(** * DPSW command marshalling (drivers/staging/fsl-dpaa2/ethsw/dpsw.c)

    A shallow embedding of the encode/decode layer of the DPAA2 Ethernet
    switch object and the properties its design document states about it.

    Integers of the C code are [Z] with the wrap-around of their C type
    written out.  A value of type [__le16], [__le32] or [__le64] is the
    number its bytes denote in little-endian order; it reaches memory through
    [st16], [st32], [st64], which lay the bytes out least significant first,
    whatever the byte order of the host.  The command buffer and the ACL key
    buffer are byte arrays ([list Z]); a struct laid over a buffer is the
    table of its member offsets.  A member that dpsw.c assigns through
    [cpu_to_le16], [cpu_to_le32] or [cpu_to_le64] has that width; a member it
    assigns or reads without a conversion is one byte. *)

From Stdlib Require Import ZArith List Lia Bool.
From stdpp Require Import base tactics list strings.
Import ListNotations.

Local Open Scope Z_scope.

(** ** Fixed-width integers *)

Definition u8 (x : Z) : Z := x mod 2 ^ 8.
Definition u16 (x : Z) : Z := x mod 2 ^ 16.
Definition u32 (x : Z) : Z := x mod 2 ^ 32.
Definition u64 (x : Z) : Z := x mod 2 ^ 64.

(** Conversion of an unsigned 32-bit value to C's [int]. *)
Definition int_of_u32 (x : Z) : Z :=
  if u32 x <? 2 ^ 31 then u32 x else u32 x - 2 ^ 32.

(** Modelled from the spec: the byte-order helpers of
    linux/byteorder/generic.h (section 4.2: a multi-byte integer is converted
    between the host's integer and little-endian wire order on write, and
    back on read).  The wire value is the integer of that width, whose bytes
    [le_bytes] lays out least significant first. *)
Definition cpu_to_le16 (x : Z) : Z := u16 x.
Definition cpu_to_le32 (x : Z) : Z := u32 x.
Definition cpu_to_le64 (x : Z) : Z := u64 x.
Definition le16_to_cpu (x : Z) : Z := u16 x.
Definition le32_to_cpu (x : Z) : Z := u32 x.
Definition le64_to_cpu (x : Z) : Z := u64 x.

(** Modelled from the spec: [BIT_MASK] of linux/bits.h (section 4.3: the
    word that has bit [nr mod 64] set), [1UL << (nr % BITS_PER_LONG)] on a
    kernel with 64-bit [long]. *)
Definition BITS_PER_LONG : Z := 64.
Definition BIT_MASK (nr : Z) : Z := u64 (Z.shiftl 1 (nr mod BITS_PER_LONG)).

(** ** Little-endian byte strings *)

Fixpoint le_bytes (n : nat) (v : Z) : list Z :=
  match n with
  | O => []
  | S n' => v mod 256 :: le_bytes n' (v / 256)
  end.

Fixpoint le_value (bs : list Z) : Z :=
  match bs with
  | [] => 0
  | b :: bs' => b + 256 * le_value bs'
  end.

(** ** Byte buffers

    [load] and [store] never leave the buffer: bytes past its end read as
    nothing and are not written.  The C code has undefined behaviour there;
    the statements below assume the members they talk about lie inside. *)

Definition load (m : list Z) (a n : nat) : list Z := take n (drop a m).
Definition store (m : list Z) (a : nat) (bs : list Z) : list Z :=
  list_inserts a bs m.

Definition ld8 (m : list Z) (a : nat) : Z := le_value (load m a 1).
Definition ld16 (m : list Z) (a : nat) : Z := le_value (load m a 2).
Definition ld32 (m : list Z) (a : nat) : Z := le_value (load m a 4).
Definition ld64 (m : list Z) (a : nat) : Z := le_value (load m a 8).

Definition st8 (m : list Z) (a : nat) (v : Z) : list Z := store m a (le_bytes 1 v).
Definition st16 (m : list Z) (a : nat) (v : Z) : list Z := store m a (le_bytes 2 v).
Definition st32 (m : list Z) (a : nat) (v : Z) : list Z := store m a (le_bytes 4 v).
Definition st64 (m : list Z) (a : nat) (v : Z) : list Z := store m a (le_bytes 8 v).

(** The byte at address [a], 0 past the end. *)
Definition byte_at (m : list Z) (a : nat) : Z := default 0 (m !! a).

(** [for (i = 0; i < n; i++) body] with a constant bound [n]. *)
Definition for_upto {S : Type} (n : nat) (body : nat -> S -> S) (s : S) : S :=
  fold_left (fun s i => body i s) (seq 0 n) s.

(** ** dpsw.h: constants and host-side structures *)

Definition DPSW_MAX_IF : Z := 64.

Module dpsw_attr.
Record t := mk {
    id : Z; options : Z; max_vlans : Z; max_meters_per_if : Z; max_fdbs : Z;
    max_fdb_entries : Z; fdb_aging_time : Z; max_fdb_mc_groups : Z;
    num_ifs : Z; mem_size : Z; num_vlans : Z; num_fdbs : Z;
    component_type : Z }.
End dpsw_attr.

Module dpsw_link_cfg.
Record t := mk { rate : Z; options : Z }.
End dpsw_link_cfg.

Module dpsw_link_state.
Record t := mk { rate : Z; options : Z; up : Z }.
End dpsw_link_state.

Module dpsw_tci_cfg.
Record t := mk { pcp : Z; dei : Z; vlan_id : Z }.
End dpsw_tci_cfg.

Module dpsw_stp_cfg.
Record t := mk { vlan_id : Z; state : Z }.
End dpsw_stp_cfg.

Module dpsw_if_attr.
Record t := mk {
    num_tcs : Z; rate : Z; options : Z; enabled : Z; accept_all_vlan : Z;
    admit_untagged : Z; qdid : Z }.
End dpsw_if_attr.

Module dpsw_vlan_cfg.
Record t := mk { fdb_id : Z }.
End dpsw_vlan_cfg.

Module dpsw_vlan_if_cfg.
Record t := mk { num_ifs : Z; if_id : list Z }.
End dpsw_vlan_if_cfg.

Module dpsw_fdb_unicast_cfg.
Record t := mk { type : Z; mac_addr : list Z; if_egress : Z }.
End dpsw_fdb_unicast_cfg.

Module dpsw_fdb_multicast_cfg.
Record t := mk { type : Z; mac_addr : list Z; num_ifs : Z; if_id : list Z }.
End dpsw_fdb_multicast_cfg.

Module dpsw_acl_cfg.
Record t := mk { max_entries : Z }.
End dpsw_acl_cfg.

Module dpsw_acl_if_cfg.
Record t := mk { num_ifs : Z; if_id : list Z }.
End dpsw_acl_if_cfg.

Module dpsw_acl_fields.
Record t := mk {
    l2_dest_mac : list Z; l2_source_mac : list Z; l2_tpid : Z; l2_pcp_dei : Z;
    l2_vlan_id : Z; l2_ether_type : Z; l3_dscp : Z; l3_protocol : Z;
    l3_source_ip : Z; l3_dest_ip : Z; l4_source_port : Z; l4_dest_port : Z;
    frame_flags : Z }.
End dpsw_acl_fields.

Module dpsw_acl_key.
Record t := mk { match_ : dpsw_acl_fields.t; mask : dpsw_acl_fields.t }.
End dpsw_acl_key.

Module dpsw_acl_result.
Record t := mk { action : Z; if_id : Z; lookup_table : Z }.
End dpsw_acl_result.

Module dpsw_acl_entry_cfg.
Record t := mk { key_iova : Z; result : dpsw_acl_result.t; precedence : Z }.
End dpsw_acl_entry_cfg.

(** ** What dpsw.c takes from dpsw-cmd.h

    The command identifiers, the sub-byte field positions and the member
    offsets of the wire structures are declared in dpsw-cmd.h.  dpsw.c only
    names them, so they are tables here, and every function and statement
    below is parametric in them. *)

(** The [DPSW_CMDID_...] names dpsw.c uses. *)
Inductive cmdid_name :=
  | DPSW_CMDID_OPEN | DPSW_CMDID_CLOSE | DPSW_CMDID_ENABLE | DPSW_CMDID_DISABLE
  | DPSW_CMDID_RESET | DPSW_CMDID_SET_IRQ_ENABLE | DPSW_CMDID_SET_IRQ_MASK
  | DPSW_CMDID_GET_IRQ_STATUS | DPSW_CMDID_CLEAR_IRQ_STATUS | DPSW_CMDID_GET_ATTR
  | DPSW_CMDID_IF_GET_ATTR | DPSW_CMDID_IF_SET_LINK_CFG
  | DPSW_CMDID_IF_GET_LINK_STATE | DPSW_CMDID_IF_SET_FLOODING
  | DPSW_CMDID_IF_SET_BROADCAST | DPSW_CMDID_IF_SET_TCI | DPSW_CMDID_IF_GET_TCI
  | DPSW_CMDID_IF_SET_STP | DPSW_CMDID_IF_GET_COUNTER | DPSW_CMDID_IF_ENABLE
  | DPSW_CMDID_IF_DISABLE | DPSW_CMDID_IF_SET_MAX_FRAME_LENGTH
  | DPSW_CMDID_VLAN_ADD | DPSW_CMDID_VLAN_ADD_IF | DPSW_CMDID_VLAN_ADD_IF_UNTAGGED
  | DPSW_CMDID_VLAN_REMOVE_IF | DPSW_CMDID_VLAN_REMOVE_IF_UNTAGGED
  | DPSW_CMDID_VLAN_REMOVE | DPSW_CMDID_FDB_ADD_UNICAST | DPSW_CMDID_FDB_DUMP
  | DPSW_CMDID_FDB_REMOVE_UNICAST | DPSW_CMDID_FDB_ADD_MULTICAST
  | DPSW_CMDID_FDB_REMOVE_MULTICAST | DPSW_CMDID_FDB_SET_LEARNING_MODE
  | DPSW_CMDID_GET_API_VERSION | DPSW_CMDID_IF_GET_PORT_MAC_ADDR
  | DPSW_CMDID_IF_SET_PRIMARY_MAC_ADDR
  | DPSW_CMDID_ACL_ADD | DPSW_CMDID_ACL_REMOVE | DPSW_CMDID_ACL_ADD_IF
  | DPSW_CMDID_ACL_REMOVE_IF | DPSW_CMDID_ACL_ADD_ENTRY.

(** The [field] argument of [dpsw_set_field] and [dpsw_get_field]. *)
Inductive field_name :=
  | ENABLE | COMPONENT_TYPE | ACCEPT_ALL_VLAN | ADMIT_UNTAGGED | UP
  | VLAN_ID | DEI | PCP | STATE | COUNTER_TYPE | ENTRY_TYPE | LEARNING_MODE
  | RESULT_ACTION.

(** ** The command buffer *)

(** Modelled from the spec: the command header of linux/fsl/mc.h
    ([struct mc_cmd_header]), with the fields section 4.1 gives it: command
    id, flags and session token. *)
Record mc_cmd_header := mk_header {
  hdr_cmd_id : Z; hdr_flags : Z; hdr_token : Z }.

(** Modelled from the spec: [struct fsl_mc_command] of linux/fsl/mc.h
    (section 3): a header followed by the parameter bytes. *)
Record fsl_mc_command := mk_cmd {
  header : mc_cmd_header; params : list Z }.

(** Modelled from the spec: [mc_encode_cmd_header] of linux/fsl/mc.h
    (section 4.1): the header fields of a command identifier, a flag set and
    a session token, without any validation; the two 16-bit fields are
    little-endian like every multi-byte field (section 6). *)
Definition mc_encode_cmd_header (cmd_id cmd_flags token : Z) : mc_cmd_header :=
  {| hdr_cmd_id := cpu_to_le16 cmd_id;
     hdr_flags := u32 cmd_flags;
     hdr_token := cpu_to_le16 token |}.

(** Modelled from the spec: [mc_cmd_hdr_read_token] of linux/fsl/mc.h
    (section 4.1): the session token of a buffer after the round trip. *)
Definition mc_cmd_hdr_read_token (cmd : fsl_mc_command) : Z :=
  le16_to_cpu (hdr_token (header cmd)).

Definition set_header (cmd : fsl_mc_command) (h : mc_cmd_header) : fsl_mc_command :=
  {| header := h; params := params cmd |}.

Definition set_params (cmd : fsl_mc_command) (p : list Z) : fsl_mc_command :=
  {| header := header cmd; params := p |}.

(** Member access through a struct pointer laid over [cmd.params]. *)
Definition wr8 (cmd : fsl_mc_command) (a : nat) (v : Z) := set_params cmd (st8 (params cmd) a v).
Definition wr16 (cmd : fsl_mc_command) (a : nat) (v : Z) := set_params cmd (st16 (params cmd) a v).
Definition wr32 (cmd : fsl_mc_command) (a : nat) (v : Z) := set_params cmd (st32 (params cmd) a v).
Definition wr64 (cmd : fsl_mc_command) (a : nat) (v : Z) := set_params cmd (st64 (params cmd) a v).
Definition rd8 (cmd : fsl_mc_command) (a : nat) : Z := ld8 (params cmd) a.
Definition rd16 (cmd : fsl_mc_command) (a : nat) : Z := ld16 (params cmd) a.
Definition rd32 (cmd : fsl_mc_command) (a : nat) : Z := ld32 (params cmd) a.
Definition rd64 (cmd : fsl_mc_command) (a : nat) : Z := ld64 (params cmd) a.

(** ** The interface-set bitmap *)

(** One turn of the loop body of [build_if_id_bitmap]:
    [if (id[i] < DPSW_MAX_IF) bmap[id[i] / 64] |= cpu_to_le64(BIT_MASK(id[i] % 64));]
    [bmap] is the address of the array inside the buffer [m]. *)
Definition bitmap_set (m : list Z) (bmap : nat) (idi : Z) : list Z :=
  if idi <? DPSW_MAX_IF then
    let a := (bmap + 8 * Z.to_nat (idi / 64))%nat in
    st64 m a (Z.lor (ld64 m a) (cpu_to_le64 (BIT_MASK (idi mod 64))))
  else m.

(** The loop [for (i = 0; (i < num_ifs) && (i < DPSW_MAX_IF); i++)], from
    index [i] on; [fuel] bounds the number of turns. *)
Fixpoint build_if_id_bitmap_from (fuel : nat) (i : nat) (m : list Z) (bmap : nat)
    (id : list Z) (num_ifs : Z) : list Z :=
  match fuel with
  | O => m
  | S fuel' =>
      if (Z.of_nat i <? num_ifs) && (Z.of_nat i <? DPSW_MAX_IF) then
        build_if_id_bitmap_from fuel' (S i) (bitmap_set m bmap (nth i id 0)) bmap id num_ifs
      else m
  end.

(** The loop leaves after at most [DPSW_MAX_IF] turns, so that much fuel is
    never used up ([build_if_id_bitmap_fuel] below). *)
Definition build_if_id_bitmap (m : list Z) (bmap : nat) (id : list Z) (num_ifs : Z) : list Z :=
  build_if_id_bitmap_from (Z.to_nat DPSW_MAX_IF) 0 m bmap id num_ifs.

(** ** A concrete choice of the tables

    One set of identifiers, field positions and member offsets on which the
    statements of this file are exercised: the members of each structure
    are apart from each other and inside seven 64-bit parameter words. *)

Definition sample_cmd_id (id : Z) : Z := Z.lor (Z.shiftl id 4) 1.

Definition sample_cmdid (c : cmdid_name) : Z :=
  sample_cmd_id
    match c with
    | DPSW_CMDID_CLOSE => 0x800 | DPSW_CMDID_OPEN => 0x802
    | DPSW_CMDID_GET_API_VERSION => 0xa02
    | DPSW_CMDID_ENABLE => 0x002 | DPSW_CMDID_DISABLE => 0x003
    | DPSW_CMDID_GET_ATTR => 0x004 | DPSW_CMDID_RESET => 0x005
    | DPSW_CMDID_SET_IRQ_ENABLE => 0x012 | DPSW_CMDID_SET_IRQ_MASK => 0x014
    | DPSW_CMDID_GET_IRQ_STATUS => 0x016 | DPSW_CMDID_CLEAR_IRQ_STATUS => 0x017
    | DPSW_CMDID_IF_SET_TCI => 0x030 | DPSW_CMDID_IF_SET_STP => 0x031
    | DPSW_CMDID_IF_GET_COUNTER => 0x034 | DPSW_CMDID_IF_ENABLE => 0x03D
    | DPSW_CMDID_IF_DISABLE => 0x03E | DPSW_CMDID_IF_GET_ATTR => 0x042
    | DPSW_CMDID_IF_SET_MAX_FRAME_LENGTH => 0x044
    | DPSW_CMDID_IF_GET_LINK_STATE => 0x046 | DPSW_CMDID_IF_SET_FLOODING => 0x047
    | DPSW_CMDID_IF_SET_BROADCAST => 0x048 | DPSW_CMDID_IF_GET_TCI => 0x04A
    | DPSW_CMDID_IF_SET_LINK_CFG => 0x04C
    | DPSW_CMDID_VLAN_ADD => 0x060 | DPSW_CMDID_VLAN_ADD_IF => 0x061
    | DPSW_CMDID_VLAN_ADD_IF_UNTAGGED => 0x062 | DPSW_CMDID_VLAN_REMOVE_IF => 0x064
    | DPSW_CMDID_VLAN_REMOVE_IF_UNTAGGED => 0x065 | DPSW_CMDID_VLAN_REMOVE => 0x067
    | DPSW_CMDID_FDB_ADD_UNICAST => 0x084 | DPSW_CMDID_FDB_REMOVE_UNICAST => 0x085
    | DPSW_CMDID_FDB_ADD_MULTICAST => 0x086
    | DPSW_CMDID_FDB_REMOVE_MULTICAST => 0x087
    | DPSW_CMDID_FDB_SET_LEARNING_MODE => 0x088 | DPSW_CMDID_FDB_DUMP => 0x08A
    | DPSW_CMDID_ACL_ADD => 0x090 | DPSW_CMDID_ACL_REMOVE => 0x091
    | DPSW_CMDID_ACL_ADD_ENTRY => 0x092 | DPSW_CMDID_ACL_ADD_IF => 0x094
    | DPSW_CMDID_ACL_REMOVE_IF => 0x095
    | DPSW_CMDID_IF_GET_PORT_MAC_ADDR => 0x0A7
    | DPSW_CMDID_IF_SET_PRIMARY_MAC_ADDR => 0x0A9
    end.

Definition sample_shift (f : field_name) : Z :=
  match f with
  | DEI => 12 | PCP => 13 | ACCEPT_ALL_VLAN => 6 | ADMIT_UNTAGGED => 1
  | ENABLE | COMPONENT_TYPE | UP | VLAN_ID | STATE | COUNTER_TYPE
  | ENTRY_TYPE | LEARNING_MODE | RESULT_ACTION => 0
  end.

Definition sample_size (f : field_name) : Z :=
  match f with
  | ENABLE | UP | DEI | ACCEPT_ALL_VLAN => 1
  | PCP => 3
  | COUNTER_TYPE => 5
  | VLAN_ID => 12
  | COMPONENT_TYPE | ADMIT_UNTAGGED | STATE | ENTRY_TYPE | LEARNING_MODE
  | RESULT_ACTION => 4
  end.

Definition sample_layout : list (string * list (string * nat)) :=
  [ ("dpsw_cmd_open", [("dpsw_id", 0)]);
    ("dpsw_cmd_set_irq_enable", [("enable_state", 0); ("irq_index", 4)]);
    ("dpsw_cmd_set_irq_mask", [("mask", 0); ("irq_index", 4)]);
    ("dpsw_cmd_get_irq_status", [("status", 0); ("irq_index", 4)]);
    ("dpsw_rsp_get_irq_status", [("status", 0)]);
    ("dpsw_cmd_clear_irq_status", [("status", 0); ("irq_index", 4)]);
    ("dpsw_rsp_get_attr",
       [("num_ifs", 0); ("max_fdbs", 2); ("num_fdbs", 3); ("max_vlans", 4);
        ("num_vlans", 6); ("max_fdb_entries", 8); ("fdb_aging_time", 10);
        ("dpsw_id", 12); ("mem_size", 16); ("max_fdb_mc_groups", 18);
        ("max_meters_per_if", 20); ("component_type", 21); ("options", 24)]);
    ("dpsw_cmd_if", [("if_id", 0)]);
    ("dpsw_rsp_if_get_attr",
       [("conf", 0); ("num_tcs", 2); ("qdid", 4); ("options", 8); ("rate", 16)]);
    ("dpsw_cmd_if_set_link_cfg", [("if_id", 0); ("rate", 12); ("options", 16)]);
    ("dpsw_cmd_if_get_link_state", [("if_id", 0)]);
    ("dpsw_rsp_if_get_link_state", [("up", 4); ("rate", 12); ("options", 16)]);
    ("dpsw_cmd_if_set_flooding", [("if_id", 0); ("enable", 2)]);
    ("dpsw_cmd_if_set_broadcast", [("if_id", 0); ("enable", 2)]);
    ("dpsw_cmd_if_set_tci", [("if_id", 0); ("conf", 2)]);
    ("dpsw_cmd_if_get_tci", [("if_id", 0)]);
    ("dpsw_rsp_if_get_tci", [("vlan_id", 2); ("dei", 4); ("pcp", 5)]);
    ("dpsw_cmd_if_set_stp", [("if_id", 0); ("vlan_id", 2); ("state", 4)]);
    ("dpsw_cmd_if_get_counter", [("if_id", 0); ("type", 2)]);
    ("dpsw_rsp_if_get_counter", [("counter", 8)]);
    ("dpsw_cmd_if_set_max_frame_length", [("if_id", 0); ("frame_length", 2)]);
    ("dpsw_vlan_add", [("fdb_id", 0); ("vlan_id", 2)]);
    ("dpsw_cmd_vlan_manage_if", [("vlan_id", 2); ("if_id", 8)]);
    ("dpsw_cmd_vlan_remove", [("vlan_id", 2)]);
    ("dpsw_cmd_fdb_unicast_op",
       [("fdb_id", 0); ("mac_addr", 2); ("if_egress", 8); ("type", 10)]);
    ("dpsw_cmd_fdb_dump", [("fdb_id", 0); ("iova_size", 4); ("iova_addr", 8)]);
    ("dpsw_rsp_fdb_dump", [("num_entries", 0)]);
    ("dpsw_cmd_fdb_multicast_op",
       [("fdb_id", 0); ("num_ifs", 2); ("type", 4); ("if_id", 8); ("mac_addr", 42)]);
    ("dpsw_cmd_fdb_set_learning_mode", [("fdb_id", 0); ("mode", 2)]);
    ("dpsw_rsp_get_api_version", [("version_major", 0); ("version_minor", 2)]);
    ("dpsw_rsp_if_get_mac_addr", [("mac_addr", 2)]);
    ("dpsw_cmd_if_set_mac_addr", [("if_id", 0); ("mac_addr", 2)]);
    ("dpsw_cmd_acl_add", [("max_entries", 2)]);
    ("dpsw_rsp_acl_add", [("acl_id", 0)]);
    ("dpsw_cmd_acl_remove", [("acl_id", 0)]);
    ("dpsw_cmd_acl_if", [("acl_id", 0); ("num_ifs", 2); ("if_id", 8)]);
    ("dpsw_cmd_acl_entry",
       [("acl_id", 0); ("result_if_id", 2); ("precedence", 4);
        ("result_action", 8); ("key_iova", 48)]);
    ("dpsw_prep_acl_entry",
       [("match_l2_dest_mac", 0); ("match_l2_tpid", 6);
        ("match_l2_source_mac", 8); ("match_l2_vlan_id", 14);
        ("match_l3_dest_ip", 16); ("match_l3_source_ip", 20);
        ("match_l4_dest_port", 24); ("match_l4_source_port", 26);
        ("match_l2_ether_type", 28); ("match_l2_pcp_dei", 30);
        ("match_l3_dscp", 31);
        ("mask_l2_dest_mac", 32); ("mask_l2_tpid", 38);
        ("mask_l2_source_mac", 40); ("mask_l2_vlan_id", 46);
        ("mask_l3_dest_ip", 48); ("mask_l3_source_ip", 52);
        ("mask_l4_dest_port", 56); ("mask_l4_source_port", 58);
        ("mask_l2_ether_type", 60); ("mask_l2_pcp_dei", 62);
        ("mask_l3_dscp", 63);
        ("match_l3_protocol", 64); ("mask_l3_protocol", 65);
        ("match_frame_flags", 66); ("mask_frame_flags", 67)]) ]%nat.

Fixpoint assoc {A : Type} (k : string) (l : list (string * A)) : option A :=
  match l with
  | [] => None
  | (k', v) :: l' => if String.eqb k k' then Some v else assoc k l'
  end.

Definition sample_offsetof (s f : string) : nat :=
  match assoc s sample_layout with
  | Some members => default 0%nat (assoc f members)
  | None => 0%nat
  end.

Definition sample_num_of_params : nat := 7.

(** A transport that accepts every command and hands the buffer back as it
    is. *)
Definition sample_exec (portal : unit) (cmd : fsl_mc_command)
    : Z * fsl_mc_command * unit := (0, cmd, portal).

(** A transport that accepts every command and answers with the session
    token [0x2a5] in the header. *)
Definition sample_exec_token (portal : unit) (cmd : fsl_mc_command)
    : Z * fsl_mc_command * unit :=
  (0, {| header := {| hdr_cmd_id := hdr_cmd_id (header cmd);
                      hdr_flags := hdr_flags (header cmd);
                      hdr_token := 0x2a5 |};
         params := params cmd |}, portal).

(** A transport that answers every command with the status [err] and the
    parameters [rsp]. *)
Definition sample_exec_with (err : Z) (rsp : list Z) (portal : unit)
    (cmd : fsl_mc_command) : Z * fsl_mc_command * unit :=
  (err, {| header := header cmd; params := rsp |}, portal).

(** A response to [dpsw_if_get_tci] in the layout below: VLAN id [0xABC] at
    offset 2, DEI 1 at offset 4, PCP 5 at offset 5. *)
Definition sample_tci_rsp : list Z := [0; 0; 0xBC; 0x0A; 1; 5] ++ replicate 50 0.

Definition sample_mac : list Z := [0x00; 0x04; 0x9f; 0x05; 0xa1; 0xb2].
Definition sample_mask : list Z := [0xff; 0xff; 0xff; 0x00; 0x00; 0x00].

Section DPSW.

(** [DPSW_CMDID_...]: the numeric command identifiers. *)
Variable cmdid : cmdid_name -> Z.
(** [DPSW_..._SHIFT] and [DPSW_..._SIZE]: position and width of the sub-byte
    fields. *)
Variable SHIFT : field_name -> Z.
Variable SIZE : field_name -> Z.
(** [offsetof s f]: byte offset of member [f] of [struct s]. *)
Variable offsetof : string -> string -> nat.
(** [MC_CMD_NUM_OF_PARAMS]: number of 64-bit words of [cmd.params]. *)
Variable MC_CMD_NUM_OF_PARAMS : nat.

(** The transport: what the Management Complex answers to a command.  It is
    outside this layer; [mc_exec] stands for any portal, [mc_portal] for its
    state. *)
Variable mc_portal : Type.
Variable mc_exec : mc_portal -> fsl_mc_command -> Z * fsl_mc_command * mc_portal.

(** ** Sub-byte fields *)

(** Modelled from the spec: [DPSW_MASK] of dpsw-cmd.h (section 4.2): the
    bits of a field of [SIZE] bits at bit offset [SHIFT]. *)
Definition DPSW_MASK (field : field_name) : Z :=
  Z.shiftl (Z.ones (SIZE field)) (SHIFT field).

(** Modelled from the spec: [dpsw_set_field] of dpsw-cmd.h (section 4.2): an
    N-bit unsigned value is written at a bit offset of a slot, the other
    bits of the slot stay, a value wider than N bits is cut to N bits.
    dpsw.c applies it to slots that are zero; the write is
    [var |= (val << shift) & mask]. *)
Definition dpsw_set_field (var : Z) (field : field_name) (val : Z) : Z :=
  Z.lor var (Z.land (Z.shiftl val (SHIFT field)) (DPSW_MASK field)).

(** Modelled from the spec: [dpsw_get_field] of dpsw-cmd.h (section 4.2):
    reading masks exactly the width of the field. *)
Definition dpsw_get_field (var : Z) (field : field_name) : Z :=
  Z.shiftr (Z.land var (DPSW_MASK field)) (SHIFT field).

(** ** The transport call *)

(** Modelled from the spec: [struct fsl_mc_io] of linux/fsl/mc.h, the
    caller's handle on the transport (section 6).  [io_sent] records the
    buffers as they were submitted, oldest first. *)
Record fsl_mc_io := mk_io {
  io_portal : mc_portal; io_sent : list fsl_mc_command }.

(** Modelled from the spec: [mc_send_command] of the fsl-mc bus driver
    (section 6: [submit(command_buffer) -> status]); the response replaces
    the command in the buffer. *)
Definition mc_send_command (mc_io : fsl_mc_io) (cmd : fsl_mc_command)
    : Z * fsl_mc_command * fsl_mc_io :=
  let '(err, rsp, portal) := mc_exec (io_portal mc_io) cmd in
  (err, rsp, {| io_portal := portal; io_sent := io_sent mc_io ++ [cmd] |}).

(** [struct fsl_mc_command cmd = { 0 };] *)
Definition cmd_zero : fsl_mc_command :=
  {| header := {| hdr_cmd_id := 0; hdr_flags := 0; hdr_token := 0 |};
     params := replicate (8 * MC_CMD_NUM_OF_PARAMS) 0 |}.

(** [return mc_send_command(mc_io, &cmd);] *)
Definition return_send (mc_io : fsl_mc_io) (cmd : fsl_mc_command) : Z * fsl_mc_io :=
  let '(err, _, mc_io) := mc_send_command mc_io cmd in (err, mc_io).

(** ** The operations of dpsw.c

    An output parameter is passed in with the value the caller's object has
    and handed back with the value it has on return. *)

Definition dpsw_open (mc_io : fsl_mc_io) (cmd_flags dpsw_id : Z) (token : Z)
    : Z * Z * fsl_mc_io :=
  let cmd := cmd_zero in
  let cmd := set_header cmd (mc_encode_cmd_header (cmdid DPSW_CMDID_OPEN) cmd_flags 0) in
  let cmd_params := offsetof "dpsw_cmd_open" in
  let cmd := wr32 cmd (cmd_params "dpsw_id") (cpu_to_le32 dpsw_id) in
  let '(err, cmd, mc_io) := mc_send_command mc_io cmd in
  if negb (err =? 0) then (err, token, mc_io) else
  let token := mc_cmd_hdr_read_token cmd in
  (0, token, mc_io).

Definition dpsw_close (mc_io : fsl_mc_io) (cmd_flags token : Z) : Z * fsl_mc_io :=
  let cmd := cmd_zero in
  let cmd := set_header cmd (mc_encode_cmd_header (cmdid DPSW_CMDID_CLOSE) cmd_flags token) in
  return_send mc_io cmd.

Definition dpsw_enable (mc_io : fsl_mc_io) (cmd_flags token : Z) : Z * fsl_mc_io :=
  let cmd := cmd_zero in
  let cmd := set_header cmd (mc_encode_cmd_header (cmdid DPSW_CMDID_ENABLE) cmd_flags token) in
  return_send mc_io cmd.

Definition dpsw_disable (mc_io : fsl_mc_io) (cmd_flags token : Z) : Z * fsl_mc_io :=
  let cmd := cmd_zero in
  let cmd := set_header cmd (mc_encode_cmd_header (cmdid DPSW_CMDID_DISABLE) cmd_flags token) in
  return_send mc_io cmd.

Definition dpsw_reset (mc_io : fsl_mc_io) (cmd_flags token : Z) : Z * fsl_mc_io :=
  let cmd := cmd_zero in
  let cmd := set_header cmd (mc_encode_cmd_header (cmdid DPSW_CMDID_RESET) cmd_flags token) in
  return_send mc_io cmd.

Definition dpsw_set_irq_enable (mc_io : fsl_mc_io) (cmd_flags token irq_index en : Z)
    : Z * fsl_mc_io :=
  let cmd := cmd_zero in
  let cmd := set_header cmd (mc_encode_cmd_header (cmdid DPSW_CMDID_SET_IRQ_ENABLE) cmd_flags token) in
  let cmd_params := offsetof "dpsw_cmd_set_irq_enable" in
  let cmd := wr8 cmd (cmd_params "enable_state")
               (dpsw_set_field (rd8 cmd (cmd_params "enable_state")) ENABLE en) in
  let cmd := wr8 cmd (cmd_params "irq_index") irq_index in
  return_send mc_io cmd.

Definition dpsw_set_irq_mask (mc_io : fsl_mc_io) (cmd_flags token irq_index mask : Z)
    : Z * fsl_mc_io :=
  let cmd := cmd_zero in
  let cmd := set_header cmd (mc_encode_cmd_header (cmdid DPSW_CMDID_SET_IRQ_MASK) cmd_flags token) in
  let cmd_params := offsetof "dpsw_cmd_set_irq_mask" in
  let cmd := wr32 cmd (cmd_params "mask") (cpu_to_le32 mask) in
  let cmd := wr8 cmd (cmd_params "irq_index") irq_index in
  return_send mc_io cmd.

Definition dpsw_get_irq_status (mc_io : fsl_mc_io) (cmd_flags token irq_index : Z)
    (status : Z) : Z * Z * fsl_mc_io :=
  let cmd := cmd_zero in
  let cmd := set_header cmd (mc_encode_cmd_header (cmdid DPSW_CMDID_GET_IRQ_STATUS) cmd_flags token) in
  let cmd_params := offsetof "dpsw_cmd_get_irq_status" in
  let cmd := wr32 cmd (cmd_params "status") (cpu_to_le32 status) in
  let cmd := wr8 cmd (cmd_params "irq_index") irq_index in
  let '(err, cmd, mc_io) := mc_send_command mc_io cmd in
  if negb (err =? 0) then (err, status, mc_io) else
  let rsp_params := offsetof "dpsw_rsp_get_irq_status" in
  let status := le32_to_cpu (rd32 cmd (rsp_params "status")) in
  (0, status, mc_io).

Definition dpsw_clear_irq_status (mc_io : fsl_mc_io) (cmd_flags token irq_index status : Z)
    : Z * fsl_mc_io :=
  let cmd := cmd_zero in
  let cmd := set_header cmd (mc_encode_cmd_header (cmdid DPSW_CMDID_CLEAR_IRQ_STATUS) cmd_flags token) in
  let cmd_params := offsetof "dpsw_cmd_clear_irq_status" in
  let cmd := wr32 cmd (cmd_params "status") (cpu_to_le32 status) in
  let cmd := wr8 cmd (cmd_params "irq_index") irq_index in
  return_send mc_io cmd.

Definition dpsw_get_attributes (mc_io : fsl_mc_io) (cmd_flags token : Z)
    (attr : dpsw_attr.t) : Z * dpsw_attr.t * fsl_mc_io :=
  let cmd := cmd_zero in
  let cmd := set_header cmd (mc_encode_cmd_header (cmdid DPSW_CMDID_GET_ATTR) cmd_flags token) in
  let '(err, cmd, mc_io) := mc_send_command mc_io cmd in
  if negb (err =? 0) then (err, attr, mc_io) else
  let rsp_params := offsetof "dpsw_rsp_get_attr" in
  let attr :=
    {| dpsw_attr.num_ifs := le16_to_cpu (rd16 cmd (rsp_params "num_ifs"));
       dpsw_attr.max_fdbs := rd8 cmd (rsp_params "max_fdbs");
       dpsw_attr.num_fdbs := rd8 cmd (rsp_params "num_fdbs");
       dpsw_attr.max_vlans := le16_to_cpu (rd16 cmd (rsp_params "max_vlans"));
       dpsw_attr.num_vlans := le16_to_cpu (rd16 cmd (rsp_params "num_vlans"));
       dpsw_attr.max_fdb_entries := le16_to_cpu (rd16 cmd (rsp_params "max_fdb_entries"));
       dpsw_attr.fdb_aging_time := le16_to_cpu (rd16 cmd (rsp_params "fdb_aging_time"));
       dpsw_attr.id := int_of_u32 (le32_to_cpu (rd32 cmd (rsp_params "dpsw_id")));
       dpsw_attr.mem_size := le16_to_cpu (rd16 cmd (rsp_params "mem_size"));
       dpsw_attr.max_fdb_mc_groups := le16_to_cpu (rd16 cmd (rsp_params "max_fdb_mc_groups"));
       dpsw_attr.max_meters_per_if := rd8 cmd (rsp_params "max_meters_per_if");
       dpsw_attr.options := le64_to_cpu (rd64 cmd (rsp_params "options"));
       dpsw_attr.component_type :=
         dpsw_get_field (rd8 cmd (rsp_params "component_type")) COMPONENT_TYPE |} in
  (0, attr, mc_io).

Definition dpsw_if_get_attributes (mc_io : fsl_mc_io) (cmd_flags token if_id : Z)
    (attr : dpsw_if_attr.t) : Z * dpsw_if_attr.t * fsl_mc_io :=
  let cmd := cmd_zero in
  let cmd := set_header cmd (mc_encode_cmd_header (cmdid DPSW_CMDID_IF_GET_ATTR) cmd_flags token) in
  let cmd_params := offsetof "dpsw_cmd_if" in
  let cmd := wr16 cmd (cmd_params "if_id") (cpu_to_le16 if_id) in
  let '(err, cmd, mc_io) := mc_send_command mc_io cmd in
  if negb (err =? 0) then (err, attr, mc_io) else
  let rsp_params := offsetof "dpsw_rsp_if_get_attr" in
  let attr :=
    {| dpsw_if_attr.num_tcs := rd8 cmd (rsp_params "num_tcs");
       dpsw_if_attr.rate := le32_to_cpu (rd32 cmd (rsp_params "rate"));
       dpsw_if_attr.options := le32_to_cpu (rd32 cmd (rsp_params "options"));
       dpsw_if_attr.qdid := le16_to_cpu (rd16 cmd (rsp_params "qdid"));
       dpsw_if_attr.enabled := dpsw_get_field (rd8 cmd (rsp_params "conf")) ENABLE;
       dpsw_if_attr.accept_all_vlan :=
         dpsw_get_field (rd8 cmd (rsp_params "conf")) ACCEPT_ALL_VLAN;
       dpsw_if_attr.admit_untagged :=
         dpsw_get_field (rd8 cmd (rsp_params "conf")) ADMIT_UNTAGGED |} in
  (0, attr, mc_io).

Definition dpsw_if_set_link_cfg (mc_io : fsl_mc_io) (cmd_flags token if_id : Z)
    (cfg : dpsw_link_cfg.t) : Z * fsl_mc_io :=
  let cmd := cmd_zero in
  let cmd := set_header cmd (mc_encode_cmd_header (cmdid DPSW_CMDID_IF_SET_LINK_CFG) cmd_flags token) in
  let cmd_params := offsetof "dpsw_cmd_if_set_link_cfg" in
  let cmd := wr16 cmd (cmd_params "if_id") (cpu_to_le16 if_id) in
  let cmd := wr32 cmd (cmd_params "rate") (cpu_to_le32 (dpsw_link_cfg.rate cfg)) in
  let cmd := wr64 cmd (cmd_params "options") (cpu_to_le64 (dpsw_link_cfg.options cfg)) in
  return_send mc_io cmd.

Definition dpsw_if_get_link_state (mc_io : fsl_mc_io) (cmd_flags token if_id : Z)
    (state : dpsw_link_state.t) : Z * dpsw_link_state.t * fsl_mc_io :=
  let cmd := cmd_zero in
  let cmd := set_header cmd (mc_encode_cmd_header (cmdid DPSW_CMDID_IF_GET_LINK_STATE) cmd_flags token) in
  let cmd_params := offsetof "dpsw_cmd_if_get_link_state" in
  let cmd := wr16 cmd (cmd_params "if_id") (cpu_to_le16 if_id) in
  let '(err, cmd, mc_io) := mc_send_command mc_io cmd in
  if negb (err =? 0) then (err, state, mc_io) else
  let rsp_params := offsetof "dpsw_rsp_if_get_link_state" in
  let state :=
    {| dpsw_link_state.rate := le32_to_cpu (rd32 cmd (rsp_params "rate"));
       dpsw_link_state.options := le64_to_cpu (rd64 cmd (rsp_params "options"));
       dpsw_link_state.up := u8 (dpsw_get_field (rd8 cmd (rsp_params "up")) UP) |} in
  (0, state, mc_io).

Definition dpsw_if_set_flooding (mc_io : fsl_mc_io) (cmd_flags token if_id en : Z)
    : Z * fsl_mc_io :=
  let cmd := cmd_zero in
  let cmd := set_header cmd (mc_encode_cmd_header (cmdid DPSW_CMDID_IF_SET_FLOODING) cmd_flags token) in
  let cmd_params := offsetof "dpsw_cmd_if_set_flooding" in
  let cmd := wr16 cmd (cmd_params "if_id") (cpu_to_le16 if_id) in
  let cmd := wr8 cmd (cmd_params "enable")
               (dpsw_set_field (rd8 cmd (cmd_params "enable")) ENABLE en) in
  return_send mc_io cmd.

Definition dpsw_if_set_broadcast (mc_io : fsl_mc_io) (cmd_flags token if_id en : Z)
    : Z * fsl_mc_io :=
  let cmd := cmd_zero in
  let cmd := set_header cmd (mc_encode_cmd_header (cmdid DPSW_CMDID_IF_SET_BROADCAST) cmd_flags token) in
  let cmd_params := offsetof "dpsw_cmd_if_set_broadcast" in
  let cmd := wr16 cmd (cmd_params "if_id") (cpu_to_le16 if_id) in
  let cmd := wr8 cmd (cmd_params "enable")
               (dpsw_set_field (rd8 cmd (cmd_params "enable")) ENABLE en) in
  return_send mc_io cmd.

Definition dpsw_if_set_tci (mc_io : fsl_mc_io) (cmd_flags token if_id : Z)
    (cfg : dpsw_tci_cfg.t) : Z * fsl_mc_io :=
  let cmd := cmd_zero in
  let tmp_conf := 0 in
  let cmd := set_header cmd (mc_encode_cmd_header (cmdid DPSW_CMDID_IF_SET_TCI) cmd_flags token) in
  let cmd_params := offsetof "dpsw_cmd_if_set_tci" in
  let cmd := wr16 cmd (cmd_params "if_id") (cpu_to_le16 if_id) in
  let tmp_conf := u16 (dpsw_set_field tmp_conf VLAN_ID (dpsw_tci_cfg.vlan_id cfg)) in
  let tmp_conf := u16 (dpsw_set_field tmp_conf DEI (dpsw_tci_cfg.dei cfg)) in
  let tmp_conf := u16 (dpsw_set_field tmp_conf PCP (dpsw_tci_cfg.pcp cfg)) in
  let cmd := wr16 cmd (cmd_params "conf") (cpu_to_le16 tmp_conf) in
  return_send mc_io cmd.

Definition dpsw_if_get_tci (mc_io : fsl_mc_io) (cmd_flags token if_id : Z)
    (cfg : dpsw_tci_cfg.t) : Z * dpsw_tci_cfg.t * fsl_mc_io :=
  let cmd := cmd_zero in
  let cmd := set_header cmd (mc_encode_cmd_header (cmdid DPSW_CMDID_IF_GET_TCI) cmd_flags token) in
  let cmd_params := offsetof "dpsw_cmd_if_get_tci" in
  let cmd := wr16 cmd (cmd_params "if_id") (cpu_to_le16 if_id) in
  let '(err, cmd, mc_io) := mc_send_command mc_io cmd in
  if negb (err =? 0) then (err, cfg, mc_io) else
  let rsp_params := offsetof "dpsw_rsp_if_get_tci" in
  let cfg :=
    {| dpsw_tci_cfg.pcp := rd8 cmd (rsp_params "pcp");
       dpsw_tci_cfg.dei := rd8 cmd (rsp_params "dei");
       dpsw_tci_cfg.vlan_id := le16_to_cpu (rd16 cmd (rsp_params "vlan_id")) |} in
  (0, cfg, mc_io).

Definition dpsw_if_set_stp (mc_io : fsl_mc_io) (cmd_flags token if_id : Z)
    (cfg : dpsw_stp_cfg.t) : Z * fsl_mc_io :=
  let cmd := cmd_zero in
  let cmd := set_header cmd (mc_encode_cmd_header (cmdid DPSW_CMDID_IF_SET_STP) cmd_flags token) in
  let cmd_params := offsetof "dpsw_cmd_if_set_stp" in
  let cmd := wr16 cmd (cmd_params "if_id") (cpu_to_le16 if_id) in
  let cmd := wr16 cmd (cmd_params "vlan_id") (cpu_to_le16 (dpsw_stp_cfg.vlan_id cfg)) in
  let cmd := wr8 cmd (cmd_params "state")
               (dpsw_set_field (rd8 cmd (cmd_params "state")) STATE (dpsw_stp_cfg.state cfg)) in
  return_send mc_io cmd.

Definition dpsw_if_get_counter (mc_io : fsl_mc_io) (cmd_flags token if_id type : Z)
    (counter : Z) : Z * Z * fsl_mc_io :=
  let cmd := cmd_zero in
  let cmd := set_header cmd (mc_encode_cmd_header (cmdid DPSW_CMDID_IF_GET_COUNTER) cmd_flags token) in
  let cmd_params := offsetof "dpsw_cmd_if_get_counter" in
  let cmd := wr16 cmd (cmd_params "if_id") (cpu_to_le16 if_id) in
  let cmd := wr8 cmd (cmd_params "type")
               (dpsw_set_field (rd8 cmd (cmd_params "type")) COUNTER_TYPE type) in
  let '(err, cmd, mc_io) := mc_send_command mc_io cmd in
  if negb (err =? 0) then (err, counter, mc_io) else
  let rsp_params := offsetof "dpsw_rsp_if_get_counter" in
  let counter := le64_to_cpu (rd64 cmd (rsp_params "counter")) in
  (0, counter, mc_io).

Definition dpsw_if_enable (mc_io : fsl_mc_io) (cmd_flags token if_id : Z) : Z * fsl_mc_io :=
  let cmd := cmd_zero in
  let cmd := set_header cmd (mc_encode_cmd_header (cmdid DPSW_CMDID_IF_ENABLE) cmd_flags token) in
  let cmd_params := offsetof "dpsw_cmd_if" in
  let cmd := wr16 cmd (cmd_params "if_id") (cpu_to_le16 if_id) in
  return_send mc_io cmd.

Definition dpsw_if_disable (mc_io : fsl_mc_io) (cmd_flags token if_id : Z) : Z * fsl_mc_io :=
  let cmd := cmd_zero in
  let cmd := set_header cmd (mc_encode_cmd_header (cmdid DPSW_CMDID_IF_DISABLE) cmd_flags token) in
  let cmd_params := offsetof "dpsw_cmd_if" in
  let cmd := wr16 cmd (cmd_params "if_id") (cpu_to_le16 if_id) in
  return_send mc_io cmd.

Definition dpsw_if_set_max_frame_length (mc_io : fsl_mc_io)
    (cmd_flags token if_id frame_length : Z) : Z * fsl_mc_io :=
  let cmd := cmd_zero in
  let cmd := set_header cmd
               (mc_encode_cmd_header (cmdid DPSW_CMDID_IF_SET_MAX_FRAME_LENGTH) cmd_flags token) in
  let cmd_params := offsetof "dpsw_cmd_if_set_max_frame_length" in
  let cmd := wr16 cmd (cmd_params "if_id") (cpu_to_le16 if_id) in
  let cmd := wr16 cmd (cmd_params "frame_length") (cpu_to_le16 frame_length) in
  return_send mc_io cmd.

Definition dpsw_vlan_add (mc_io : fsl_mc_io) (cmd_flags token vlan_id : Z)
    (cfg : dpsw_vlan_cfg.t) : Z * fsl_mc_io :=
  let cmd := cmd_zero in
  let cmd := set_header cmd (mc_encode_cmd_header (cmdid DPSW_CMDID_VLAN_ADD) cmd_flags token) in
  let cmd_params := offsetof "dpsw_vlan_add" in
  let cmd := wr16 cmd (cmd_params "fdb_id") (cpu_to_le16 (dpsw_vlan_cfg.fdb_id cfg)) in
  let cmd := wr16 cmd (cmd_params "vlan_id") (cpu_to_le16 vlan_id) in
  return_send mc_io cmd.

Definition dpsw_vlan_add_if (mc_io : fsl_mc_io) (cmd_flags token vlan_id : Z)
    (cfg : dpsw_vlan_if_cfg.t) : Z * fsl_mc_io :=
  let cmd := cmd_zero in
  let cmd := set_header cmd (mc_encode_cmd_header (cmdid DPSW_CMDID_VLAN_ADD_IF) cmd_flags token) in
  let cmd_params := offsetof "dpsw_cmd_vlan_manage_if" in
  let cmd := wr16 cmd (cmd_params "vlan_id") (cpu_to_le16 vlan_id) in
  let cmd := set_params cmd
               (build_if_id_bitmap (params cmd) (cmd_params "if_id")
                  (dpsw_vlan_if_cfg.if_id cfg) (dpsw_vlan_if_cfg.num_ifs cfg)) in
  return_send mc_io cmd.

Definition dpsw_vlan_add_if_untagged (mc_io : fsl_mc_io) (cmd_flags token vlan_id : Z)
    (cfg : dpsw_vlan_if_cfg.t) : Z * fsl_mc_io :=
  let cmd := cmd_zero in
  let cmd := set_header cmd
               (mc_encode_cmd_header (cmdid DPSW_CMDID_VLAN_ADD_IF_UNTAGGED) cmd_flags token) in
  let cmd_params := offsetof "dpsw_cmd_vlan_manage_if" in
  let cmd := wr16 cmd (cmd_params "vlan_id") (cpu_to_le16 vlan_id) in
  let cmd := set_params cmd
               (build_if_id_bitmap (params cmd) (cmd_params "if_id")
                  (dpsw_vlan_if_cfg.if_id cfg) (dpsw_vlan_if_cfg.num_ifs cfg)) in
  return_send mc_io cmd.

Definition dpsw_vlan_remove_if (mc_io : fsl_mc_io) (cmd_flags token vlan_id : Z)
    (cfg : dpsw_vlan_if_cfg.t) : Z * fsl_mc_io :=
  let cmd := cmd_zero in
  let cmd := set_header cmd (mc_encode_cmd_header (cmdid DPSW_CMDID_VLAN_REMOVE_IF) cmd_flags token) in
  let cmd_params := offsetof "dpsw_cmd_vlan_manage_if" in
  let cmd := wr16 cmd (cmd_params "vlan_id") (cpu_to_le16 vlan_id) in
  let cmd := set_params cmd
               (build_if_id_bitmap (params cmd) (cmd_params "if_id")
                  (dpsw_vlan_if_cfg.if_id cfg) (dpsw_vlan_if_cfg.num_ifs cfg)) in
  return_send mc_io cmd.

Definition dpsw_vlan_remove_if_untagged (mc_io : fsl_mc_io) (cmd_flags token vlan_id : Z)
    (cfg : dpsw_vlan_if_cfg.t) : Z * fsl_mc_io :=
  let cmd := cmd_zero in
  let cmd := set_header cmd
               (mc_encode_cmd_header (cmdid DPSW_CMDID_VLAN_REMOVE_IF_UNTAGGED) cmd_flags token) in
  let cmd_params := offsetof "dpsw_cmd_vlan_manage_if" in
  let cmd := wr16 cmd (cmd_params "vlan_id") (cpu_to_le16 vlan_id) in
  let cmd := set_params cmd
               (build_if_id_bitmap (params cmd) (cmd_params "if_id")
                  (dpsw_vlan_if_cfg.if_id cfg) (dpsw_vlan_if_cfg.num_ifs cfg)) in
  return_send mc_io cmd.

Definition dpsw_vlan_remove (mc_io : fsl_mc_io) (cmd_flags token vlan_id : Z) : Z * fsl_mc_io :=
  let cmd := cmd_zero in
  let cmd := set_header cmd (mc_encode_cmd_header (cmdid DPSW_CMDID_VLAN_REMOVE) cmd_flags token) in
  let cmd_params := offsetof "dpsw_cmd_vlan_remove" in
  let cmd := wr16 cmd (cmd_params "vlan_id") (cpu_to_le16 vlan_id) in
  return_send mc_io cmd.

Definition dpsw_fdb_add_unicast (mc_io : fsl_mc_io) (cmd_flags token fdb_id : Z)
    (cfg : dpsw_fdb_unicast_cfg.t) : Z * fsl_mc_io :=
  let cmd := cmd_zero in
  let cmd := set_header cmd (mc_encode_cmd_header (cmdid DPSW_CMDID_FDB_ADD_UNICAST) cmd_flags token) in
  let cmd_params := offsetof "dpsw_cmd_fdb_unicast_op" in
  let cmd := wr16 cmd (cmd_params "fdb_id") (cpu_to_le16 fdb_id) in
  let cmd := wr16 cmd (cmd_params "if_egress") (cpu_to_le16 (dpsw_fdb_unicast_cfg.if_egress cfg)) in
  let cmd := for_upto 6 (fun i cmd =>
               wr8 cmd (cmd_params "mac_addr" + i)
                 (nth (5 - i) (dpsw_fdb_unicast_cfg.mac_addr cfg) 0)) cmd in
  let cmd := wr8 cmd (cmd_params "type")
               (dpsw_set_field (rd8 cmd (cmd_params "type")) ENTRY_TYPE
                  (dpsw_fdb_unicast_cfg.type cfg)) in
  return_send mc_io cmd.

Definition dpsw_fdb_dump (mc_io : fsl_mc_io) (cmd_flags token fdb_id iova_addr iova_size : Z)
    (num_entries : Z) : Z * Z * fsl_mc_io :=
  let cmd := cmd_zero in
  let cmd := set_header cmd (mc_encode_cmd_header (cmdid DPSW_CMDID_FDB_DUMP) cmd_flags token) in
  let cmd_params := offsetof "dpsw_cmd_fdb_dump" in
  let cmd := wr16 cmd (cmd_params "fdb_id") (cpu_to_le16 fdb_id) in
  let cmd := wr64 cmd (cmd_params "iova_addr") (cpu_to_le64 iova_addr) in
  let cmd := wr32 cmd (cmd_params "iova_size") (cpu_to_le32 iova_size) in
  let '(err, cmd, mc_io) := mc_send_command mc_io cmd in
  if negb (err =? 0) then (err, num_entries, mc_io) else
  let rsp_params := offsetof "dpsw_rsp_fdb_dump" in
  let num_entries := le16_to_cpu (rd16 cmd (rsp_params "num_entries")) in
  (0, num_entries, mc_io).

Definition dpsw_fdb_remove_unicast (mc_io : fsl_mc_io) (cmd_flags token fdb_id : Z)
    (cfg : dpsw_fdb_unicast_cfg.t) : Z * fsl_mc_io :=
  let cmd := cmd_zero in
  let cmd := set_header cmd
               (mc_encode_cmd_header (cmdid DPSW_CMDID_FDB_REMOVE_UNICAST) cmd_flags token) in
  let cmd_params := offsetof "dpsw_cmd_fdb_unicast_op" in
  let cmd := wr16 cmd (cmd_params "fdb_id") (cpu_to_le16 fdb_id) in
  let cmd := for_upto 6 (fun i cmd =>
               wr8 cmd (cmd_params "mac_addr" + i)
                 (nth (5 - i) (dpsw_fdb_unicast_cfg.mac_addr cfg) 0)) cmd in
  let cmd := wr16 cmd (cmd_params "if_egress") (cpu_to_le16 (dpsw_fdb_unicast_cfg.if_egress cfg)) in
  let cmd := wr8 cmd (cmd_params "type")
               (dpsw_set_field (rd8 cmd (cmd_params "type")) ENTRY_TYPE
                  (dpsw_fdb_unicast_cfg.type cfg)) in
  return_send mc_io cmd.

Definition dpsw_fdb_add_multicast (mc_io : fsl_mc_io) (cmd_flags token fdb_id : Z)
    (cfg : dpsw_fdb_multicast_cfg.t) : Z * fsl_mc_io :=
  let cmd := cmd_zero in
  let cmd := set_header cmd
               (mc_encode_cmd_header (cmdid DPSW_CMDID_FDB_ADD_MULTICAST) cmd_flags token) in
  let cmd_params := offsetof "dpsw_cmd_fdb_multicast_op" in
  let cmd := wr16 cmd (cmd_params "fdb_id") (cpu_to_le16 fdb_id) in
  let cmd := wr16 cmd (cmd_params "num_ifs") (cpu_to_le16 (dpsw_fdb_multicast_cfg.num_ifs cfg)) in
  let cmd := wr8 cmd (cmd_params "type")
               (dpsw_set_field (rd8 cmd (cmd_params "type")) ENTRY_TYPE
                  (dpsw_fdb_multicast_cfg.type cfg)) in
  let cmd := set_params cmd
               (build_if_id_bitmap (params cmd) (cmd_params "if_id")
                  (dpsw_fdb_multicast_cfg.if_id cfg) (dpsw_fdb_multicast_cfg.num_ifs cfg)) in
  let cmd := for_upto 6 (fun i cmd =>
               wr8 cmd (cmd_params "mac_addr" + i)
                 (nth (5 - i) (dpsw_fdb_multicast_cfg.mac_addr cfg) 0)) cmd in
  return_send mc_io cmd.

Definition dpsw_fdb_remove_multicast (mc_io : fsl_mc_io) (cmd_flags token fdb_id : Z)
    (cfg : dpsw_fdb_multicast_cfg.t) : Z * fsl_mc_io :=
  let cmd := cmd_zero in
  let cmd := set_header cmd
               (mc_encode_cmd_header (cmdid DPSW_CMDID_FDB_REMOVE_MULTICAST) cmd_flags token) in
  let cmd_params := offsetof "dpsw_cmd_fdb_multicast_op" in
  let cmd := wr16 cmd (cmd_params "fdb_id") (cpu_to_le16 fdb_id) in
  let cmd := wr16 cmd (cmd_params "num_ifs") (cpu_to_le16 (dpsw_fdb_multicast_cfg.num_ifs cfg)) in
  let cmd := wr8 cmd (cmd_params "type")
               (dpsw_set_field (rd8 cmd (cmd_params "type")) ENTRY_TYPE
                  (dpsw_fdb_multicast_cfg.type cfg)) in
  let cmd := set_params cmd
               (build_if_id_bitmap (params cmd) (cmd_params "if_id")
                  (dpsw_fdb_multicast_cfg.if_id cfg) (dpsw_fdb_multicast_cfg.num_ifs cfg)) in
  let cmd := for_upto 6 (fun i cmd =>
               wr8 cmd (cmd_params "mac_addr" + i)
                 (nth (5 - i) (dpsw_fdb_multicast_cfg.mac_addr cfg) 0)) cmd in
  return_send mc_io cmd.

Definition dpsw_fdb_set_learning_mode (mc_io : fsl_mc_io) (cmd_flags token fdb_id mode : Z)
    : Z * fsl_mc_io :=
  let cmd := cmd_zero in
  let cmd := set_header cmd
               (mc_encode_cmd_header (cmdid DPSW_CMDID_FDB_SET_LEARNING_MODE) cmd_flags token) in
  let cmd_params := offsetof "dpsw_cmd_fdb_set_learning_mode" in
  let cmd := wr16 cmd (cmd_params "fdb_id") (cpu_to_le16 fdb_id) in
  let cmd := wr8 cmd (cmd_params "mode")
               (dpsw_set_field (rd8 cmd (cmd_params "mode")) LEARNING_MODE mode) in
  return_send mc_io cmd.

Definition dpsw_get_api_version (mc_io : fsl_mc_io) (cmd_flags : Z)
    (major_ver minor_ver : Z) : Z * (Z * Z) * fsl_mc_io :=
  let cmd := cmd_zero in
  let cmd := set_header cmd (mc_encode_cmd_header (cmdid DPSW_CMDID_GET_API_VERSION) cmd_flags 0) in
  let '(err, cmd, mc_io) := mc_send_command mc_io cmd in
  if negb (err =? 0) then (err, (major_ver, minor_ver), mc_io) else
  let rsp_params := offsetof "dpsw_rsp_get_api_version" in
  let major_ver := le16_to_cpu (rd16 cmd (rsp_params "version_major")) in
  let minor_ver := le16_to_cpu (rd16 cmd (rsp_params "version_minor")) in
  (0, (major_ver, minor_ver), mc_io).

Definition dpsw_if_get_port_mac_addr (mc_io : fsl_mc_io) (cmd_flags token if_id : Z)
    (mac_addr : list Z) : Z * list Z * fsl_mc_io :=
  let cmd := cmd_zero in
  let cmd := set_header cmd
               (mc_encode_cmd_header (cmdid DPSW_CMDID_IF_GET_PORT_MAC_ADDR) cmd_flags token) in
  let cmd_params := offsetof "dpsw_cmd_if" in
  let cmd := wr16 cmd (cmd_params "if_id") (cpu_to_le16 if_id) in
  let '(err, cmd, mc_io) := mc_send_command mc_io cmd in
  if negb (err =? 0) then (err, mac_addr, mc_io) else
  let rsp_params := offsetof "dpsw_rsp_if_get_mac_addr" in
  let mac_addr := for_upto 6 (fun i mac_addr =>
                    <[(5 - i)%nat := rd8 cmd (rsp_params "mac_addr" + i)]> mac_addr) mac_addr in
  (0, mac_addr, mc_io).

Definition dpsw_if_get_primary_mac_addr (mc_io : fsl_mc_io) (cmd_flags token if_id : Z)
    (mac_addr : list Z) : Z * list Z * fsl_mc_io :=
  let cmd := cmd_zero in
  let cmd := set_header cmd
               (mc_encode_cmd_header (cmdid DPSW_CMDID_IF_SET_PRIMARY_MAC_ADDR) cmd_flags token) in
  let cmd_params := offsetof "dpsw_cmd_if" in
  let cmd := wr16 cmd (cmd_params "if_id") (cpu_to_le16 if_id) in
  let '(err, cmd, mc_io) := mc_send_command mc_io cmd in
  if negb (err =? 0) then (err, mac_addr, mc_io) else
  let rsp_params := offsetof "dpsw_rsp_if_get_mac_addr" in
  let mac_addr := for_upto 6 (fun i mac_addr =>
                    <[(5 - i)%nat := rd8 cmd (rsp_params "mac_addr" + i)]> mac_addr) mac_addr in
  (0, mac_addr, mc_io).

Definition dpsw_if_set_primary_mac_addr (mc_io : fsl_mc_io) (cmd_flags token if_id : Z)
    (mac_addr : list Z) : Z * fsl_mc_io :=
  let cmd := cmd_zero in
  let cmd := set_header cmd
               (mc_encode_cmd_header (cmdid DPSW_CMDID_IF_SET_PRIMARY_MAC_ADDR) cmd_flags token) in
  let cmd_params := offsetof "dpsw_cmd_if_set_mac_addr" in
  let cmd := wr16 cmd (cmd_params "if_id") (cpu_to_le16 if_id) in
  let cmd := for_upto 6 (fun i cmd =>
               wr8 cmd (cmd_params "mac_addr" + i) (nth (5 - i) mac_addr 0)) cmd in
  return_send mc_io cmd.

Definition dpsw_acl_add (mc_io : fsl_mc_io) (cmd_flags token : Z) (acl_id : Z)
    (cfg : dpsw_acl_cfg.t) : Z * Z * fsl_mc_io :=
  let cmd := cmd_zero in
  let cmd := set_header cmd (mc_encode_cmd_header (cmdid DPSW_CMDID_ACL_ADD) cmd_flags token) in
  let cmd_params := offsetof "dpsw_cmd_acl_add" in
  let cmd := wr16 cmd (cmd_params "max_entries") (cpu_to_le16 (dpsw_acl_cfg.max_entries cfg)) in
  let '(err, cmd, mc_io) := mc_send_command mc_io cmd in
  if negb (err =? 0) then (err, acl_id, mc_io) else
  let rsp_params := offsetof "dpsw_rsp_acl_add" in
  let acl_id := le16_to_cpu (rd16 cmd (rsp_params "acl_id")) in
  (0, acl_id, mc_io).

Definition dpsw_acl_remove (mc_io : fsl_mc_io) (cmd_flags token acl_id : Z) : Z * fsl_mc_io :=
  let cmd := cmd_zero in
  let cmd := set_header cmd (mc_encode_cmd_header (cmdid DPSW_CMDID_ACL_REMOVE) cmd_flags token) in
  let cmd_params := offsetof "dpsw_cmd_acl_remove" in
  let cmd := wr16 cmd (cmd_params "acl_id") (cpu_to_le16 acl_id) in
  return_send mc_io cmd.

Definition dpsw_acl_add_if (mc_io : fsl_mc_io) (cmd_flags token acl_id : Z)
    (cfg : dpsw_acl_if_cfg.t) : Z * fsl_mc_io :=
  let cmd := cmd_zero in
  let cmd := set_header cmd (mc_encode_cmd_header (cmdid DPSW_CMDID_ACL_ADD_IF) cmd_flags token) in
  let cmd_params := offsetof "dpsw_cmd_acl_if" in
  let cmd := wr16 cmd (cmd_params "acl_id") (cpu_to_le16 acl_id) in
  let cmd := wr16 cmd (cmd_params "num_ifs") (cpu_to_le16 (dpsw_acl_if_cfg.num_ifs cfg)) in
  let cmd := set_params cmd
               (build_if_id_bitmap (params cmd) (cmd_params "if_id")
                  (dpsw_acl_if_cfg.if_id cfg) (dpsw_acl_if_cfg.num_ifs cfg)) in
  return_send mc_io cmd.

Definition dpsw_acl_remove_if (mc_io : fsl_mc_io) (cmd_flags token acl_id : Z)
    (cfg : dpsw_acl_if_cfg.t) : Z * fsl_mc_io :=
  let cmd := cmd_zero in
  let cmd := set_header cmd (mc_encode_cmd_header (cmdid DPSW_CMDID_ACL_REMOVE_IF) cmd_flags token) in
  let cmd_params := offsetof "dpsw_cmd_acl_if" in
  let cmd := wr16 cmd (cmd_params "acl_id") (cpu_to_le16 acl_id) in
  let cmd := wr16 cmd (cmd_params "num_ifs") (cpu_to_le16 (dpsw_acl_if_cfg.num_ifs cfg)) in
  let cmd := set_params cmd
               (build_if_id_bitmap (params cmd) (cmd_params "if_id")
                  (dpsw_acl_if_cfg.if_id cfg) (dpsw_acl_if_cfg.num_ifs cfg)) in
  return_send mc_io cmd.

(** [entry_cfg_buf] is the caller's 256-byte buffer; the function lays
    [struct dpsw_prep_acl_entry] over it. *)
Definition dpsw_acl_prepare_entry_cfg (key : dpsw_acl_key.t) (entry_cfg_buf : list Z)
    : list Z :=
  let ext_params := offsetof "dpsw_prep_acl_entry" in
  let match_ := dpsw_acl_key.match_ key in
  let mask := dpsw_acl_key.mask key in
  let buf := entry_cfg_buf in
  let buf := for_upto 6 (fun i buf =>
      let buf := st8 buf (ext_params "match_l2_dest_mac" + i)
                   (nth (5 - i) (dpsw_acl_fields.l2_dest_mac match_) 0) in
      let buf := st8 buf (ext_params "match_l2_source_mac" + i)
                   (nth (5 - i) (dpsw_acl_fields.l2_source_mac match_) 0) in
      let buf := st8 buf (ext_params "mask_l2_dest_mac" + i)
                   (nth (5 - i) (dpsw_acl_fields.l2_dest_mac mask) 0) in
      st8 buf (ext_params "mask_l2_source_mac" + i)
        (nth (5 - i) (dpsw_acl_fields.l2_source_mac mask) 0)) buf in
  let buf := st16 buf (ext_params "match_l2_tpid") (cpu_to_le16 (dpsw_acl_fields.l2_tpid match_)) in
  let buf := st16 buf (ext_params "match_l2_vlan_id") (cpu_to_le16 (dpsw_acl_fields.l2_vlan_id match_)) in
  let buf := st32 buf (ext_params "match_l3_dest_ip") (cpu_to_le32 (dpsw_acl_fields.l3_dest_ip match_)) in
  let buf := st32 buf (ext_params "match_l3_source_ip") (cpu_to_le32 (dpsw_acl_fields.l3_source_ip match_)) in
  let buf := st16 buf (ext_params "match_l4_dest_port") (cpu_to_le16 (dpsw_acl_fields.l4_dest_port match_)) in
  let buf := st16 buf (ext_params "match_l4_source_port") (cpu_to_le16 (dpsw_acl_fields.l4_source_port match_)) in
  let buf := st16 buf (ext_params "match_l2_ether_type") (cpu_to_le16 (dpsw_acl_fields.l2_ether_type match_)) in
  let buf := st8 buf (ext_params "match_l2_pcp_dei") (dpsw_acl_fields.l2_pcp_dei match_) in
  let buf := st8 buf (ext_params "match_l3_dscp") (dpsw_acl_fields.l3_dscp match_) in
  let buf := st16 buf (ext_params "mask_l2_tpid") (cpu_to_le16 (dpsw_acl_fields.l2_tpid mask)) in
  let buf := st16 buf (ext_params "mask_l2_vlan_id") (cpu_to_le16 (dpsw_acl_fields.l2_vlan_id mask)) in
  let buf := st32 buf (ext_params "mask_l3_dest_ip") (cpu_to_le32 (dpsw_acl_fields.l3_dest_ip mask)) in
  let buf := st32 buf (ext_params "mask_l3_source_ip") (cpu_to_le32 (dpsw_acl_fields.l3_source_ip mask)) in
  let buf := st16 buf (ext_params "mask_l4_dest_port") (cpu_to_le16 (dpsw_acl_fields.l4_dest_port mask)) in
  let buf := st16 buf (ext_params "mask_l4_source_port") (cpu_to_le16 (dpsw_acl_fields.l4_source_port mask)) in
  let buf := st16 buf (ext_params "mask_l2_ether_type") (cpu_to_le16 (dpsw_acl_fields.l2_ether_type mask)) in
  let buf := st8 buf (ext_params "mask_l2_pcp_dei") (dpsw_acl_fields.l2_pcp_dei mask) in
  let buf := st8 buf (ext_params "mask_l3_dscp") (dpsw_acl_fields.l3_dscp mask) in
  let buf := st8 buf (ext_params "match_l3_protocol") (dpsw_acl_fields.l3_protocol match_) in
  let buf := st8 buf (ext_params "mask_l3_protocol") (dpsw_acl_fields.l3_protocol mask) in
  let buf := st8 buf (ext_params "match_frame_flags") (dpsw_acl_fields.frame_flags match_) in
  let buf := st8 buf (ext_params "mask_frame_flags") (dpsw_acl_fields.frame_flags mask) in
  buf.

Definition dpsw_acl_add_entry (mc_io : fsl_mc_io) (cmd_flags token acl_id : Z)
    (cfg : dpsw_acl_entry_cfg.t) : Z * fsl_mc_io :=
  let cmd := cmd_zero in
  let cmd := set_header cmd (mc_encode_cmd_header (cmdid DPSW_CMDID_ACL_ADD_ENTRY) cmd_flags token) in
  let cmd_params := offsetof "dpsw_cmd_acl_entry" in
  let cmd := wr16 cmd (cmd_params "acl_id") (cpu_to_le16 acl_id) in
  let cmd := wr16 cmd (cmd_params "result_if_id")
               (cpu_to_le16 (dpsw_acl_result.if_id (dpsw_acl_entry_cfg.result cfg))) in
  let cmd := wr32 cmd (cmd_params "precedence") (cpu_to_le32 (dpsw_acl_entry_cfg.precedence cfg)) in
  let cmd := wr64 cmd (cmd_params "key_iova") (cpu_to_le64 (dpsw_acl_entry_cfg.key_iova cfg)) in
  let cmd := wr8 cmd (cmd_params "result_action")
               (dpsw_set_field (rd8 cmd (cmd_params "result_action")) RESULT_ACTION
                  (dpsw_acl_result.action (dpsw_acl_entry_cfg.result cfg))) in
  return_send mc_io cmd.

(** ** Definitions used to state the properties *)

(** A call of one of the operations that submit a command, with its input
    arguments and, for the operations that have output parameters, the
    values the caller's objects hold before the call. *)
Inductive dpsw_call :=
  | call_open (cmd_flags dpsw_id : Z) (token : Z)
  | call_close (cmd_flags token : Z)
  | call_enable (cmd_flags token : Z)
  | call_disable (cmd_flags token : Z)
  | call_reset (cmd_flags token : Z)
  | call_set_irq_enable (cmd_flags token irq_index en : Z)
  | call_set_irq_mask (cmd_flags token irq_index mask : Z)
  | call_get_irq_status (cmd_flags token irq_index : Z) (status : Z)
  | call_clear_irq_status (cmd_flags token irq_index status : Z)
  | call_get_attributes (cmd_flags token : Z) (attr : dpsw_attr.t)
  | call_if_get_attributes (cmd_flags token if_id : Z) (attr : dpsw_if_attr.t)
  | call_if_set_link_cfg (cmd_flags token if_id : Z) (cfg : dpsw_link_cfg.t)
  | call_if_get_link_state (cmd_flags token if_id : Z) (state : dpsw_link_state.t)
  | call_if_set_flooding (cmd_flags token if_id en : Z)
  | call_if_set_broadcast (cmd_flags token if_id en : Z)
  | call_if_set_tci (cmd_flags token if_id : Z) (cfg : dpsw_tci_cfg.t)
  | call_if_get_tci (cmd_flags token if_id : Z) (cfg : dpsw_tci_cfg.t)
  | call_if_set_stp (cmd_flags token if_id : Z) (cfg : dpsw_stp_cfg.t)
  | call_if_get_counter (cmd_flags token if_id type : Z) (counter : Z)
  | call_if_enable (cmd_flags token if_id : Z)
  | call_if_disable (cmd_flags token if_id : Z)
  | call_if_set_max_frame_length (cmd_flags token if_id frame_length : Z)
  | call_vlan_add (cmd_flags token vlan_id : Z) (cfg : dpsw_vlan_cfg.t)
  | call_vlan_add_if (cmd_flags token vlan_id : Z) (cfg : dpsw_vlan_if_cfg.t)
  | call_vlan_add_if_untagged (cmd_flags token vlan_id : Z) (cfg : dpsw_vlan_if_cfg.t)
  | call_vlan_remove_if (cmd_flags token vlan_id : Z) (cfg : dpsw_vlan_if_cfg.t)
  | call_vlan_remove_if_untagged (cmd_flags token vlan_id : Z) (cfg : dpsw_vlan_if_cfg.t)
  | call_vlan_remove (cmd_flags token vlan_id : Z)
  | call_fdb_add_unicast (cmd_flags token fdb_id : Z) (cfg : dpsw_fdb_unicast_cfg.t)
  | call_fdb_dump (cmd_flags token fdb_id iova_addr iova_size : Z) (num_entries : Z)
  | call_fdb_remove_unicast (cmd_flags token fdb_id : Z) (cfg : dpsw_fdb_unicast_cfg.t)
  | call_fdb_add_multicast (cmd_flags token fdb_id : Z) (cfg : dpsw_fdb_multicast_cfg.t)
  | call_fdb_remove_multicast (cmd_flags token fdb_id : Z) (cfg : dpsw_fdb_multicast_cfg.t)
  | call_fdb_set_learning_mode (cmd_flags token fdb_id mode : Z)
  | call_get_api_version (cmd_flags : Z) (major_ver minor_ver : Z)
  | call_if_get_port_mac_addr (cmd_flags token if_id : Z) (mac_addr : list Z)
  | call_if_get_primary_mac_addr (cmd_flags token if_id : Z) (mac_addr : list Z)
  | call_if_set_primary_mac_addr (cmd_flags token if_id : Z) (mac_addr : list Z)
  | call_acl_add (cmd_flags token : Z) (acl_id : Z) (cfg : dpsw_acl_cfg.t)
  | call_acl_remove (cmd_flags token acl_id : Z)
  | call_acl_add_if (cmd_flags token acl_id : Z) (cfg : dpsw_acl_if_cfg.t)
  | call_acl_remove_if (cmd_flags token acl_id : Z) (cfg : dpsw_acl_if_cfg.t)
  | call_acl_add_entry (cmd_flags token acl_id : Z) (cfg : dpsw_acl_entry_cfg.t).

(** The portal after the call. *)
Definition dpsw_run (mc_io : fsl_mc_io) (c : dpsw_call) : fsl_mc_io :=
  match c with
  | call_open f d t => snd (dpsw_open mc_io f d t)
  | call_close f t => snd (dpsw_close mc_io f t)
  | call_enable f t => snd (dpsw_enable mc_io f t)
  | call_disable f t => snd (dpsw_disable mc_io f t)
  | call_reset f t => snd (dpsw_reset mc_io f t)
  | call_set_irq_enable f t i e => snd (dpsw_set_irq_enable mc_io f t i e)
  | call_set_irq_mask f t i m => snd (dpsw_set_irq_mask mc_io f t i m)
  | call_get_irq_status f t i s => snd (dpsw_get_irq_status mc_io f t i s)
  | call_clear_irq_status f t i s => snd (dpsw_clear_irq_status mc_io f t i s)
  | call_get_attributes f t a => snd (dpsw_get_attributes mc_io f t a)
  | call_if_get_attributes f t i a => snd (dpsw_if_get_attributes mc_io f t i a)
  | call_if_set_link_cfg f t i c => snd (dpsw_if_set_link_cfg mc_io f t i c)
  | call_if_get_link_state f t i s => snd (dpsw_if_get_link_state mc_io f t i s)
  | call_if_set_flooding f t i e => snd (dpsw_if_set_flooding mc_io f t i e)
  | call_if_set_broadcast f t i e => snd (dpsw_if_set_broadcast mc_io f t i e)
  | call_if_set_tci f t i c => snd (dpsw_if_set_tci mc_io f t i c)
  | call_if_get_tci f t i c => snd (dpsw_if_get_tci mc_io f t i c)
  | call_if_set_stp f t i c => snd (dpsw_if_set_stp mc_io f t i c)
  | call_if_get_counter f t i ty c => snd (dpsw_if_get_counter mc_io f t i ty c)
  | call_if_enable f t i => snd (dpsw_if_enable mc_io f t i)
  | call_if_disable f t i => snd (dpsw_if_disable mc_io f t i)
  | call_if_set_max_frame_length f t i l => snd (dpsw_if_set_max_frame_length mc_io f t i l)
  | call_vlan_add f t v c => snd (dpsw_vlan_add mc_io f t v c)
  | call_vlan_add_if f t v c => snd (dpsw_vlan_add_if mc_io f t v c)
  | call_vlan_add_if_untagged f t v c => snd (dpsw_vlan_add_if_untagged mc_io f t v c)
  | call_vlan_remove_if f t v c => snd (dpsw_vlan_remove_if mc_io f t v c)
  | call_vlan_remove_if_untagged f t v c => snd (dpsw_vlan_remove_if_untagged mc_io f t v c)
  | call_vlan_remove f t v => snd (dpsw_vlan_remove mc_io f t v)
  | call_fdb_add_unicast f t d c => snd (dpsw_fdb_add_unicast mc_io f t d c)
  | call_fdb_dump f t d a sz n => snd (dpsw_fdb_dump mc_io f t d a sz n)
  | call_fdb_remove_unicast f t d c => snd (dpsw_fdb_remove_unicast mc_io f t d c)
  | call_fdb_add_multicast f t d c => snd (dpsw_fdb_add_multicast mc_io f t d c)
  | call_fdb_remove_multicast f t d c => snd (dpsw_fdb_remove_multicast mc_io f t d c)
  | call_fdb_set_learning_mode f t d m => snd (dpsw_fdb_set_learning_mode mc_io f t d m)
  | call_get_api_version f ma mi => snd (dpsw_get_api_version mc_io f ma mi)
  | call_if_get_port_mac_addr f t i m => snd (dpsw_if_get_port_mac_addr mc_io f t i m)
  | call_if_get_primary_mac_addr f t i m => snd (dpsw_if_get_primary_mac_addr mc_io f t i m)
  | call_if_set_primary_mac_addr f t i m => snd (dpsw_if_set_primary_mac_addr mc_io f t i m)
  | call_acl_add f t a c => snd (dpsw_acl_add mc_io f t a c)
  | call_acl_remove f t a => snd (dpsw_acl_remove mc_io f t a)
  | call_acl_add_if f t a c => snd (dpsw_acl_add_if mc_io f t a c)
  | call_acl_remove_if f t a c => snd (dpsw_acl_remove_if mc_io f t a c)
  | call_acl_add_entry f t a c => snd (dpsw_acl_add_entry mc_io f t a c)
  end.

(** The [token] argument of the call; [dpsw_open] and [dpsw_get_api_version]
    have none. *)
Definition call_token (c : dpsw_call) : option Z :=
  match c with
  | call_open _ _ _ | call_get_api_version _ _ _ => None
  | call_close _ t | call_enable _ t | call_disable _ t | call_reset _ t
  | call_set_irq_enable _ t _ _ | call_set_irq_mask _ t _ _
  | call_get_irq_status _ t _ _ | call_clear_irq_status _ t _ _
  | call_get_attributes _ t _ | call_if_get_attributes _ t _ _
  | call_if_set_link_cfg _ t _ _ | call_if_get_link_state _ t _ _
  | call_if_set_flooding _ t _ _ | call_if_set_broadcast _ t _ _
  | call_if_set_tci _ t _ _ | call_if_get_tci _ t _ _ | call_if_set_stp _ t _ _
  | call_if_get_counter _ t _ _ _ | call_if_enable _ t _ | call_if_disable _ t _
  | call_if_set_max_frame_length _ t _ _ | call_vlan_add _ t _ _
  | call_vlan_add_if _ t _ _ | call_vlan_add_if_untagged _ t _ _
  | call_vlan_remove_if _ t _ _ | call_vlan_remove_if_untagged _ t _ _
  | call_vlan_remove _ t _ | call_fdb_add_unicast _ t _ _
  | call_fdb_dump _ t _ _ _ _ | call_fdb_remove_unicast _ t _ _
  | call_fdb_add_multicast _ t _ _ | call_fdb_remove_multicast _ t _ _
  | call_fdb_set_learning_mode _ t _ _ | call_if_get_port_mac_addr _ t _ _
  | call_if_get_primary_mac_addr _ t _ _ | call_if_set_primary_mac_addr _ t _ _
  | call_acl_add _ t _ _ | call_acl_remove _ t _ | call_acl_add_if _ t _ _
  | call_acl_remove_if _ t _ _ | call_acl_add_entry _ t _ _ => Some t
  end.

(** The response [rsp] holds, in each member of the structure [s] that
    [img] names, the bytes [img] gives for it. *)
Definition rsp_holds (rsp : fsl_mc_command) (s : string)
    (img : list (string * list Z)) : Prop :=
  Forall (fun fb =>
            load (params rsp) (offsetof s (fst fb)) (length (snd fb)) = snd fb) img.

(** What an operation with output parameters owes its caller.  [op] takes
    the portal and the value [out] of the caller's output objects (one for
    which [valid] holds) and hands back the return value, the output objects
    and the portal.  It submits one command.  When the transport answers a
    status other than 0, the operation returns that status and the output
    objects are as before.  When it answers 0 with a response that holds
    the bytes [img v] in the members of [s], for values [v] of the device,
    the operation returns 0 and the output objects are [out_of v]. *)
Definition output_decoded {O V : Type} (valid : O -> Prop)
    (op : fsl_mc_io -> O -> Z * O * fsl_mc_io)
    (s : string) (typed : V -> Prop) (img : V -> list (string * list Z))
    (out_of : V -> O) : Prop :=
  forall mc_io out, valid out ->
    exists cmd,
      let '(err, rsp, mc_io') := mc_send_command mc_io cmd in
      (err <> 0 -> op mc_io out = (err, out, mc_io')) /\
      (err = 0 ->
       forall v, typed v -> rsp_holds rsp s (img v) ->
         op mc_io out = (0, out_of v, mc_io')).

(** The byte ranges [a, a + n) and [b, b + k) do not meet. *)
Definition apart (a n b k : nat) : Prop := (a + n <= b \/ b + k <= a)%nat.

(** What the statements about hardware addresses need of the layout of the
    requests: the [mac_addr] members lie inside [cmd.params], and the members
    of [struct dpsw_cmd_fdb_unicast_op] written after [mac_addr] do not
    overlap it. *)
Definition mac_members_inside : Prop :=
  (offsetof "dpsw_cmd_fdb_unicast_op" "mac_addr" + 6 <= 8 * MC_CMD_NUM_OF_PARAMS)%nat /\
  (offsetof "dpsw_cmd_fdb_multicast_op" "mac_addr" + 6 <= 8 * MC_CMD_NUM_OF_PARAMS)%nat /\
  (offsetof "dpsw_cmd_if_set_mac_addr" "mac_addr" + 6 <= 8 * MC_CMD_NUM_OF_PARAMS)%nat /\
  apart (offsetof "dpsw_cmd_fdb_unicast_op" "mac_addr") 6
        (offsetof "dpsw_cmd_fdb_unicast_op" "type") 1 /\
  apart (offsetof "dpsw_cmd_fdb_unicast_op" "mac_addr") 6
        (offsetof "dpsw_cmd_fdb_unicast_op" "if_egress") 2.

(** The fields of an ACL key half with a destination MAC address and
    nothing else. *)
Definition dest_mac_only (mac : list Z) : dpsw_acl_fields.t :=
  {| dpsw_acl_fields.l2_dest_mac := mac;
     dpsw_acl_fields.l2_source_mac := [0; 0; 0; 0; 0; 0];
     dpsw_acl_fields.l2_tpid := 0; dpsw_acl_fields.l2_pcp_dei := 0;
     dpsw_acl_fields.l2_vlan_id := 0; dpsw_acl_fields.l2_ether_type := 0;
     dpsw_acl_fields.l3_dscp := 0; dpsw_acl_fields.l3_protocol := 0;
     dpsw_acl_fields.l3_source_ip := 0; dpsw_acl_fields.l3_dest_ip := 0;
     dpsw_acl_fields.l4_source_port := 0; dpsw_acl_fields.l4_dest_port := 0;
     dpsw_acl_fields.frame_flags := 0 |}.

(** The members of [struct dpsw_prep_acl_entry] other than the two
    destination MAC addresses, with their sizes in bytes. *)
Definition acl_other_members : list (string * nat) :=
  [ ("match_l2_source_mac", 6); ("mask_l2_source_mac", 6);
    ("match_l2_tpid", 2); ("match_l2_vlan_id", 2); ("match_l3_dest_ip", 4);
    ("match_l3_source_ip", 4); ("match_l4_dest_port", 2);
    ("match_l4_source_port", 2); ("match_l2_ether_type", 2);
    ("match_l2_pcp_dei", 1); ("match_l3_dscp", 1);
    ("mask_l2_tpid", 2); ("mask_l2_vlan_id", 2); ("mask_l3_dest_ip", 4);
    ("mask_l3_source_ip", 4); ("mask_l4_dest_port", 2);
    ("mask_l4_source_port", 2); ("mask_l2_ether_type", 2);
    ("mask_l2_pcp_dei", 1); ("mask_l3_dscp", 1);
    ("match_l3_protocol", 1); ("mask_l3_protocol", 1);
    ("match_frame_flags", 1); ("mask_frame_flags", 1) ]%nat.

(** What the statement about the ACL key buffer needs of the layout of
    [struct dpsw_prep_acl_entry]: the two destination MAC addresses lie
    inside the 256 bytes, apart from each other and from every other
    member. *)
Definition acl_layout_ok : Prop :=
  let md := offsetof "dpsw_prep_acl_entry" "match_l2_dest_mac" in
  let kd := offsetof "dpsw_prep_acl_entry" "mask_l2_dest_mac" in
  (md + 6 <= 256)%nat /\ (kd + 6 <= 256)%nat /\ apart md 6 kd 6 /\
  Forall (fun fw => apart md 6 (offsetof "dpsw_prep_acl_entry" (fst fw)) (snd fw) /\
                    apart kd 6 (offsetof "dpsw_prep_acl_entry" (fst fw)) (snd fw))
         acl_other_members.

(** The byte the ACL key buffer holds at [j] once the first [k] bytes of
    the two destination MAC addresses [M] (match) and [K] (mask) are
    written, and the buffers that hold just that. *)
Definition acl_expect (M K : list Z) (k j : nat) : Z :=
  let md := offsetof "dpsw_prep_acl_entry" "match_l2_dest_mac" in
  let kd := offsetof "dpsw_prep_acl_entry" "mask_l2_dest_mac" in
  if decide (md <= j < md + k)%nat then nth (5 - (j - md)) M 0
  else if decide (kd <= j < kd + k)%nat then nth (5 - (j - kd)) K 0
  else 0.

Definition acl_inv (M K : list Z) (k : nat) (b : list Z) : Prop :=
  length b = 256%nat /\ forall j, byte_at b j = acl_expect M K k j.

(** A value of a C array [u8 x[6]]. *)
Definition is_mac (x : list Z) : Prop :=
  length x = 6%nat /\ Forall (fun b => 0 <= b < 256) x.

(** The six bytes at address [a] of a buffer. *)
Definition mac_at (m : list Z) (a : nat) : list Z :=
  map (fun i => byte_at m (a + i)) (seq 0 6).

(** The MAC address codec as the design document words it (section 4.4):
    [wire[i] = host[5 - i]], in both directions. *)
Definition to_wire (host : list Z) : list Z :=
  map (fun i => nth (5 - i) host 0) (seq 0 6).
Definition from_wire (wire : list Z) : list Z :=
  map (fun i => nth (5 - i) wire 0) (seq 0 6).


(** The entries of [id] that the loop of [build_if_id_bitmap] reads. *)
Definition processed (id : list Z) (num_ifs : Z) : list Z :=
  take (Z.to_nat (Z.min num_ifs DPSW_MAX_IF)) id.

(** The 64-bit word with one bit per interface id below [DPSW_MAX_IF] of [l]. *)
Definition if_mask (l : list Z) : Z :=
  fold_right (fun x acc =>
    if x <? DPSW_MAX_IF then Z.lor (cpu_to_le64 (BIT_MASK (x mod 64))) acc else acc) 0 l.

(** ** Definitions used to state further properties *)

(** The value the call returns. *)
Definition dpsw_ret (mc_io : fsl_mc_io) (c : dpsw_call) : Z :=
  match c with
  | call_open f d t => fst (fst (dpsw_open mc_io f d t))
  | call_close f t => fst (dpsw_close mc_io f t)
  | call_enable f t => fst (dpsw_enable mc_io f t)
  | call_disable f t => fst (dpsw_disable mc_io f t)
  | call_reset f t => fst (dpsw_reset mc_io f t)
  | call_set_irq_enable f t i e => fst (dpsw_set_irq_enable mc_io f t i e)
  | call_set_irq_mask f t i m => fst (dpsw_set_irq_mask mc_io f t i m)
  | call_get_irq_status f t i s => fst (fst (dpsw_get_irq_status mc_io f t i s))
  | call_clear_irq_status f t i s => fst (dpsw_clear_irq_status mc_io f t i s)
  | call_get_attributes f t a => fst (fst (dpsw_get_attributes mc_io f t a))
  | call_if_get_attributes f t i a => fst (fst (dpsw_if_get_attributes mc_io f t i a))
  | call_if_set_link_cfg f t i c => fst (dpsw_if_set_link_cfg mc_io f t i c)
  | call_if_get_link_state f t i s => fst (fst (dpsw_if_get_link_state mc_io f t i s))
  | call_if_set_flooding f t i e => fst (dpsw_if_set_flooding mc_io f t i e)
  | call_if_set_broadcast f t i e => fst (dpsw_if_set_broadcast mc_io f t i e)
  | call_if_set_tci f t i c => fst (dpsw_if_set_tci mc_io f t i c)
  | call_if_get_tci f t i c => fst (fst (dpsw_if_get_tci mc_io f t i c))
  | call_if_set_stp f t i c => fst (dpsw_if_set_stp mc_io f t i c)
  | call_if_get_counter f t i ty c => fst (fst (dpsw_if_get_counter mc_io f t i ty c))
  | call_if_enable f t i => fst (dpsw_if_enable mc_io f t i)
  | call_if_disable f t i => fst (dpsw_if_disable mc_io f t i)
  | call_if_set_max_frame_length f t i l => fst (dpsw_if_set_max_frame_length mc_io f t i l)
  | call_vlan_add f t v c => fst (dpsw_vlan_add mc_io f t v c)
  | call_vlan_add_if f t v c => fst (dpsw_vlan_add_if mc_io f t v c)
  | call_vlan_add_if_untagged f t v c => fst (dpsw_vlan_add_if_untagged mc_io f t v c)
  | call_vlan_remove_if f t v c => fst (dpsw_vlan_remove_if mc_io f t v c)
  | call_vlan_remove_if_untagged f t v c => fst (dpsw_vlan_remove_if_untagged mc_io f t v c)
  | call_vlan_remove f t v => fst (dpsw_vlan_remove mc_io f t v)
  | call_fdb_add_unicast f t d c => fst (dpsw_fdb_add_unicast mc_io f t d c)
  | call_fdb_dump f t d a sz n => fst (fst (dpsw_fdb_dump mc_io f t d a sz n))
  | call_fdb_remove_unicast f t d c => fst (dpsw_fdb_remove_unicast mc_io f t d c)
  | call_fdb_add_multicast f t d c => fst (dpsw_fdb_add_multicast mc_io f t d c)
  | call_fdb_remove_multicast f t d c => fst (dpsw_fdb_remove_multicast mc_io f t d c)
  | call_fdb_set_learning_mode f t d m => fst (dpsw_fdb_set_learning_mode mc_io f t d m)
  | call_get_api_version f ma mi => fst (fst (dpsw_get_api_version mc_io f ma mi))
  | call_if_get_port_mac_addr f t i m => fst (fst (dpsw_if_get_port_mac_addr mc_io f t i m))
  | call_if_get_primary_mac_addr f t i m => fst (fst (dpsw_if_get_primary_mac_addr mc_io f t i m))
  | call_if_set_primary_mac_addr f t i m => fst (dpsw_if_set_primary_mac_addr mc_io f t i m)
  | call_acl_add f t a c => fst (fst (dpsw_acl_add mc_io f t a c))
  | call_acl_remove f t a => fst (dpsw_acl_remove mc_io f t a)
  | call_acl_add_if f t a c => fst (dpsw_acl_add_if mc_io f t a c)
  | call_acl_remove_if f t a c => fst (dpsw_acl_remove_if mc_io f t a c)
  | call_acl_add_entry f t a c => fst (dpsw_acl_add_entry mc_io f t a c)
  end.

(** The name of the operation called. *)
Definition call_name (c : dpsw_call) : string :=
  match c with
  | call_open _ _ _ => "dpsw_open"
  | call_close _ _ => "dpsw_close"
  | call_enable _ _ => "dpsw_enable"
  | call_disable _ _ => "dpsw_disable"
  | call_reset _ _ => "dpsw_reset"
  | call_set_irq_enable _ _ _ _ => "dpsw_set_irq_enable"
  | call_set_irq_mask _ _ _ _ => "dpsw_set_irq_mask"
  | call_get_irq_status _ _ _ _ => "dpsw_get_irq_status"
  | call_clear_irq_status _ _ _ _ => "dpsw_clear_irq_status"
  | call_get_attributes _ _ _ => "dpsw_get_attributes"
  | call_if_get_attributes _ _ _ _ => "dpsw_if_get_attributes"
  | call_if_set_link_cfg _ _ _ _ => "dpsw_if_set_link_cfg"
  | call_if_get_link_state _ _ _ _ => "dpsw_if_get_link_state"
  | call_if_set_flooding _ _ _ _ => "dpsw_if_set_flooding"
  | call_if_set_broadcast _ _ _ _ => "dpsw_if_set_broadcast"
  | call_if_set_tci _ _ _ _ => "dpsw_if_set_tci"
  | call_if_get_tci _ _ _ _ => "dpsw_if_get_tci"
  | call_if_set_stp _ _ _ _ => "dpsw_if_set_stp"
  | call_if_get_counter _ _ _ _ _ => "dpsw_if_get_counter"
  | call_if_enable _ _ _ => "dpsw_if_enable"
  | call_if_disable _ _ _ => "dpsw_if_disable"
  | call_if_set_max_frame_length _ _ _ _ => "dpsw_if_set_max_frame_length"
  | call_vlan_add _ _ _ _ => "dpsw_vlan_add"
  | call_vlan_add_if _ _ _ _ => "dpsw_vlan_add_if"
  | call_vlan_add_if_untagged _ _ _ _ => "dpsw_vlan_add_if_untagged"
  | call_vlan_remove_if _ _ _ _ => "dpsw_vlan_remove_if"
  | call_vlan_remove_if_untagged _ _ _ _ => "dpsw_vlan_remove_if_untagged"
  | call_vlan_remove _ _ _ => "dpsw_vlan_remove"
  | call_fdb_add_unicast _ _ _ _ => "dpsw_fdb_add_unicast"
  | call_fdb_dump _ _ _ _ _ _ => "dpsw_fdb_dump"
  | call_fdb_remove_unicast _ _ _ _ => "dpsw_fdb_remove_unicast"
  | call_fdb_add_multicast _ _ _ _ => "dpsw_fdb_add_multicast"
  | call_fdb_remove_multicast _ _ _ _ => "dpsw_fdb_remove_multicast"
  | call_fdb_set_learning_mode _ _ _ _ => "dpsw_fdb_set_learning_mode"
  | call_get_api_version _ _ _ => "dpsw_get_api_version"
  | call_if_get_port_mac_addr _ _ _ _ => "dpsw_if_get_port_mac_addr"
  | call_if_get_primary_mac_addr _ _ _ _ => "dpsw_if_get_primary_mac_addr"
  | call_if_set_primary_mac_addr _ _ _ _ => "dpsw_if_set_primary_mac_addr"
  | call_acl_add _ _ _ _ => "dpsw_acl_add"
  | call_acl_remove _ _ _ => "dpsw_acl_remove"
  | call_acl_add_if _ _ _ _ => "dpsw_acl_add_if"
  | call_acl_remove_if _ _ _ _ => "dpsw_acl_remove_if"
  | call_acl_add_entry _ _ _ _ => "dpsw_acl_add_entry"
  end.

(** The [cmd_flags] argument of the call. *)
Definition call_flags (c : dpsw_call) : Z :=
  match c with
  | call_open f _ _ => f
  | call_close f _ => f
  | call_enable f _ => f
  | call_disable f _ => f
  | call_reset f _ => f
  | call_set_irq_enable f _ _ _ => f
  | call_set_irq_mask f _ _ _ => f
  | call_get_irq_status f _ _ _ => f
  | call_clear_irq_status f _ _ _ => f
  | call_get_attributes f _ _ => f
  | call_if_get_attributes f _ _ _ => f
  | call_if_set_link_cfg f _ _ _ => f
  | call_if_get_link_state f _ _ _ => f
  | call_if_set_flooding f _ _ _ => f
  | call_if_set_broadcast f _ _ _ => f
  | call_if_set_tci f _ _ _ => f
  | call_if_get_tci f _ _ _ => f
  | call_if_set_stp f _ _ _ => f
  | call_if_get_counter f _ _ _ _ => f
  | call_if_enable f _ _ => f
  | call_if_disable f _ _ => f
  | call_if_set_max_frame_length f _ _ _ => f
  | call_vlan_add f _ _ _ => f
  | call_vlan_add_if f _ _ _ => f
  | call_vlan_add_if_untagged f _ _ _ => f
  | call_vlan_remove_if f _ _ _ => f
  | call_vlan_remove_if_untagged f _ _ _ => f
  | call_vlan_remove f _ _ => f
  | call_fdb_add_unicast f _ _ _ => f
  | call_fdb_dump f _ _ _ _ _ => f
  | call_fdb_remove_unicast f _ _ _ => f
  | call_fdb_add_multicast f _ _ _ => f
  | call_fdb_remove_multicast f _ _ _ => f
  | call_fdb_set_learning_mode f _ _ _ => f
  | call_get_api_version f _ _ => f
  | call_if_get_port_mac_addr f _ _ _ => f
  | call_if_get_primary_mac_addr f _ _ _ => f
  | call_if_set_primary_mac_addr f _ _ _ => f
  | call_acl_add f _ _ _ => f
  | call_acl_remove f _ _ => f
  | call_acl_add_if f _ _ _ => f
  | call_acl_remove_if f _ _ _ => f
  | call_acl_add_entry f _ _ _ => f
  end.

(** The identifier each operation hands to [mc_encode_cmd_header], as the
    calls of dpsw.c name it, operation by operation. *)
Definition call_cmdid (c : dpsw_call) : cmdid_name :=
  match c with
  | call_open _ _ _ => DPSW_CMDID_OPEN
  | call_close _ _ => DPSW_CMDID_CLOSE
  | call_enable _ _ => DPSW_CMDID_ENABLE
  | call_disable _ _ => DPSW_CMDID_DISABLE
  | call_reset _ _ => DPSW_CMDID_RESET
  | call_set_irq_enable _ _ _ _ => DPSW_CMDID_SET_IRQ_ENABLE
  | call_set_irq_mask _ _ _ _ => DPSW_CMDID_SET_IRQ_MASK
  | call_get_irq_status _ _ _ _ => DPSW_CMDID_GET_IRQ_STATUS
  | call_clear_irq_status _ _ _ _ => DPSW_CMDID_CLEAR_IRQ_STATUS
  | call_get_attributes _ _ _ => DPSW_CMDID_GET_ATTR
  | call_if_get_attributes _ _ _ _ => DPSW_CMDID_IF_GET_ATTR
  | call_if_set_link_cfg _ _ _ _ => DPSW_CMDID_IF_SET_LINK_CFG
  | call_if_get_link_state _ _ _ _ => DPSW_CMDID_IF_GET_LINK_STATE
  | call_if_set_flooding _ _ _ _ => DPSW_CMDID_IF_SET_FLOODING
  | call_if_set_broadcast _ _ _ _ => DPSW_CMDID_IF_SET_BROADCAST
  | call_if_set_tci _ _ _ _ => DPSW_CMDID_IF_SET_TCI
  | call_if_get_tci _ _ _ _ => DPSW_CMDID_IF_GET_TCI
  | call_if_set_stp _ _ _ _ => DPSW_CMDID_IF_SET_STP
  | call_if_get_counter _ _ _ _ _ => DPSW_CMDID_IF_GET_COUNTER
  | call_if_enable _ _ _ => DPSW_CMDID_IF_ENABLE
  | call_if_disable _ _ _ => DPSW_CMDID_IF_DISABLE
  | call_if_set_max_frame_length _ _ _ _ => DPSW_CMDID_IF_SET_MAX_FRAME_LENGTH
  | call_vlan_add _ _ _ _ => DPSW_CMDID_VLAN_ADD
  | call_vlan_add_if _ _ _ _ => DPSW_CMDID_VLAN_ADD_IF
  | call_vlan_add_if_untagged _ _ _ _ => DPSW_CMDID_VLAN_ADD_IF_UNTAGGED
  | call_vlan_remove_if _ _ _ _ => DPSW_CMDID_VLAN_REMOVE_IF
  | call_vlan_remove_if_untagged _ _ _ _ => DPSW_CMDID_VLAN_REMOVE_IF_UNTAGGED
  | call_vlan_remove _ _ _ => DPSW_CMDID_VLAN_REMOVE
  | call_fdb_add_unicast _ _ _ _ => DPSW_CMDID_FDB_ADD_UNICAST
  | call_fdb_dump _ _ _ _ _ _ => DPSW_CMDID_FDB_DUMP
  | call_fdb_remove_unicast _ _ _ _ => DPSW_CMDID_FDB_REMOVE_UNICAST
  | call_fdb_add_multicast _ _ _ _ => DPSW_CMDID_FDB_ADD_MULTICAST
  | call_fdb_remove_multicast _ _ _ _ => DPSW_CMDID_FDB_REMOVE_MULTICAST
  | call_fdb_set_learning_mode _ _ _ _ => DPSW_CMDID_FDB_SET_LEARNING_MODE
  | call_get_api_version _ _ _ => DPSW_CMDID_GET_API_VERSION
  | call_if_get_port_mac_addr _ _ _ _ => DPSW_CMDID_IF_GET_PORT_MAC_ADDR
  | call_if_get_primary_mac_addr _ _ _ _ => DPSW_CMDID_IF_SET_PRIMARY_MAC_ADDR
  | call_if_set_primary_mac_addr _ _ _ _ => DPSW_CMDID_IF_SET_PRIMARY_MAC_ADDR
  | call_acl_add _ _ _ _ => DPSW_CMDID_ACL_ADD
  | call_acl_remove _ _ _ => DPSW_CMDID_ACL_REMOVE
  | call_acl_add_if _ _ _ _ => DPSW_CMDID_ACL_ADD_IF
  | call_acl_remove_if _ _ _ _ => DPSW_CMDID_ACL_REMOVE_IF
  | call_acl_add_entry _ _ _ _ => DPSW_CMDID_ACL_ADD_ENTRY
  end.


(** The field [f] lies inside a slot of [w] bits; the fields [f] and [g]
    share no bit. *)
Definition field_in (f : field_name) (w : Z) : Prop :=
  0 <= SHIFT f /\ 0 <= SIZE f /\ SHIFT f + SIZE f <= w.

Definition fields_apart (f g : field_name) : Prop :=
  SHIFT f + SIZE f <= SHIFT g \/ SHIFT g + SIZE g <= SHIFT f.

(** The members of [struct dpsw_prep_acl_entry] that
    [dpsw_acl_prepare_entry_cfg] writes, in the order of their first write,
    with their sizes in bytes; and the bytes each is to hold for a key:
    hardware addresses reversed, the other fields little-endian. *)
Definition acl_entry_members : list (string * nat) :=
  [ ("match_l2_dest_mac", 6); ("match_l2_source_mac", 6);
    ("mask_l2_dest_mac", 6); ("mask_l2_source_mac", 6);
    ("match_l2_tpid", 2); ("match_l2_vlan_id", 2); ("match_l3_dest_ip", 4);
    ("match_l3_source_ip", 4); ("match_l4_dest_port", 2);
    ("match_l4_source_port", 2); ("match_l2_ether_type", 2);
    ("match_l2_pcp_dei", 1); ("match_l3_dscp", 1);
    ("mask_l2_tpid", 2); ("mask_l2_vlan_id", 2); ("mask_l3_dest_ip", 4);
    ("mask_l3_source_ip", 4); ("mask_l4_dest_port", 2);
    ("mask_l4_source_port", 2); ("mask_l2_ether_type", 2);
    ("mask_l2_pcp_dei", 1); ("mask_l3_dscp", 1);
    ("match_l3_protocol", 1); ("mask_l3_protocol", 1);
    ("match_frame_flags", 1); ("mask_frame_flags", 1) ]%nat.

Definition acl_entry_image (key : dpsw_acl_key.t) : list (string * list Z) :=
  let match_ := dpsw_acl_key.match_ key in
  let mask := dpsw_acl_key.mask key in
  [ ("match_l2_dest_mac", rev (dpsw_acl_fields.l2_dest_mac match_));
    ("match_l2_source_mac", rev (dpsw_acl_fields.l2_source_mac match_));
    ("mask_l2_dest_mac", rev (dpsw_acl_fields.l2_dest_mac mask));
    ("mask_l2_source_mac", rev (dpsw_acl_fields.l2_source_mac mask));
    ("match_l2_tpid", le_bytes 2 (dpsw_acl_fields.l2_tpid match_));
    ("match_l2_vlan_id", le_bytes 2 (dpsw_acl_fields.l2_vlan_id match_));
    ("match_l3_dest_ip", le_bytes 4 (dpsw_acl_fields.l3_dest_ip match_));
    ("match_l3_source_ip", le_bytes 4 (dpsw_acl_fields.l3_source_ip match_));
    ("match_l4_dest_port", le_bytes 2 (dpsw_acl_fields.l4_dest_port match_));
    ("match_l4_source_port", le_bytes 2 (dpsw_acl_fields.l4_source_port match_));
    ("match_l2_ether_type", le_bytes 2 (dpsw_acl_fields.l2_ether_type match_));
    ("match_l2_pcp_dei", le_bytes 1 (dpsw_acl_fields.l2_pcp_dei match_));
    ("match_l3_dscp", le_bytes 1 (dpsw_acl_fields.l3_dscp match_));
    ("mask_l2_tpid", le_bytes 2 (dpsw_acl_fields.l2_tpid mask));
    ("mask_l2_vlan_id", le_bytes 2 (dpsw_acl_fields.l2_vlan_id mask));
    ("mask_l3_dest_ip", le_bytes 4 (dpsw_acl_fields.l3_dest_ip mask));
    ("mask_l3_source_ip", le_bytes 4 (dpsw_acl_fields.l3_source_ip mask));
    ("mask_l4_dest_port", le_bytes 2 (dpsw_acl_fields.l4_dest_port mask));
    ("mask_l4_source_port", le_bytes 2 (dpsw_acl_fields.l4_source_port mask));
    ("mask_l2_ether_type", le_bytes 2 (dpsw_acl_fields.l2_ether_type mask));
    ("mask_l2_pcp_dei", le_bytes 1 (dpsw_acl_fields.l2_pcp_dei mask));
    ("mask_l3_dscp", le_bytes 1 (dpsw_acl_fields.l3_dscp mask));
    ("match_l3_protocol", le_bytes 1 (dpsw_acl_fields.l3_protocol match_));
    ("mask_l3_protocol", le_bytes 1 (dpsw_acl_fields.l3_protocol mask));
    ("match_frame_flags", le_bytes 1 (dpsw_acl_fields.frame_flags match_));
    ("mask_frame_flags", le_bytes 1 (dpsw_acl_fields.frame_flags mask)) ].

(** The request of a call whose parameters are scalars: the structure
    laid over [cmd.params] and, for each member the operation writes, the
    bytes it is to hold: the low bytes of the value, little-endian.  A
    sub-byte field is written into a byte that is zero. *)
Definition call_request (c : dpsw_call) : option (string * list (string * list Z)) :=
  match c with
  | call_open _ dpsw_id _ =>
      Some ("dpsw_cmd_open", [("dpsw_id", le_bytes 4 dpsw_id)])
  | call_close _ _ | call_enable _ _ | call_disable _ _ | call_reset _ _
  | call_get_attributes _ _ _ | call_get_api_version _ _ _ =>
      Some ("", [])
  | call_set_irq_enable _ _ irq_index en =>
      Some ("dpsw_cmd_set_irq_enable",
            [("enable_state", le_bytes 1 (dpsw_set_field 0 ENABLE en));
             ("irq_index", le_bytes 1 irq_index)])
  | call_set_irq_mask _ _ irq_index mask =>
      Some ("dpsw_cmd_set_irq_mask",
            [("mask", le_bytes 4 mask); ("irq_index", le_bytes 1 irq_index)])
  | call_get_irq_status _ _ irq_index status =>
      Some ("dpsw_cmd_get_irq_status",
            [("status", le_bytes 4 status); ("irq_index", le_bytes 1 irq_index)])
  | call_clear_irq_status _ _ irq_index status =>
      Some ("dpsw_cmd_clear_irq_status",
            [("status", le_bytes 4 status); ("irq_index", le_bytes 1 irq_index)])
  | call_if_get_attributes _ _ if_id _ | call_if_enable _ _ if_id
  | call_if_disable _ _ if_id | call_if_get_port_mac_addr _ _ if_id _
  | call_if_get_primary_mac_addr _ _ if_id _ =>
      Some ("dpsw_cmd_if", [("if_id", le_bytes 2 if_id)])
  | call_if_set_link_cfg _ _ if_id cfg =>
      Some ("dpsw_cmd_if_set_link_cfg",
            [("if_id", le_bytes 2 if_id);
             ("rate", le_bytes 4 (dpsw_link_cfg.rate cfg));
             ("options", le_bytes 8 (dpsw_link_cfg.options cfg))])
  | call_if_get_link_state _ _ if_id _ =>
      Some ("dpsw_cmd_if_get_link_state", [("if_id", le_bytes 2 if_id)])
  | call_if_set_flooding _ _ if_id en =>
      Some ("dpsw_cmd_if_set_flooding",
            [("if_id", le_bytes 2 if_id);
             ("enable", le_bytes 1 (dpsw_set_field 0 ENABLE en))])
  | call_if_set_broadcast _ _ if_id en =>
      Some ("dpsw_cmd_if_set_broadcast",
            [("if_id", le_bytes 2 if_id);
             ("enable", le_bytes 1 (dpsw_set_field 0 ENABLE en))])
  | call_if_get_tci _ _ if_id _ =>
      Some ("dpsw_cmd_if_get_tci", [("if_id", le_bytes 2 if_id)])
  | call_if_set_stp _ _ if_id cfg =>
      Some ("dpsw_cmd_if_set_stp",
            [("if_id", le_bytes 2 if_id);
             ("vlan_id", le_bytes 2 (dpsw_stp_cfg.vlan_id cfg));
             ("state", le_bytes 1 (dpsw_set_field 0 STATE (dpsw_stp_cfg.state cfg)))])
  | call_if_get_counter _ _ if_id type _ =>
      Some ("dpsw_cmd_if_get_counter",
            [("if_id", le_bytes 2 if_id);
             ("type", le_bytes 1 (dpsw_set_field 0 COUNTER_TYPE type))])
  | call_if_set_max_frame_length _ _ if_id frame_length =>
      Some ("dpsw_cmd_if_set_max_frame_length",
            [("if_id", le_bytes 2 if_id); ("frame_length", le_bytes 2 frame_length)])
  | call_vlan_add _ _ vlan_id cfg =>
      Some ("dpsw_vlan_add",
            [("fdb_id", le_bytes 2 (dpsw_vlan_cfg.fdb_id cfg));
             ("vlan_id", le_bytes 2 vlan_id)])
  | call_vlan_remove _ _ vlan_id =>
      Some ("dpsw_cmd_vlan_remove", [("vlan_id", le_bytes 2 vlan_id)])
  | call_fdb_dump _ _ fdb_id iova_addr iova_size _ =>
      Some ("dpsw_cmd_fdb_dump",
            [("fdb_id", le_bytes 2 fdb_id); ("iova_addr", le_bytes 8 iova_addr);
             ("iova_size", le_bytes 4 iova_size)])
  | call_fdb_set_learning_mode _ _ fdb_id mode =>
      Some ("dpsw_cmd_fdb_set_learning_mode",
            [("fdb_id", le_bytes 2 fdb_id);
             ("mode", le_bytes 1 (dpsw_set_field 0 LEARNING_MODE mode))])
  | call_acl_add _ _ _ cfg =>
      Some ("dpsw_cmd_acl_add",
            [("max_entries", le_bytes 2 (dpsw_acl_cfg.max_entries cfg))])
  | call_acl_remove _ _ acl_id =>
      Some ("dpsw_cmd_acl_remove", [("acl_id", le_bytes 2 acl_id)])
  | call_acl_add_entry _ _ acl_id cfg =>
      Some ("dpsw_cmd_acl_entry",
            [("acl_id", le_bytes 2 acl_id);
             ("result_if_id",
              le_bytes 2 (dpsw_acl_result.if_id (dpsw_acl_entry_cfg.result cfg)));
             ("precedence", le_bytes 4 (dpsw_acl_entry_cfg.precedence cfg));
             ("key_iova", le_bytes 8 (dpsw_acl_entry_cfg.key_iova cfg));
             ("result_action",
              le_bytes 1 (dpsw_set_field 0 RESULT_ACTION
                            (dpsw_acl_result.action (dpsw_acl_entry_cfg.result cfg))))])
  | _ => None
  end.

(** The members of an image, with their sizes. *)
Definition image_members (img : list (string * list Z)) : list (string * nat) :=
  map (fun fb => (fst fb, length (snd fb))) img.

(** Byte strings stored at their addresses, the first of the list first. *)
Definition apply_writes (buf : list Z) (ws : list (nat * list Z)) : list Z :=
  fold_left (fun b w => store b (fst w) (snd w)) ws buf.

(** The byte at [j] after the writes [ws], over a byte [d]: the last write
    that covers [j] decides. *)
Fixpoint byte_after (ws : list (nat * list Z)) (j : nat) (d : Z) : Z :=
  match ws with
  | [] => d
  | w :: ws' =>
      byte_after ws' j
        (if decide (fst w <= j < fst w + length (snd w))%nat
         then default 0 (snd w !! (j - fst w)%nat) else d)
  end.

(** Byte ranges (address, size) no two of which meet. *)
Fixpoint pairwise_apart (rs : list (nat * nat)) : Prop :=
  match rs with
  | [] => True
  | r :: rs' =>
      Forall (fun r' => apart (fst r) (snd r) (fst r') (snd r')) rs' /\
      pairwise_apart rs'
  end.

(** The members [ms] (name, size in bytes) of the structure [s] do not
    overlap, and lie inside the first [n] bytes. *)
Definition members_apart (s : string) (ms : list (string * nat)) : Prop :=
  pairwise_apart (map (fun fw => (offsetof s (fst fw), snd fw)) ms).

Definition members_inside (s : string) (ms : list (string * nat)) (n : nat) : Prop :=
  Forall (fun fw => (offsetof s (fst fw) + snd fw <= n)%nat) ms.

(** ** Facts about the byte layer *)

Lemma length_le_bytes n v : length (le_bytes n v) = n.
Proof. revert v; induction n as [|n IH]; intros v; simpl; [done | by rewrite IH]. Qed.

Lemma le_value_le_bytes n v : le_value (le_bytes n v) = v mod 2 ^ (8 * Z.of_nat n).
Proof.
  revert v; induction n as [|n IH]; intros v.
  - simpl. by rewrite Z.mod_1_r.
  - cbn [le_bytes le_value]. rewrite IH.
    replace (8 * Z.of_nat (S n)) with (8 + 8 * Z.of_nat n) by lia.
    rewrite Z.pow_add_r by lia.
    change (2 ^ 8) with 256.
    rewrite (Z.rem_mul_r v 256 (2 ^ (8 * Z.of_nat n))) by lia.
    reflexivity.
Qed.

Lemma le_bytes_zero n : le_bytes n 0 = replicate n 0.
Proof.
  induction n as [|n IH]; [done|].
  cbn [le_bytes replicate]. change (0 / 256) with 0. change (0 mod 256) with 0.
  by rewrite IH.
Qed.

Lemma length_store m a bs : length (store m a bs) = length m.
Proof. apply length_inserts. Qed.

Lemma byte_at_store m a bs j :
  byte_at (store m a bs) j =
  if decide (a <= j < a + length bs /\ j < length m)%nat
  then default 0 (bs !! (j - a)%nat) else byte_at m j.
Proof.
  unfold byte_at, store. case_decide as H.
  - destruct H as [H1 H2]. by rewrite list_lookup_inserts.
  - destruct (decide (j < a)%nat).
    + by rewrite list_lookup_inserts_lt.
    + destruct (decide (a + length bs <= j)%nat).
      * by rewrite list_lookup_inserts_ge.
      * rewrite !lookup_ge_None_2; [done | lia |].
        rewrite length_inserts. lia.
Qed.

Lemma byte_at_store_out m a bs j :
  (j < a \/ a + length bs <= j)%nat -> byte_at (store m a bs) j = byte_at m j.
Proof. intros H. rewrite byte_at_store. case_decide; [lia | done]. Qed.

Lemma load_store m a bs :
  (a + length bs <= length m)%nat -> load (store m a bs) a (length bs) = bs.
Proof.
  intros H. unfold load, store. apply list_eq. intros i.
  destruct (decide (i < length bs)%nat) as [Hi|Hi].
  - rewrite lookup_take_lt by done. rewrite lookup_drop.
    rewrite list_lookup_inserts by lia. f_equal. lia.
  - rewrite lookup_take_ge by lia. symmetry. apply lookup_ge_None_2. lia.
Qed.

Lemma load_store_disjoint m a bs b n :
  (b + n <= a \/ a + length bs <= b)%nat ->
  load (store m a bs) b n = load m b n.
Proof.
  intros H. unfold load, store. apply list_eq. intros i.
  destruct (decide (i < n)%nat) as [Hi|Hi].
  - rewrite !lookup_take_lt by done. rewrite !lookup_drop.
    destruct H as [H|H].
    + by rewrite list_lookup_inserts_lt by lia.
    + by rewrite list_lookup_inserts_ge by lia.
  - by rewrite !lookup_take_ge by lia.
Qed.

Lemma ld8_byte_at m a : ld8 m a = byte_at m a.
Proof.
  unfold ld8, byte_at, load.
  destruct (drop a m) as [|b l] eqn:E.
  - assert (m !! a = None) as ->; [|done].
    apply lookup_ge_None_2. apply (f_equal length) in E.
    rewrite length_drop in E. simpl in E. lia.
  - assert (m !! a = Some b) as ->.
    { replace a with (a + 0)%nat by lia. rewrite <- lookup_drop, E. done. }
    simpl. lia.
Qed.

Lemma lookup_store (m : list Z) a bs j :
  store m a bs !! j =
  if decide (a <= j < a + length bs /\ j < length m)%nat
  then bs !! (j - a)%nat else m !! j.
Proof.
  unfold store. case_decide as H.
  - destruct H as [H1 H2]. by rewrite list_lookup_inserts.
  - destruct (decide (j < a)%nat).
    + by rewrite list_lookup_inserts_lt.
    + destruct (decide (a + length bs <= j)%nat).
      * by rewrite list_lookup_inserts_ge.
      * rewrite !lookup_ge_None_2; [done | lia |].
        rewrite length_inserts. lia.
Qed.

Lemma store_store m a bs1 bs2 :
  length bs1 = length bs2 -> store (store m a bs1) a bs2 = store m a bs2.
Proof.
  intros Hl. apply list_eq. intros j.
  rewrite !lookup_store, length_store, Hl.
  repeat case_decide; try done; lia.
Qed.

Lemma le_bytes_congr n a b :
  a mod 2 ^ (8 * Z.of_nat n) = b mod 2 ^ (8 * Z.of_nat n) -> le_bytes n a = le_bytes n b.
Proof.
  revert a b. induction n as [|n IH]; intros a b H; [done|].
  replace (8 * Z.of_nat (S n)) with (8 + 8 * Z.of_nat n) in H by lia.
  rewrite Z.pow_add_r in H by lia. change (2 ^ 8) with 256 in H.
  rewrite !(Z.rem_mul_r _ 256 (2 ^ (8 * Z.of_nat n))) in H by lia.
  assert (0 <= a mod 256 < 256) as Ha by (apply Z.mod_pos_bound; lia).
  assert (0 <= b mod 256 < 256) as Hb by (apply Z.mod_pos_bound; lia).
  assert (a mod 256 = b mod 256 /\
          (a / 256) mod 2 ^ (8 * Z.of_nat n) = (b / 256) mod 2 ^ (8 * Z.of_nat n))
    as [H1 H2] by lia.
  cbn [le_bytes]. rewrite H1. f_equal. by apply IH.
Qed.

Lemma ld64_st64 m a v : (a + 8 <= length m)%nat -> ld64 (st64 m a v) a = v mod 2 ^ 64.
Proof.
  intros H. unfold ld64, st64.
  replace 8%nat with (length (le_bytes 8 v)) at 2 by apply length_le_bytes.
  rewrite load_store by (rewrite length_le_bytes; lia).
  by rewrite le_value_le_bytes.
Qed.

Lemma ld64_st64_other m a v b :
  (b + 8 <= a \/ a + 8 <= b)%nat -> ld64 (st64 m a v) b = ld64 m b.
Proof.
  intros H. unfold ld64, st64. rewrite load_store_disjoint; [done|].
  rewrite length_le_bytes. lia.
Qed.

Lemma st64_st64 m a v w : st64 (st64 m a v) a w = st64 m a w.
Proof. unfold st64. apply store_store. by rewrite !length_le_bytes. Qed.

Lemma st64_congr m a v w : v mod 2 ^ 64 = w mod 2 ^ 64 -> st64 m a v = st64 m a w.
Proof. intros H. unfold st64. f_equal. by apply le_bytes_congr. Qed.

(** ** Facts about the bitmap builder *)

Lemma testbit_BIT_MASK x j :
  0 <= x -> 0 <= j < 64 ->
  Z.testbit (cpu_to_le64 (BIT_MASK (x mod 64))) j = (x mod 64 =? j).
Proof.
  intros Hx Hj. unfold cpu_to_le64, BIT_MASK, u64, BITS_PER_LONG.
  rewrite !Z.mod_pow2_bits_low by lia.
  rewrite Z.mod_mod by lia. rewrite Z.shiftl_1_l.
  apply Z.pow2_bits_eqb. apply Z.mod_pos_bound. lia.
Qed.

Lemma testbit_if_mask l j :
  Forall (fun x => 0 <= x < 2 ^ 16) l -> 0 <= j < 64 ->
  Z.testbit (if_mask l) j = existsb (fun x => (x <? DPSW_MAX_IF) && (x mod 64 =? j)) l.
Proof.
  intros Hl Hj. induction Hl as [|x l Hx Hl IH]; simpl.
  - apply Z.bits_0.
  - destruct (x <? DPSW_MAX_IF); simpl; [|done].
    rewrite Z.lor_spec, IH. f_equal. apply testbit_BIT_MASK; lia.
Qed.

Lemma if_mask_none l : existsb (fun x => x <? DPSW_MAX_IF) l = false -> if_mask l = 0.
Proof.
  induction l as [|x l IH]; [done|]. simpl.
  destruct (x <? DPSW_MAX_IF); simpl; [done | exact IH].
Qed.

Lemma bitmap_set_high m bmap x : DPSW_MAX_IF <= x -> bitmap_set m bmap x = m.
Proof. intros H. unfold bitmap_set. destruct (Z.ltb_spec x DPSW_MAX_IF); [lia | done]. Qed.

Lemma bitmap_set_low m bmap x :
  0 <= x < DPSW_MAX_IF ->
  bitmap_set m bmap x =
  st64 m bmap (Z.lor (ld64 m bmap) (cpu_to_le64 (BIT_MASK (x mod 64)))).
Proof.
  intros H. unfold bitmap_set, DPSW_MAX_IF in *.
  destruct (Z.ltb_spec x 64); [|lia].
  rewrite Z.div_small by lia. simpl. by rewrite Nat.add_0_r.
Qed.

Lemma lor_mod_lor a b c :
  (Z.lor (Z.lor a b mod 2 ^ 64) c) mod 2 ^ 64 = (Z.lor a (Z.lor b c)) mod 2 ^ 64.
Proof.
  apply Z.bits_inj'. intros j Hj.
  destruct (Z.lt_ge_cases j 64).
  - rewrite !Z.mod_pow2_bits_low by lia. rewrite !Z.lor_spec.
    rewrite Z.mod_pow2_bits_low by lia. rewrite Z.lor_spec. by rewrite orb_assoc.
  - by rewrite !Z.mod_pow2_bits_high by lia.
Qed.

(** Closed form of the loop body folded over a list of ids. *)
Lemma fold_bitmap_set l : forall m bmap,
  (bmap + 8 <= length m)%nat ->
  Forall (fun x => 0 <= x < 2 ^ 16) l ->
  fold_left (fun m x => bitmap_set m bmap x) l m =
  if existsb (fun x => x <? DPSW_MAX_IF) l
  then st64 m bmap (Z.lor (ld64 m bmap) (if_mask l))
  else m.
Proof.
  induction l as [|x l IH]; intros m bmap Hin Hty; [done|].
  inversion Hty as [|? ? Hx Hl]; subst.
  cbn [fold_left existsb if_mask fold_right].
  destruct (Z.ltb_spec x DPSW_MAX_IF) as [Hlt|Hge].
  - rewrite bitmap_set_low by lia. cbn [orb].
    rewrite IH by (rewrite ?length_store; unfold st64; rewrite ?length_store; done).
    fold (if_mask l).
    destruct (existsb (fun x => x <? DPSW_MAX_IF) l) eqn:E.
    + rewrite ld64_st64 by done. rewrite st64_st64.
      apply st64_congr. apply lor_mod_lor.
    + rewrite (if_mask_none l E). by rewrite Z.lor_0_r.
  - rewrite bitmap_set_high by lia. cbn [orb]. rewrite IH by done.
    by fold (if_mask l).
Qed.

Lemma loop_cond i num_ifs :
  (Z.of_nat i <? num_ifs) && (Z.of_nat i <? DPSW_MAX_IF) =
  bool_decide (i < Z.to_nat (Z.min num_ifs DPSW_MAX_IF))%nat.
Proof.
  unfold DPSW_MAX_IF.
  destruct (Z.ltb_spec (Z.of_nat i) num_ifs), (Z.ltb_spec (Z.of_nat i) 64);
    simpl; symmetry; (apply bool_decide_eq_true_2 || apply bool_decide_eq_false_2); lia.
Qed.

Lemma build_if_id_bitmap_from_fold bmap id num_ifs fuel : forall i m,
  (Z.to_nat (Z.min num_ifs DPSW_MAX_IF) <= length id)%nat ->
  (Z.to_nat (Z.min num_ifs DPSW_MAX_IF) - i <= fuel)%nat ->
  build_if_id_bitmap_from fuel i m bmap id num_ifs =
  fold_left (fun m x => bitmap_set m bmap x)
    (take (Z.to_nat (Z.min num_ifs DPSW_MAX_IF) - i) (drop i id)) m.
Proof.
  set (c := Z.to_nat (Z.min num_ifs DPSW_MAX_IF)).
  induction fuel as [|fuel IH]; intros i m Hlen Hfuel.
  - replace (c - i)%nat with 0%nat by lia. done.
  - cbn [build_if_id_bitmap_from]. rewrite loop_cond. fold c.
    case_bool_decide as Hi.
    + destruct (lookup_lt_is_Some_2 id i) as [x Hx]; [lia|].
      rewrite (nth_lookup_Some _ _ _ _ Hx).
      rewrite (drop_S _ _ _ Hx).
      replace (c - i)%nat with (S (c - S i)) by lia.
      cbn [take fold_left]. apply IH; [done | lia].
    + replace (c - i)%nat with 0%nat by lia. done.
Qed.

Lemma build_if_id_bitmap_fold m bmap id num_ifs :
  (Z.to_nat (Z.min num_ifs DPSW_MAX_IF) <= length id)%nat ->
  build_if_id_bitmap m bmap id num_ifs =
  fold_left (fun m x => bitmap_set m bmap x) (processed id num_ifs) m.
Proof.
  intros Hlen. unfold build_if_id_bitmap, processed.
  rewrite build_if_id_bitmap_from_fold; [|done|unfold DPSW_MAX_IF; lia].
  by rewrite Nat.sub_0_r, drop_0.
Qed.

(** The loop is over before the fuel is: any larger amount gives the result
    of [build_if_id_bitmap]. *)
Lemma build_if_id_bitmap_from_fuel bmap id num_ifs f1 : forall f2 i m,
  (Z.to_nat (Z.min num_ifs DPSW_MAX_IF) - i <= f1)%nat ->
  (Z.to_nat (Z.min num_ifs DPSW_MAX_IF) - i <= f2)%nat ->
  build_if_id_bitmap_from f1 i m bmap id num_ifs =
  build_if_id_bitmap_from f2 i m bmap id num_ifs.
Proof.
  induction f1 as [|f1 IH]; intros [|f2] i m H1 H2; cbn [build_if_id_bitmap_from];
    rewrite ?loop_cond; try case_bool_decide; try done; try lia.
  apply IH; lia.
Qed.

Lemma build_if_id_bitmap_fuel fuel m bmap id num_ifs :
  (Z.to_nat DPSW_MAX_IF <= fuel)%nat ->
  build_if_id_bitmap_from fuel 0 m bmap id num_ifs =
  build_if_id_bitmap m bmap id num_ifs.
Proof.
  intros H. unfold build_if_id_bitmap.
  apply build_if_id_bitmap_from_fuel; unfold DPSW_MAX_IF in *; lia.
Qed.

Lemma existsb_pointwise {A} (f g : A -> bool) l :
  (forall x, f x = g x) -> existsb f l = existsb g l.
Proof. intros H. induction l as [|x l IH]; simpl; [done | by rewrite H, IH]. Qed.

Lemma processed_typed id num_ifs :
  Forall (fun x => 0 <= x < 2 ^ 16) id ->
  Forall (fun x => 0 <= x < 2 ^ 16) (processed id num_ifs).
Proof. intros H. unfold processed. by apply Forall_take. Qed.

Lemma ld64_zero n a : ld64 (replicate n 0) a = 0.
Proof.
  unfold ld64, load. rewrite drop_replicate, take_replicate.
  generalize (8 `min` (n - a))%nat as k. induction k as [|k IH]; simpl; [done|].
  rewrite IH. done.
Qed.

(** ** The interface-set bitmap: properties *)

(** C2.  For every buffer, every array of u16 interface ids and every count,
    [build_if_id_bitmap] reads exactly the first [min(count, 64)] entries;
    bit [j] of the 64-bit little-endian word [k] of the bitmap is set
    afterwards if and only if it was set before or one of these entries is
    an id below 64 with [id / 64 = k] and [id mod 64 = j]; no bit is
    cleared and no byte outside the bitmap changes. *)
Theorem build_if_id_bitmap_bits m bmap id num_ifs :
  (bmap + 8 <= length m)%nat ->
  Forall (fun x => 0 <= x < 2 ^ 16) id ->
  (Z.to_nat (Z.min num_ifs DPSW_MAX_IF) <= length id)%nat ->
  let m' := build_if_id_bitmap m bmap id num_ifs in
  length m' = length m /\
  (forall (k : nat) (j : Z),
     (bmap + 8 * k + 8 <= length m)%nat -> 0 <= j < 64 ->
     Z.testbit (ld64 m' (bmap + 8 * k)) j =
     Z.testbit (ld64 m (bmap + 8 * k)) j ||
     existsb (fun x => (x <? DPSW_MAX_IF) && (x / 64 =? Z.of_nat k) && (x mod 64 =? j))
       (take (Z.to_nat (Z.min num_ifs DPSW_MAX_IF)) id)) /\
  (forall a, (a < bmap \/ bmap + 8 <= a)%nat -> byte_at m' a = byte_at m a).
Proof.
  intros Hin Hty Hlen m'. subst m'.
  rewrite build_if_id_bitmap_fold by done.
  pose proof (processed_typed id num_ifs Hty) as Hp.
  rewrite fold_bitmap_set by done.
  fold (processed id num_ifs).
  set (l := processed id num_ifs) in *.
  assert (forall k j, existsb (fun x => (x <? DPSW_MAX_IF) && (x / 64 =? Z.of_nat k) && (x mod 64 =? j)) l =
                      (k =? 0)%nat && existsb (fun x => (x <? DPSW_MAX_IF) && (x mod 64 =? j)) l) as Hex.
  { intros k j. clear -Hp. induction Hp as [|x l Hx Hl IH]; simpl.
    - by rewrite andb_false_r.
    - rewrite IH. unfold DPSW_MAX_IF.
      destruct (Z.ltb_spec x 64); simpl.
      + rewrite Z.div_small by lia. destruct k; simpl; [done|].
        destruct (Z.eqb_spec 0 (Z.pos (Pos.of_succ_nat k))); [lia | done].
      + done. }
  destruct (existsb (fun x => x <? DPSW_MAX_IF) l) eqn:E.
  - split; [unfold st64; apply length_store|]. split.
    + intros k j Hk Hj. rewrite Hex. destruct k as [|k].
      * rewrite Nat.mul_0_r, Nat.add_0_r. rewrite ld64_st64 by done.
        rewrite Z.mod_pow2_bits_low by lia. rewrite Z.lor_spec.
        by rewrite testbit_if_mask.
      * rewrite ld64_st64_other by lia. simpl. by rewrite orb_false_r.
    + intros a Ha. unfold st64. apply byte_at_store_out.
      rewrite length_le_bytes. lia.
  - split; [done|]. split; [|done].
    intros k j Hk Hj. rewrite Hex.
    assert (existsb (fun x => (x <? DPSW_MAX_IF) && (x mod 64 =? j)) l = false) as ->.
    { clear -E. induction l as [|x l IH]; [done|]. simpl in *.
      destruct (x <? DPSW_MAX_IF); simpl in *; [done | by apply IH]. }
    by rewrite andb_false_r, orb_false_r.
Qed.

(** C5.  An interface index of 64 with a count of 1 leaves the bitmap as it
    was, and the builder has no way to report it: it hands back the buffer
    and nothing else.  In general the ids that are not below
    [DPSW_MAX_IF] are dropped: the result is the one built from the
    remaining ids alone. *)
Theorem build_if_id_bitmap_drops_high :
  (forall m bmap, build_if_id_bitmap m bmap [64] 1 = m) /\
  (forall m bmap id num_ifs,
     (Z.to_nat (Z.min num_ifs DPSW_MAX_IF) <= length id)%nat ->
     build_if_id_bitmap m bmap id num_ifs =
     fold_left (fun m x => bitmap_set m bmap x)
       (List.filter (fun x => x <? DPSW_MAX_IF) (take (Z.to_nat (Z.min num_ifs DPSW_MAX_IF)) id)) m).
Proof.
  split.
  - intros m bmap. reflexivity.
  - intros m bmap id num_ifs Hlen. rewrite build_if_id_bitmap_fold by done.
    unfold processed. generalize (take (Z.to_nat (Z.min num_ifs DPSW_MAX_IF)) id) as l.
    intros l. revert m. induction l as [|x l IH]; intros m; [done|].
    cbn [fold_left List.filter].
    destruct (Z.ltb_spec x DPSW_MAX_IF).
    + cbn [fold_left]. apply IH.
    + rewrite bitmap_set_high by done. apply IH.
Qed.

(** C8.  Built into a zeroed buffer from [5, 70, 5] with count 3, the bitmap
    is the word [2^5]: bit 5 of word 0 and nothing else.  In general the
    bitmap depends only on which ids below [DPSW_MAX_IF] occur among the
    entries read, not on how often: an id given twice builds the bitmap of
    the id given once. *)
Theorem build_if_id_bitmap_idempotent :
  (forall (n bmap : nat), (bmap + 8 <= n)%nat ->
     build_if_id_bitmap (replicate n 0) bmap [5; 70; 5] 3 =
     st64 (replicate n 0) bmap (2 ^ 5)) /\
  (forall m bmap id1 n1 id2 n2,
     (bmap + 8 <= length m)%nat ->
     Forall (fun x => 0 <= x < 2 ^ 16) id1 ->
     Forall (fun x => 0 <= x < 2 ^ 16) id2 ->
     (Z.to_nat (Z.min n1 DPSW_MAX_IF) <= length id1)%nat ->
     (Z.to_nat (Z.min n2 DPSW_MAX_IF) <= length id2)%nat ->
     (forall x, x < DPSW_MAX_IF ->
        In x (take (Z.to_nat (Z.min n1 DPSW_MAX_IF)) id1) <->
        In x (take (Z.to_nat (Z.min n2 DPSW_MAX_IF)) id2)) ->
     build_if_id_bitmap m bmap id1 n1 = build_if_id_bitmap m bmap id2 n2).
Proof.
  split.
  - intros n bmap Hn.
    rewrite build_if_id_bitmap_fold by (simpl; lia).
    rewrite fold_bitmap_set.
    + change (processed [5; 70; 5] 3) with [5; 70; 5].
      cbn [existsb]. change (5 <? DPSW_MAX_IF) with true. cbn [orb].
      rewrite ld64_zero. reflexivity.
    + by rewrite length_replicate.
    + repeat constructor; lia.
  - intros m bmap id1 n1 id2 n2 Hin Hty1 Hty2 Hl1 Hl2 Hsame.
    rewrite !build_if_id_bitmap_fold by done.
    pose proof (processed_typed id1 n1 Hty1) as Hp1.
    pose proof (processed_typed id2 n2 Hty2) as Hp2.
    rewrite !fold_bitmap_set by done.
    fold (processed id1 n1) in Hsame. fold (processed id2 n2) in Hsame.
    set (l1 := processed id1 n1) in *. set (l2 := processed id2 n2) in *.
    assert (forall P : Z -> bool,
              existsb (fun x => (x <? DPSW_MAX_IF) && P x) l1 =
              existsb (fun x => (x <? DPSW_MAX_IF) && P x) l2) as Hex.
    { intros P. apply eq_true_iff_eq. rewrite !existsb_exists.
      split; intros (x & Hx & Hpx); apply andb_prop in Hpx as [Hlt HP];
        apply Z.ltb_lt in Hlt; exists x; (split; [by apply Hsame | ]);
        apply andb_true_intro; (split; [by apply Z.ltb_lt | done]). }
    assert (existsb (fun x => x <? DPSW_MAX_IF) l1 = existsb (fun x => x <? DPSW_MAX_IF) l2) as ->.
    { pose proof (Hex (fun _ => true)) as H.
      rewrite !(existsb_pointwise (fun x => (x <? DPSW_MAX_IF) && true)
                  (fun x => x <? DPSW_MAX_IF)) in H by (intros; apply andb_true_r).
      exact H. }
    destruct (existsb (fun x => x <? DPSW_MAX_IF) l2); [|done].
    apply st64_congr. apply Z.bits_inj'. intros j Hj.
    destruct (Z.lt_ge_cases j 64).
    + rewrite !Z.mod_pow2_bits_low by lia. rewrite !Z.lor_spec.
      rewrite !testbit_if_mask by (done || lia). by rewrite Hex.
    + by rewrite !Z.mod_pow2_bits_high by lia.
Qed.

(** ** The command header: properties *)

Lemma for_upto_ind {S : Type} (P : nat -> S -> Prop) n (body : nat -> S -> S) s :
  P 0%nat s ->
  (forall i s, (i < n)%nat -> P i s -> P (Datatypes.S i) (body i s)) ->
  P n (for_upto n body s).
Proof.
  intros H0 Hstep. unfold for_upto.
  assert (forall k j s, (j + k <= n)%nat -> P j s ->
            P (j + k)%nat (fold_left (fun s i => body i s) (seq j k) s)) as Hgen.
  { induction k as [|k IH]; intros j s' Hle Hj; simpl.
    - by rewrite Nat.add_0_r.
    - replace (j + Datatypes.S k)%nat with (Datatypes.S j + k)%nat by lia.
      apply IH; [lia|]. apply Hstep; [lia | done]. }
  apply (Hgen n 0%nat s); [lia | done].
Qed.

Lemma header_for_upto n (body : nat -> fsl_mc_command -> fsl_mc_command) cmd :
  (forall i c, header (body i c) = header c) ->
  header (for_upto n body cmd) = header cmd.
Proof.
  intros Hb. apply (for_upto_ind (fun _ c => header c = header cmd)); [done|].
  intros i c _ Hc. by rewrite Hb.
Qed.

Ltac unfold_ops :=
  unfold dpsw_open, dpsw_close, dpsw_enable, dpsw_disable, dpsw_reset,
    dpsw_set_irq_enable, dpsw_set_irq_mask, dpsw_get_irq_status,
    dpsw_clear_irq_status, dpsw_get_attributes, dpsw_if_get_attributes,
    dpsw_if_set_link_cfg, dpsw_if_get_link_state, dpsw_if_set_flooding,
    dpsw_if_set_broadcast, dpsw_if_set_tci, dpsw_if_get_tci, dpsw_if_set_stp,
    dpsw_if_get_counter, dpsw_if_enable, dpsw_if_disable,
    dpsw_if_set_max_frame_length, dpsw_vlan_add, dpsw_vlan_add_if,
    dpsw_vlan_add_if_untagged, dpsw_vlan_remove_if, dpsw_vlan_remove_if_untagged,
    dpsw_vlan_remove, dpsw_fdb_add_unicast, dpsw_fdb_dump,
    dpsw_fdb_remove_unicast, dpsw_fdb_add_multicast, dpsw_fdb_remove_multicast,
    dpsw_fdb_set_learning_mode, dpsw_get_api_version, dpsw_if_get_port_mac_addr,
    dpsw_if_get_primary_mac_addr, dpsw_if_set_primary_mac_addr, dpsw_acl_add,
    dpsw_acl_remove, dpsw_acl_add_if, dpsw_acl_remove_if, dpsw_acl_add_entry,
    return_send, mc_send_command;
  cbv zeta.

(** Splits on the answer of the portal and on the test [if (err)]. *)
Ltac answer e r p :=
  match goal with
  | |- context [mc_exec ?s ?c] => destruct (mc_exec s c) as [[e r] p]
  end;
  lazymatch goal with
  | |- context [negb (e =? 0)] => destruct (negb (e =? 0))
  | |- _ => idtac
  end;
  cbn [fst snd io_sent io_portal].

Ltac header_of :=
  repeat first
    [ rewrite header_for_upto by (intros; reflexivity)
    | progress cbn [header set_params set_header wr8 wr16 wr32 wr64
                    mc_encode_cmd_header hdr_token hdr_cmd_id hdr_flags] ].

(** Exposes the parameter bytes of a command built by member writes. *)
Ltac params_of :=
  unfold rd8, rd16, rd32, rd64, wr8, wr16, wr32, wr64, set_header, cmd_zero;
  cbn [params set_params header].

(** C10.  Every call submits one command.  [dpsw_open] and
    [dpsw_get_api_version] put the session token 0 into its header; each of
    the other operations puts its own 16-bit [token] argument there,
    unchanged. *)
Theorem token_in_header (mc_io : fsl_mc_io) (c : dpsw_call) :
  (forall t, call_token c = Some t -> 0 <= t < 2 ^ 16) ->
  exists cmd,
    io_sent (dpsw_run mc_io c) = io_sent mc_io ++ [cmd] /\
    match c with
    | call_open _ _ _ | call_get_api_version _ _ _ => hdr_token (header cmd) = 0
    | _ => Some (hdr_token (header cmd)) = call_token c
    end.
Proof.
  intros Ht.
  destruct c; cbn [dpsw_run call_token] in *; try specialize (Ht _ eq_refl);
    unfold_ops; answer e r p; (eexists; split; [reflexivity|]); header_of;
    try reflexivity;
    unfold cpu_to_le16, u16; by rewrite Z.mod_small.
Qed.

(** C1 (as the code has it).  [dpsw_if_get_primary_mac_addr] submits its
    command under the identifier [DPSW_CMDID_IF_SET_PRIMARY_MAC_ADDR], the
    one [dpsw_if_set_primary_mac_addr] uses: whatever the values of the
    identifiers, the two operations put the same command id on the wire. *)
Theorem get_primary_mac_addr_cmdid (mc_io : fsl_mc_io)
    (cmd_flags token if_id : Z) (mac_addr mac_addr' : list Z) :
  exists c_get c_set,
    io_sent (snd (dpsw_if_get_primary_mac_addr mc_io cmd_flags token if_id mac_addr))
      = io_sent mc_io ++ [c_get] /\
    io_sent (snd (dpsw_if_set_primary_mac_addr mc_io cmd_flags token if_id mac_addr'))
      = io_sent mc_io ++ [c_set] /\
    hdr_cmd_id (header c_get) = cpu_to_le16 (cmdid DPSW_CMDID_IF_SET_PRIMARY_MAC_ADDR) /\
    hdr_cmd_id (header c_get) = hdr_cmd_id (header c_set).
Proof.
  unfold_ops.
  match goal with
  | |- context [mc_exec ?s ?c] => destruct (mc_exec s c) as [[e r] p]
  end.
  match goal with
  | |- context [mc_exec ?s ?c] => destruct (mc_exec s c) as [[e' r'] p']
  end.
  destruct (negb (e =? 0)); cbn [fst snd io_sent io_portal];
    (eexists; eexists; split; [reflexivity|]; split; [reflexivity|]);
    header_of; done.
Qed.

(** ** Status and output parameters *)

Lemma mac_decode_loop (cmd : fsl_mc_command) (a : nat) (mac_addr : list Z) :
  length mac_addr = 6%nat ->
  for_upto 6 (fun i mac_addr => <[(5 - i)%nat := rd8 cmd (a + i)]> mac_addr) mac_addr =
  from_wire (mac_at (params cmd) a).
Proof.
  intros Hlen.
  destruct mac_addr as [|x0 [|x1 [|x2 [|x3 [|x4 [|x5 [|x6 l]]]]]]]; try discriminate.
  unfold rd8. cbn. by rewrite !ld8_byte_at.
Qed.

Ltac unfold_ops_keep_send :=
  unfold dpsw_open, dpsw_get_irq_status, dpsw_get_attributes,
    dpsw_if_get_attributes, dpsw_if_get_link_state, dpsw_if_get_tci,
    dpsw_if_get_counter, dpsw_fdb_dump, dpsw_get_api_version,
    dpsw_if_get_port_mac_addr, dpsw_if_get_primary_mac_addr, dpsw_acl_add;
  cbv zeta.

(** Names the command the operation hands to [mc_send_command], then
    splits on the answer and on the test [if (err)]. *)
Ltac contract_of :=
  eexists; unfold_ops_keep_send;
  match goal with
  | |- (let '(_, _) := mc_send_command _ ?x in _) =>
      match goal with
      | |- context [mc_send_command _ ?c] =>
          tryif is_evar c then fail else unify x c
      end
  end;
  let e := fresh "e" in
  let r := fresh "r" in
  let io' := fresh "io'" in
  match goal with
  | |- context [mc_send_command ?io ?c] =>
      destruct (mc_send_command io c) as [[e r] io']
  end;
  destruct (e =? 0); cbn [negb].

Lemma rd8_holds (rsp : fsl_mc_command) (a : nat) (v : Z) :
  load (params rsp) a 1 = le_bytes 1 v -> rd8 rsp a = u8 v.
Proof. intros H. unfold rd8, ld8. rewrite H. apply (le_value_le_bytes 1). Qed.

Lemma le16_holds (rsp : fsl_mc_command) (a : nat) (v : Z) :
  load (params rsp) a 2 = le_bytes 2 v -> le16_to_cpu (rd16 rsp a) = u16 v.
Proof.
  intros H. unfold rd16, ld16. rewrite H, (le_value_le_bytes 2).
  unfold le16_to_cpu, u16. change (2 ^ (8 * Z.of_nat 2)) with (2 ^ 16).
  by rewrite Z.mod_mod by lia.
Qed.

Lemma le32_holds (rsp : fsl_mc_command) (a : nat) (v : Z) :
  load (params rsp) a 4 = le_bytes 4 v -> le32_to_cpu (rd32 rsp a) = u32 v.
Proof.
  intros H. unfold rd32, ld32. rewrite H, (le_value_le_bytes 4).
  unfold le32_to_cpu, u32. change (2 ^ (8 * Z.of_nat 4)) with (2 ^ 32).
  by rewrite Z.mod_mod by lia.
Qed.

Lemma le64_holds (rsp : fsl_mc_command) (a : nat) (v : Z) :
  load (params rsp) a 8 = le_bytes 8 v -> le64_to_cpu (rd64 rsp a) = u64 v.
Proof.
  intros H. unfold rd64, ld64. rewrite H, (le_value_le_bytes 8).
  unfold le64_to_cpu, u64. change (2 ^ (8 * Z.of_nat 8)) with (2 ^ 64).
  by rewrite Z.mod_mod by lia.
Qed.

Lemma int_of_u32_u32 (x : Z) : int_of_u32 (u32 x) = int_of_u32 x.
Proof. unfold int_of_u32, u32. by rewrite !Z.mod_mod by lia. Qed.

Lemma mac_at_holds (rsp : fsl_mc_command) (a : nat) (w : list Z) :
  length w = 6%nat -> load (params rsp) a (length w) = w ->
  mac_at (params rsp) a = w.
Proof.
  intros Hl H. rewrite Hl in H.
  assert (a + 6 <= length (params rsp))%nat as Hin.
  { apply (f_equal length) in H. unfold load in H.
    rewrite length_take, length_drop in H. lia. }
  transitivity (load (params rsp) a 6); [|exact H].
  unfold mac_at, load.
  apply list_eq. intros i. rewrite list_lookup_fmap.
  destruct (decide (i < 6)%nat) as [Hi|Hi].
  - rewrite lookup_seq_lt by done. rewrite lookup_take_lt, lookup_drop by done.
    cbn. unfold byte_at.
    destruct (lookup_lt_is_Some_2 (params rsp) (a + i)) as [x ->]; [lia | done].
  - rewrite lookup_seq_ge by lia. rewrite lookup_take_ge by lia. done.
Qed.

Lemma from_wire_length6 (w : list Z) : length w = 6%nat -> from_wire w = rev w.
Proof.
  intros H.
  destruct w as [|x0 [|x1 [|x2 [|x3 [|x4 [|x5 [|x6 l]]]]]]]; try discriminate.
  reflexivity.
Qed.

(** Names the command the operation hands to [mc_send_command], and takes
    the members of the response one by one. *)
Ltac decoded_send :=
  let e := fresh "e" in
  let r := fresh "r" in
  let io' := fresh "io'" in
  let v := fresh "v" in
  let Hh := fresh "Hh" in
  unfold_ops_keep_send;
  match goal with
  | |- context [mc_send_command ?io ?c] =>
      exists c; destruct (mc_send_command io c) as [[e r] io']
  end;
  split;
  [ intros ?; destruct (Z.eqb_spec e 0); [done | reflexivity]
  | intros ->; cbn [Z.eqb negb]; intros v ? Hh; unfold rsp_holds in Hh;
    repeat match goal with
           | H : Forall _ (_ :: _) |- _ => apply Forall_cons in H as [? H]
           end;
    cbn [fst snd] in *; rewrite ?length_le_bytes in * ].

Ltac decoded_of :=
  let mc_io := fresh "mc_io" in
  let out := fresh "out" in
  unfold output_decoded; intros mc_io out ?; decoded_send.

Ltac decoded_scalars :=
  repeat match goal with
         | H : load (params ?r) ?a 1 = le_bytes 1 ?v |- _ =>
             rewrite (rd8_holds r a v H); clear H
         | H : load (params ?r) ?a 2 = le_bytes 2 ?v |- _ =>
             rewrite (le16_holds r a v H); clear H
         | H : load (params ?r) ?a 4 = le_bytes 4 ?v |- _ =>
             rewrite (le32_holds r a v H); clear H
         | H : load (params ?r) ?a 8 = le_bytes 8 ?v |- _ =>
             rewrite (le64_holds r a v H); clear H
         end;
  rewrite ?int_of_u32_u32; reflexivity.

(** C4.  Each operation that has output parameters submits one command.  If
    the transport returns a status other than zero, the operation returns
    that very status and the caller's output objects keep their values.  If
    it returns zero, the operation returns zero and every output field is
    taken from the response: [dpsw_open] hands back the token of the
    response header, and each of the others gives every output field the
    value the member of its name holds in the response, read little-endian
    at the width of the member; a sub-byte field is the field of the
    response byte, and a hardware address is the reversal of the six bytes
    of the response. *)
Theorem status_and_outputs
    (cmd_flags token dpsw_id irq_index if_id type fdb_id iova_addr iova_size : Z)
    (acl_cfg : dpsw_acl_cfg.t) :
  (forall mc_io token0,
     exists cmd,
       let '(err, rsp, mc_io') := mc_send_command mc_io cmd in
       (err <> 0 ->
        dpsw_open mc_io cmd_flags dpsw_id token0 = (err, token0, mc_io')) /\
       (err = 0 ->
        dpsw_open mc_io cmd_flags dpsw_id token0 =
        (0, u16 (hdr_token (header rsp)), mc_io'))) /\
  output_decoded (fun _ => True)
    (fun mc_io status => dpsw_get_irq_status mc_io cmd_flags token irq_index status)
    "dpsw_rsp_get_irq_status" (fun _ => True)
    (fun status : Z => [("status", le_bytes 4 status)])
    (fun status => u32 status) /\
  output_decoded (fun _ => True)
    (fun mc_io attr => dpsw_get_attributes mc_io cmd_flags token attr)
    "dpsw_rsp_get_attr" (fun _ => True)
    (fun v : dpsw_attr.t * Z =>
       [ ("num_ifs", le_bytes 2 (dpsw_attr.num_ifs (fst v)));
         ("max_fdbs", le_bytes 1 (dpsw_attr.max_fdbs (fst v)));
         ("num_fdbs", le_bytes 1 (dpsw_attr.num_fdbs (fst v)));
         ("max_vlans", le_bytes 2 (dpsw_attr.max_vlans (fst v)));
         ("num_vlans", le_bytes 2 (dpsw_attr.num_vlans (fst v)));
         ("max_fdb_entries", le_bytes 2 (dpsw_attr.max_fdb_entries (fst v)));
         ("fdb_aging_time", le_bytes 2 (dpsw_attr.fdb_aging_time (fst v)));
         ("dpsw_id", le_bytes 4 (dpsw_attr.id (fst v)));
         ("mem_size", le_bytes 2 (dpsw_attr.mem_size (fst v)));
         ("max_fdb_mc_groups", le_bytes 2 (dpsw_attr.max_fdb_mc_groups (fst v)));
         ("max_meters_per_if", le_bytes 1 (dpsw_attr.max_meters_per_if (fst v)));
         ("options", le_bytes 8 (dpsw_attr.options (fst v)));
         ("component_type", le_bytes 1 (snd v)) ])
    (fun v =>
       {| dpsw_attr.id := int_of_u32 (dpsw_attr.id (fst v));
          dpsw_attr.options := u64 (dpsw_attr.options (fst v));
          dpsw_attr.max_vlans := u16 (dpsw_attr.max_vlans (fst v));
          dpsw_attr.max_meters_per_if := u8 (dpsw_attr.max_meters_per_if (fst v));
          dpsw_attr.max_fdbs := u8 (dpsw_attr.max_fdbs (fst v));
          dpsw_attr.max_fdb_entries := u16 (dpsw_attr.max_fdb_entries (fst v));
          dpsw_attr.fdb_aging_time := u16 (dpsw_attr.fdb_aging_time (fst v));
          dpsw_attr.max_fdb_mc_groups := u16 (dpsw_attr.max_fdb_mc_groups (fst v));
          dpsw_attr.num_ifs := u16 (dpsw_attr.num_ifs (fst v));
          dpsw_attr.mem_size := u16 (dpsw_attr.mem_size (fst v));
          dpsw_attr.num_vlans := u16 (dpsw_attr.num_vlans (fst v));
          dpsw_attr.num_fdbs := u8 (dpsw_attr.num_fdbs (fst v));
          dpsw_attr.component_type := dpsw_get_field (u8 (snd v)) COMPONENT_TYPE |}) /\
  output_decoded (fun _ => True)
    (fun mc_io attr => dpsw_if_get_attributes mc_io cmd_flags token if_id attr)
    "dpsw_rsp_if_get_attr" (fun _ => True)
    (fun v : dpsw_if_attr.t * Z =>
       [ ("num_tcs", le_bytes 1 (dpsw_if_attr.num_tcs (fst v)));
         ("rate", le_bytes 4 (dpsw_if_attr.rate (fst v)));
         ("options", le_bytes 4 (dpsw_if_attr.options (fst v)));
         ("qdid", le_bytes 2 (dpsw_if_attr.qdid (fst v)));
         ("conf", le_bytes 1 (snd v)) ])
    (fun v =>
       {| dpsw_if_attr.num_tcs := u8 (dpsw_if_attr.num_tcs (fst v));
          dpsw_if_attr.rate := u32 (dpsw_if_attr.rate (fst v));
          dpsw_if_attr.options := u32 (dpsw_if_attr.options (fst v));
          dpsw_if_attr.enabled := dpsw_get_field (u8 (snd v)) ENABLE;
          dpsw_if_attr.accept_all_vlan := dpsw_get_field (u8 (snd v)) ACCEPT_ALL_VLAN;
          dpsw_if_attr.admit_untagged := dpsw_get_field (u8 (snd v)) ADMIT_UNTAGGED;
          dpsw_if_attr.qdid := u16 (dpsw_if_attr.qdid (fst v)) |}) /\
  output_decoded (fun _ => True)
    (fun mc_io state => dpsw_if_get_link_state mc_io cmd_flags token if_id state)
    "dpsw_rsp_if_get_link_state" (fun _ => True)
    (fun v : dpsw_link_state.t * Z =>
       [ ("rate", le_bytes 4 (dpsw_link_state.rate (fst v)));
         ("options", le_bytes 8 (dpsw_link_state.options (fst v)));
         ("up", le_bytes 1 (snd v)) ])
    (fun v =>
       {| dpsw_link_state.rate := u32 (dpsw_link_state.rate (fst v));
          dpsw_link_state.options := u64 (dpsw_link_state.options (fst v));
          dpsw_link_state.up := u8 (dpsw_get_field (u8 (snd v)) UP) |}) /\
  output_decoded (fun _ => True)
    (fun mc_io cfg => dpsw_if_get_tci mc_io cmd_flags token if_id cfg)
    "dpsw_rsp_if_get_tci" (fun _ => True)
    (fun v : dpsw_tci_cfg.t =>
       [ ("pcp", le_bytes 1 (dpsw_tci_cfg.pcp v));
         ("dei", le_bytes 1 (dpsw_tci_cfg.dei v));
         ("vlan_id", le_bytes 2 (dpsw_tci_cfg.vlan_id v)) ])
    (fun v =>
       {| dpsw_tci_cfg.pcp := u8 (dpsw_tci_cfg.pcp v);
          dpsw_tci_cfg.dei := u8 (dpsw_tci_cfg.dei v);
          dpsw_tci_cfg.vlan_id := u16 (dpsw_tci_cfg.vlan_id v) |}) /\
  output_decoded (fun _ => True)
    (fun mc_io counter => dpsw_if_get_counter mc_io cmd_flags token if_id type counter)
    "dpsw_rsp_if_get_counter" (fun _ => True)
    (fun counter : Z => [("counter", le_bytes 8 counter)])
    (fun counter => u64 counter) /\
  output_decoded (fun _ => True)
    (fun mc_io num_entries =>
       dpsw_fdb_dump mc_io cmd_flags token fdb_id iova_addr iova_size num_entries)
    "dpsw_rsp_fdb_dump" (fun _ => True)
    (fun num_entries : Z => [("num_entries", le_bytes 2 num_entries)])
    (fun num_entries => u16 num_entries) /\
  output_decoded (fun _ => True)
    (fun mc_io ver => dpsw_get_api_version mc_io cmd_flags (fst ver) (snd ver))
    "dpsw_rsp_get_api_version" (fun _ => True)
    (fun ver : Z * Z =>
       [ ("version_major", le_bytes 2 (fst ver));
         ("version_minor", le_bytes 2 (snd ver)) ])
    (fun ver => (u16 (fst ver), u16 (snd ver))) /\
  output_decoded (fun mac_addr => length mac_addr = 6%nat)
    (fun mc_io mac_addr => dpsw_if_get_port_mac_addr mc_io cmd_flags token if_id mac_addr)
    "dpsw_rsp_if_get_mac_addr" (fun wire => length wire = 6%nat)
    (fun wire : list Z => [("mac_addr", wire)])
    (fun wire => rev wire) /\
  output_decoded (fun mac_addr => length mac_addr = 6%nat)
    (fun mc_io mac_addr =>
       dpsw_if_get_primary_mac_addr mc_io cmd_flags token if_id mac_addr)
    "dpsw_rsp_if_get_mac_addr" (fun wire => length wire = 6%nat)
    (fun wire : list Z => [("mac_addr", wire)])
    (fun wire => rev wire) /\
  output_decoded (fun _ => True)
    (fun mc_io acl_id => dpsw_acl_add mc_io cmd_flags token acl_id acl_cfg)
    "dpsw_rsp_acl_add" (fun _ => True)
    (fun acl_id : Z => [("acl_id", le_bytes 2 acl_id)])
    (fun acl_id => u16 acl_id).
Proof.
  split.
  { intros mc_io token0. unfold_ops_keep_send.
    match goal with
    | |- context [mc_send_command ?io ?c] =>
        exists c; destruct (mc_send_command io c) as [[e r] io']
    end.
    split; [intros ?; destruct (Z.eqb_spec e 0); [done | reflexivity]|].
    intros ->. reflexivity. }
  repeat apply conj.
  - decoded_of. decoded_scalars.
  - decoded_of. decoded_scalars.
  - decoded_of. decoded_scalars.
  - decoded_of. decoded_scalars.
  - decoded_of. decoded_scalars.
  - decoded_of. decoded_scalars.
  - decoded_of. decoded_scalars.
  - unfold output_decoded. intros mc_io [major_ver minor_ver] _. cbn [fst snd].
    decoded_send. decoded_scalars.
  - decoded_of. rewrite mac_decode_loop by done.
    rewrite (mac_at_holds _ _ _ ltac:(eassumption) ltac:(eassumption)).
    by rewrite from_wire_length6.
  - decoded_of. rewrite mac_decode_loop by done.
    rewrite (mac_at_holds _ _ _ ltac:(eassumption) ltac:(eassumption)).
    by rewrite from_wire_length6.
  - decoded_of. decoded_scalars.
Qed.

(** ** Scalar members of the request *)

Lemma le_load_store m a n v :
  (a + n <= length m)%nat ->
  le_value (load (store m a (le_bytes n v)) a n) = v mod 2 ^ (8 * Z.of_nat n).
Proof.
  intros H.
  pose proof (load_store m a (le_bytes n v)) as Hl.
  rewrite length_le_bytes in Hl. rewrite Hl by done.
  apply le_value_le_bytes.
Qed.

Lemma lor_range n a b :
  0 <= n -> 0 <= a < 2 ^ n -> 0 <= b < 2 ^ n -> 0 <= Z.lor a b < 2 ^ n.
Proof.
  intros Hn Ha Hb.
  assert (Z.lor a b = Z.lor a b mod 2 ^ n) as ->.
  { apply Z.bits_inj'. intros j Hj. destruct (Z.lt_ge_cases j n).
    - by rewrite Z.mod_pow2_bits_low.
    - rewrite Z.mod_pow2_bits_high by lia. rewrite Z.lor_spec.
      rewrite <- (Z.mod_small a (2 ^ n)), <- (Z.mod_small b (2 ^ n)) by lia.
      by rewrite !Z.mod_pow2_bits_high by lia. }
  apply Z.mod_pos_bound. by apply Z.pow_pos_nonneg.
Qed.

Lemma shiftl_range v w s n :
  0 <= v < 2 ^ w -> 0 <= w -> 0 <= s -> s + w <= n -> 0 <= Z.shiftl v s < 2 ^ n.
Proof.
  intros Hv Hw Hs Hn. rewrite Z.shiftl_mul_pow2 by done.
  assert (0 < 2 ^ s) by (by apply Z.pow_pos_nonneg).
  assert (2 ^ w * 2 ^ s <= 2 ^ n).
  { rewrite <- Z.pow_add_r by done. apply Z.pow_le_mono_r; lia. }
  nia.
Qed.

(** A value that fits the field is written as it is. *)
Lemma dpsw_set_field_fit var field val :
  0 <= SIZE field -> 0 <= SHIFT field -> 0 <= val < 2 ^ SIZE field ->
  dpsw_set_field var field val = Z.lor var (Z.shiftl val (SHIFT field)).
Proof.
  intros Hn Hs Hv. unfold dpsw_set_field, DPSW_MASK. f_equal.
  rewrite <- Z.shiftl_land. f_equal.
  rewrite Z.land_ones by done. by apply Z.mod_small.
Qed.

(** Bits outside the field keep their value. *)
Lemma dpsw_set_field_outside var field val i :
  0 <= SIZE field ->
  ~ (SHIFT field <= i < SHIFT field + SIZE field) ->
  Z.testbit (dpsw_set_field var field val) i = Z.testbit var i.
Proof.
  intros Hn Hi. unfold dpsw_set_field, DPSW_MASK.
  rewrite Z.lor_spec, Z.land_spec.
  destruct (Z.neg_nonneg_cases i) as [Hneg|Hpos].
  - by rewrite !Z.testbit_neg_r by done.
  - rewrite (Z.shiftl_spec (Z.ones _)) by done.
    assert (Z.testbit (Z.ones (SIZE field)) (i - SHIFT field) = false) as ->.
    { destruct (Z.neg_nonneg_cases (i - SHIFT field)).
      - by apply Z.testbit_neg_r.
      - apply Z.ones_spec_high. lia. }
    by rewrite andb_false_r, orb_false_r.
Qed.

(** C9.  The command [dpsw_get_irq_status] submits carries the value the
    caller's [*status] holds before the call, as a little-endian 32-bit
    member of the request: two calls that differ in that value alone submit
    different command buffers. *)
Theorem irq_status_in_request (mc_io : fsl_mc_io)
    (cmd_flags token irq_index s1 s2 : Z) :
  0 <= s1 < 2 ^ 32 -> 0 <= s2 < 2 ^ 32 -> s1 <> s2 ->
  (offsetof "dpsw_cmd_get_irq_status" "status" + 4 <= 8 * MC_CMD_NUM_OF_PARAMS)%nat ->
  (offsetof "dpsw_cmd_get_irq_status" "irq_index" < offsetof "dpsw_cmd_get_irq_status" "status" \/
   offsetof "dpsw_cmd_get_irq_status" "status" + 4 <= offsetof "dpsw_cmd_get_irq_status" "irq_index")%nat ->
  exists c1 c2,
    io_sent (snd (dpsw_get_irq_status mc_io cmd_flags token irq_index s1))
      = io_sent mc_io ++ [c1] /\
    io_sent (snd (dpsw_get_irq_status mc_io cmd_flags token irq_index s2))
      = io_sent mc_io ++ [c2] /\
    rd32 c1 (offsetof "dpsw_cmd_get_irq_status" "status") = s1 /\
    rd32 c2 (offsetof "dpsw_cmd_get_irq_status" "status") = s2 /\
    c1 <> c2.
Proof.
  intros Hs1 Hs2 Hne Hin Hdisj.
  assert (forall s, 0 <= s < 2 ^ 32 ->
    rd32 (wr8 (wr32 (set_header cmd_zero
                       (mc_encode_cmd_header (cmdid DPSW_CMDID_GET_IRQ_STATUS) cmd_flags token))
                 (offsetof "dpsw_cmd_get_irq_status" "status") (cpu_to_le32 s))
            (offsetof "dpsw_cmd_get_irq_status" "irq_index") irq_index)
         (offsetof "dpsw_cmd_get_irq_status" "status") = s) as Hrd.
  { intros s Hs. params_of.
    unfold ld32, st8, st32.
    rewrite load_store_disjoint by (rewrite length_le_bytes; lia).
    rewrite le_load_store by (by rewrite length_replicate).
    unfold cpu_to_le32, u32. change (2 ^ (8 * Z.of_nat 4)) with (2 ^ 32).
    by rewrite Z.mod_mod, Z.mod_small by lia. }
  unfold_ops.
  match goal with
  | |- context [mc_exec ?s ?c] => destruct (mc_exec s c) as [[e r] p]
  end.
  match goal with
  | |- context [mc_exec ?s ?c] => destruct (mc_exec s c) as [[e' r'] p']
  end.
  destruct (negb (e =? 0)), (negb (e' =? 0)); cbn [fst snd io_sent io_portal];
    (eexists; eexists; split; [reflexivity|]; split; [reflexivity|]);
    (split; [by apply Hrd|]; split; [by apply Hrd|]);
    intros Heq; apply Hne; rewrite <- (Hrd s1 Hs1), <- (Hrd s2 Hs2); by rewrite Heq.
Qed.

(** C6.  [dpsw_if_set_tci] with PCP 7, DEI 1 and VLAN id 0xABC puts into the
    16-bit little-endian [conf] member of its command the bitwise OR of the
    three values shifted to their offsets.  And a field write changes no bit
    outside the field's offset and width. *)
Theorem tci_packing (mc_io : fsl_mc_io) (cmd_flags token if_id : Z) :
  SIZE PCP = 3 -> SIZE DEI = 1 -> SIZE VLAN_ID = 12 ->
  0 <= SHIFT PCP /\ SHIFT PCP + SIZE PCP <= 16 ->
  0 <= SHIFT DEI /\ SHIFT DEI + SIZE DEI <= 16 ->
  0 <= SHIFT VLAN_ID /\ SHIFT VLAN_ID + SIZE VLAN_ID <= 16 ->
  (offsetof "dpsw_cmd_if_set_tci" "conf" + 2 <= 8 * MC_CMD_NUM_OF_PARAMS)%nat ->
  (exists cmd,
     io_sent (snd (dpsw_if_set_tci mc_io cmd_flags token if_id
                     {| dpsw_tci_cfg.pcp := 7; dpsw_tci_cfg.dei := 1;
                        dpsw_tci_cfg.vlan_id := 0xABC |}))
       = io_sent mc_io ++ [cmd] /\
     rd16 cmd (offsetof "dpsw_cmd_if_set_tci" "conf") =
     Z.lor (Z.lor (Z.shiftl 0xABC (SHIFT VLAN_ID)) (Z.shiftl 1 (SHIFT DEI)))
           (Z.shiftl 7 (SHIFT PCP))) /\
  (forall var field val i,
     0 <= SIZE field ->
     ~ (SHIFT field <= i < SHIFT field + SIZE field) ->
     Z.testbit (dpsw_set_field var field val) i = Z.testbit var i).
Proof.
  intros HP HD HV [HsP HfP] [HsD HfD] [HsV HfV] Hin.
  split; [|intros; by apply dpsw_set_field_outside].
  unfold_ops.
  match goal with
  | |- context [mc_exec ?s ?c] => destruct (mc_exec s c) as [[e r] p]
  end.
  cbn [fst snd io_sent io_portal].
  eexists; split; [reflexivity|].
  params_of. cbn [dpsw_tci_cfg.pcp dpsw_tci_cfg.dei dpsw_tci_cfg.vlan_id].
  unfold ld16, st16.
  rewrite le_load_store
    by (rewrite length_store, length_replicate; lia).
  change (2 ^ (8 * Z.of_nat 2)) with (2 ^ 16).
  rewrite !dpsw_set_field_fit by (rewrite ?HP, ?HD, ?HV; lia).
  rewrite Z.lor_0_l.
  pose proof (shiftl_range 0xABC 12 (SHIFT VLAN_ID) 16) as RV.
  pose proof (shiftl_range 1 1 (SHIFT DEI) 16) as RD.
  pose proof (shiftl_range 7 3 (SHIFT PCP) 16) as RP.
  rewrite HV in HfV. rewrite HD in HfD. rewrite HP in HfP.
  specialize (RV ltac:(lia) ltac:(lia) HsV HfV).
  specialize (RD ltac:(lia) ltac:(lia) HsD HfD).
  specialize (RP ltac:(lia) ltac:(lia) HsP HfP).
  unfold cpu_to_le16, u16.
  rewrite (Z.mod_small (Z.shiftl 2748 _)) by done.
  pose proof (lor_range 16 _ _ ltac:(lia) RV RD) as RVD.
  rewrite (Z.mod_small (Z.lor (Z.shiftl 2748 _) _)) by done.
  pose proof (lor_range 16 _ _ ltac:(lia) RVD RP) as RVDP.
  by rewrite !(Z.mod_small (Z.lor (Z.lor _ _) _)) by done.
Qed.

(** ** Hardware addresses *)

Lemma length_st8 m a v : length (st8 m a v) = length m.
Proof. apply length_store. Qed.

Lemma byte_at_st8 m a v j :
  byte_at (st8 m a v) j =
  if decide (j = a /\ a < length m)%nat then v mod 256 else byte_at m j.
Proof.
  unfold st8. rewrite byte_at_store. cbn [le_bytes length].
  repeat case_decide; try lia; try done.
  destruct_and!. subst. by rewrite Nat.sub_diag.
Qed.

Lemma nth_byte (l : list Z) i :
  Forall (fun b => 0 <= b < 256) l -> 0 <= nth i l 0 < 256.
Proof.
  intros H. revert i. induction H as [|x l Hx Hl IH]; intros [|i]; simpl; try lia.
  apply IH.
Qed.

Lemma to_wire_rev x : is_mac x -> to_wire x = rev x.
Proof.
  intros [Hlen _].
  destruct x as [|x0 [|x1 [|x2 [|x3 [|x4 [|x5 [|x6 l]]]]]]]; try discriminate.
  reflexivity.
Qed.

Lemma from_wire_rev x : is_mac x -> from_wire x = rev x.
Proof. apply to_wire_rev. Qed.

Lemma from_wire_to_wire x : is_mac x -> from_wire (to_wire x) = x.
Proof.
  intros [Hlen _].
  destruct x as [|x0 [|x1 [|x2 [|x3 [|x4 [|x5 [|x6 l]]]]]]]; try discriminate.
  reflexivity.
Qed.

Lemma mac_encode_loop (cmd : fsl_mc_command) (a : nat) (mac : list Z) :
  is_mac mac -> (a + 6 <= length (params cmd))%nat ->
  mac_at (params (for_upto 6 (fun i cmd => wr8 cmd (a + i) (nth (5 - i) mac 0)) cmd)) a
    = to_wire mac.
Proof.
  intros [Hlen Hb] Hin.
  assert (forall i, nth i mac 0 mod 256 = nth i mac 0) as Hmod
    by (intros i; apply Z.mod_small; by apply nth_byte).
  unfold for_upto. cbn [seq fold_left]. unfold wr8. cbn [params set_params].
  unfold mac_at, to_wire. cbn [seq map].
  rewrite !byte_at_st8, !length_st8, !Hmod.
  repeat match goal with |- _ :: _ = _ :: _ => f_equal end;
    repeat case_decide; try done; lia.
Qed.

Lemma mac_at_store_apart m a b bs :
  apart a 6 b (length bs) -> mac_at (store m b bs) a = mac_at m a.
Proof.
  intros H. unfold mac_at. apply map_ext_in. intros i Hi.
  apply in_seq in Hi. apply byte_at_store_out. unfold apart in H. lia.
Qed.

Lemma length_bitmap_set m bmap x : length (bitmap_set m bmap x) = length m.
Proof.
  unfold bitmap_set. destruct (x <? DPSW_MAX_IF); [|done].
  unfold st64. apply length_store.
Qed.

Lemma length_build_if_id_bitmap m bmap id num_ifs :
  length (build_if_id_bitmap m bmap id num_ifs) = length m.
Proof.
  unfold build_if_id_bitmap. generalize (Z.to_nat DPSW_MAX_IF) as fuel, 0%nat as i.
  intros fuel. revert m. induction fuel as [|fuel IH]; intros m i; [done|].
  cbn [build_if_id_bitmap_from].
  destruct ((Z.of_nat i <? num_ifs) && (Z.of_nat i <? DPSW_MAX_IF)); [|done].
  by rewrite IH, length_bitmap_set.
Qed.

Lemma params_wr8 c a v : params (wr8 c a v) = st8 (params c) a v.
Proof. reflexivity. Qed.

(** The parameter area keeps its size under the writes of the encoders. *)
Ltac params_length :=
  unfold wr8, wr16, wr32, wr64, set_header, cmd_zero; cbn [params set_params];
  unfold st8, st16, st32, st64;
  rewrite ?length_store, ?length_build_if_id_bitmap, ?length_store, ?length_replicate.

(** C3.  Encoding and decoding a hardware address both reverse its six
    bytes ([wire[i] = host[5 - i]]), and decoding an encoded address gives it
    back.  Every command that carries a hardware address holds the encoded
    address in its [mac_addr] member, and the two operations that read one
    decode it from the [mac_addr] member of the response. *)
Theorem mac_addr_reversed :
  mac_members_inside ->
  (forall x, is_mac x ->
     to_wire x = rev x /\ from_wire x = rev x /\ from_wire (to_wire x) = x) /\
  (forall mc_io cmd_flags token fdb_id cfg,
     is_mac (dpsw_fdb_unicast_cfg.mac_addr cfg) ->
     exists cmd,
       io_sent (snd (dpsw_fdb_add_unicast mc_io cmd_flags token fdb_id cfg))
         = io_sent mc_io ++ [cmd] /\
       mac_at (params cmd) (offsetof "dpsw_cmd_fdb_unicast_op" "mac_addr")
         = to_wire (dpsw_fdb_unicast_cfg.mac_addr cfg)) /\
  (forall mc_io cmd_flags token fdb_id cfg,
     is_mac (dpsw_fdb_unicast_cfg.mac_addr cfg) ->
     exists cmd,
       io_sent (snd (dpsw_fdb_remove_unicast mc_io cmd_flags token fdb_id cfg))
         = io_sent mc_io ++ [cmd] /\
       mac_at (params cmd) (offsetof "dpsw_cmd_fdb_unicast_op" "mac_addr")
         = to_wire (dpsw_fdb_unicast_cfg.mac_addr cfg)) /\
  (forall mc_io cmd_flags token fdb_id cfg,
     is_mac (dpsw_fdb_multicast_cfg.mac_addr cfg) ->
     exists cmd,
       io_sent (snd (dpsw_fdb_add_multicast mc_io cmd_flags token fdb_id cfg))
         = io_sent mc_io ++ [cmd] /\
       mac_at (params cmd) (offsetof "dpsw_cmd_fdb_multicast_op" "mac_addr")
         = to_wire (dpsw_fdb_multicast_cfg.mac_addr cfg)) /\
  (forall mc_io cmd_flags token fdb_id cfg,
     is_mac (dpsw_fdb_multicast_cfg.mac_addr cfg) ->
     exists cmd,
       io_sent (snd (dpsw_fdb_remove_multicast mc_io cmd_flags token fdb_id cfg))
         = io_sent mc_io ++ [cmd] /\
       mac_at (params cmd) (offsetof "dpsw_cmd_fdb_multicast_op" "mac_addr")
         = to_wire (dpsw_fdb_multicast_cfg.mac_addr cfg)) /\
  (forall mc_io cmd_flags token if_id mac_addr,
     is_mac mac_addr ->
     exists cmd,
       io_sent (snd (dpsw_if_set_primary_mac_addr mc_io cmd_flags token if_id mac_addr))
         = io_sent mc_io ++ [cmd] /\
       mac_at (params cmd) (offsetof "dpsw_cmd_if_set_mac_addr" "mac_addr")
         = to_wire mac_addr) /\
  (forall mc_io cmd_flags token if_id mac_addr,
     length mac_addr = 6%nat ->
     exists cmd,
       let '(err, rsp, mc_io') := mc_send_command mc_io cmd in
       dpsw_if_get_port_mac_addr mc_io cmd_flags token if_id mac_addr =
       if err =? 0
       then (0, from_wire (mac_at (params rsp)
                             (offsetof "dpsw_rsp_if_get_mac_addr" "mac_addr")), mc_io')
       else (err, mac_addr, mc_io')) /\
  (forall mc_io cmd_flags token if_id mac_addr,
     length mac_addr = 6%nat ->
     exists cmd,
       let '(err, rsp, mc_io') := mc_send_command mc_io cmd in
       dpsw_if_get_primary_mac_addr mc_io cmd_flags token if_id mac_addr =
       if err =? 0
       then (0, from_wire (mac_at (params rsp)
                             (offsetof "dpsw_rsp_if_get_mac_addr" "mac_addr")), mc_io')
       else (err, mac_addr, mc_io')).
Proof.
  intros (Huni & Hmulti & Hset & Htype & Hegress).
  split; [|split; [|split; [|split; [|split; [|split; [|split]]]]]].
  - intros x Hx. auto using to_wire_rev, from_wire_rev, from_wire_to_wire.
  - intros mc_io cmd_flags token fdb_id cfg Hmac.
    unfold_ops. answer e r p. eexists; split; [reflexivity|].
    rewrite params_wr8. unfold st8 at 1.
    rewrite mac_at_store_apart by done.
    apply mac_encode_loop; [done|]. by params_length.
  - intros mc_io cmd_flags token fdb_id cfg Hmac.
    unfold_ops. answer e r p. eexists; split; [reflexivity|].
    rewrite params_wr8. unfold st8 at 1.
    rewrite mac_at_store_apart by done.
    unfold wr16 at 1. cbn [params set_params]. unfold st16 at 1.
    rewrite mac_at_store_apart by done.
    apply mac_encode_loop; [done|]. by params_length.
  - intros mc_io cmd_flags token fdb_id cfg Hmac.
    unfold_ops. answer e r p. eexists; split; [reflexivity|].
    apply mac_encode_loop; [done|]. by params_length.
  - intros mc_io cmd_flags token fdb_id cfg Hmac.
    unfold_ops. answer e r p. eexists; split; [reflexivity|].
    apply mac_encode_loop; [done|]. by params_length.
  - intros mc_io cmd_flags token if_id mac_addr Hmac.
    unfold_ops. answer e r p. eexists; split; [reflexivity|].
    apply mac_encode_loop; [done|]. by params_length.
  - intros mc_io cmd_flags token if_id mac_addr Hlen.
    contract_of; [|reflexivity]. by rewrite mac_decode_loop.
  - intros mc_io cmd_flags token if_id mac_addr Hlen.
    contract_of; [|reflexivity]. by rewrite mac_decode_loop.
Qed.

(** ** The ACL key buffer *)

Lemma byte_at_zeros n j : byte_at (replicate n 0) j = 0.
Proof.
  unfold byte_at. destruct (replicate n 0 !! j) as [x|] eqn:E; [|done].
  by apply lookup_replicate in E as [-> _].
Qed.

Lemma byte_at_ext (b1 b2 : list Z) :
  length b1 = length b2 -> (forall j, byte_at b1 j = byte_at b2 j) -> b1 = b2.
Proof.
  intros Hlen Hb. apply list_eq. intros j. specialize (Hb j). unfold byte_at in Hb.
  destruct (b1 !! j) as [x|] eqn:E1, (b2 !! j) as [y|] eqn:E2; simpl in Hb.
  - by subst.
  - apply lookup_lt_Some in E1. apply lookup_ge_None in E2. lia.
  - apply lookup_ge_None in E1. apply lookup_lt_Some in E2. lia.
  - done.
Qed.

Lemma nth_zeros6 i : nth i [0; 0; 0; 0; 0; 0] 0 = 0.
Proof. by destruct i as [|[|[|[|[|[|[|?]]]]]]]. Qed.

Lemma rev_lookup6 (x : list Z) (i : nat) :
  length x = 6%nat -> (i < 6)%nat -> default 0 (rev x !! i) = nth (5 - i) x 0.
Proof.
  intros Hlen Hi.
  destruct x as [|x0 [|x1 [|x2 [|x3 [|x4 [|x5 [|x6 l]]]]]]]; try discriminate.
  destruct i as [|[|[|[|[|[|?]]]]]]; try lia; reflexivity.
Qed.

Lemma acl_inv_init M K : acl_inv M K 0 (replicate 256 0).
Proof.
  split; [apply length_replicate|]. intros j. rewrite byte_at_zeros.
  unfold acl_expect. repeat case_decide; (done || lia).
Qed.

Lemma acl_inv_step M K i b :
  is_mac M -> is_mac K -> acl_layout_ok -> (i < 6)%nat ->
  acl_inv M K i b ->
  acl_inv M K (S i)
    (st8 (st8 (st8 (st8 b
       (offsetof "dpsw_prep_acl_entry" "match_l2_dest_mac" + i) (nth (5 - i) M 0))
       (offsetof "dpsw_prep_acl_entry" "match_l2_source_mac" + i)
          (nth (5 - i) [0; 0; 0; 0; 0; 0] 0))
       (offsetof "dpsw_prep_acl_entry" "mask_l2_dest_mac" + i) (nth (5 - i) K 0))
       (offsetof "dpsw_prep_acl_entry" "mask_l2_source_mac" + i)
          (nth (5 - i) [0; 0; 0; 0; 0; 0] 0)).
Proof.
  intros [_ HM] [_ HK] (Hmd & Hkd & Hmk & Hall) Hi [Hlen Hb].
  apply Forall_cons in Hall as [[Hs1 Hs2] Hall].
  apply Forall_cons in Hall as [[Hs3 Hs4] _].
  cbn [fst snd] in *. unfold apart in *.
  split; [by rewrite !length_st8|].
  intros j. rewrite !byte_at_st8, !length_st8, Hb, !nth_zeros6.
  rewrite !(Z.mod_small (nth _ _ 0)) by (by apply nth_byte).
  change (0 mod 256) with 0.
  unfold acl_expect.
  repeat case_decide; try done; try lia; destruct_and?; subst; f_equal; lia.
Qed.

Lemma acl_inv_store_zero M K b a w :
  acl_inv M K 6 b ->
  apart (offsetof "dpsw_prep_acl_entry" "match_l2_dest_mac") 6 a w ->
  apart (offsetof "dpsw_prep_acl_entry" "mask_l2_dest_mac") 6 a w ->
  acl_inv M K 6 (store b a (le_bytes w 0)).
Proof.
  intros [Hlen Hb] H1 H2. unfold apart in *.
  split; [by rewrite length_store|].
  intros j. rewrite byte_at_store, length_le_bytes, le_bytes_zero.
  case_decide as Hj; [|apply Hb].
  destruct (replicate w 0 !! (j - a)%nat) as [x|] eqn:E.
  - apply lookup_replicate in E as [-> _]. simpl.
    unfold acl_expect. repeat case_decide; (done || lia).
  - simpl. unfold acl_expect. repeat case_decide; (done || lia).
Qed.

Lemma acl_inv_final M K b :
  is_mac M -> is_mac K -> acl_layout_ok ->
  acl_inv M K 6 b ->
  b = store (store (replicate 256 0)
               (offsetof "dpsw_prep_acl_entry" "match_l2_dest_mac") (rev M))
            (offsetof "dpsw_prep_acl_entry" "mask_l2_dest_mac") (rev K).
Proof.
  intros [HlM _] [HlK _] (Hmd & Hkd & Hmk & _) [Hlen Hb]. unfold apart in *.
  apply byte_at_ext; [by rewrite !length_store, length_replicate|].
  intros j. rewrite Hb, !byte_at_store, !length_store, !length_rev, length_replicate.
  rewrite byte_at_zeros, HlM, HlK. unfold acl_expect.
  repeat case_decide; try lia; try done; symmetry; apply rev_lookup6; (done || lia).
Qed.

(** C7.  Flattening a key whose only nonzero fields are the match and the
    mask of [l2_dest_mac] into a zeroed buffer of 256 bytes gives the zeroed
    buffer with the byte-reversed match address in the destination-MAC match
    member and the byte-reversed mask address in the destination-MAC mask
    member: every other byte is zero. *)
Theorem acl_key_dest_mac_only (M K : list Z) :
  is_mac M -> is_mac K -> acl_layout_ok ->
  dpsw_acl_prepare_entry_cfg
    {| dpsw_acl_key.match_ := dest_mac_only M; dpsw_acl_key.mask := dest_mac_only K |}
    (replicate 256 0) =
  store (store (replicate 256 0)
           (offsetof "dpsw_prep_acl_entry" "match_l2_dest_mac") (rev M))
        (offsetof "dpsw_prep_acl_entry" "mask_l2_dest_mac") (rev K).
Proof.
  intros HM HK Hlay.
  apply acl_inv_final; [done..|].
  pose proof Hlay as (Hmd & Hkd & Hmk & Hall).
  unfold acl_other_members in Hall.
  repeat match goal with
         | H : Forall _ (_ :: _) |- _ => apply Forall_cons in H as [[? ?] H]
         end.
  cbn [fst snd] in *.
  unfold dpsw_acl_prepare_entry_cfg. cbv zeta.
  unfold dest_mac_only.
  cbn [dpsw_acl_key.match_ dpsw_acl_key.mask
       dpsw_acl_fields.l2_dest_mac dpsw_acl_fields.l2_source_mac
       dpsw_acl_fields.l2_tpid dpsw_acl_fields.l2_pcp_dei
       dpsw_acl_fields.l2_vlan_id dpsw_acl_fields.l2_ether_type
       dpsw_acl_fields.l3_dscp dpsw_acl_fields.l3_protocol
       dpsw_acl_fields.l3_source_ip dpsw_acl_fields.l3_dest_ip
       dpsw_acl_fields.l4_source_port dpsw_acl_fields.l4_dest_port
       dpsw_acl_fields.frame_flags].
  change (cpu_to_le16 0) with 0. change (cpu_to_le32 0) with 0.
  repeat lazymatch goal with
         | |- acl_inv _ _ _ (st8 _ _ 0) =>
             apply (acl_inv_store_zero M K _ _ 1); [|done|done]
         | |- acl_inv _ _ _ (st16 _ _ 0) =>
             apply (acl_inv_store_zero M K _ _ 2); [|done|done]
         | |- acl_inv _ _ _ (st32 _ _ 0) =>
             apply (acl_inv_store_zero M K _ _ 4); [|done|done]
         end.
  apply (for_upto_ind (acl_inv M K)); [apply acl_inv_init|].
  intros i b Hi Hb. by apply acl_inv_step.
Qed.

(** ** Sequences of writes *)

Lemma length_apply_writes ws : forall buf, length (apply_writes buf ws) = length buf.
Proof.
  induction ws as [|w ws IH]; intros buf; [done|].
  unfold apply_writes in *. cbn [fold_left]. by rewrite IH, length_store.
Qed.

Lemma byte_at_apply_writes ws j : forall buf,
  Forall (fun w => (fst w + length (snd w) <= length buf)%nat) ws ->
  byte_at (apply_writes buf ws) j = byte_after ws j (byte_at buf j).
Proof.
  induction ws as [|w ws IH]; intros buf Hin; [done|].
  apply Forall_cons in Hin as [Hw Hin].
  unfold apply_writes in *. cbn [fold_left byte_after].
  rewrite IH by (by rewrite length_store).
  f_equal. rewrite byte_at_store.
  repeat case_decide; try done; lia.
Qed.

Lemma byte_after_out ws j : forall d,
  Forall (fun w => ~ (fst w <= j < fst w + length (snd w))%nat) ws ->
  byte_after ws j d = d.
Proof.
  induction ws as [|w ws IH]; intros d Hout; [done|].
  apply Forall_cons in Hout as [Hw Hout]. cbn [byte_after].
  rewrite IH by done. by case_decide.
Qed.

Lemma byte_after_in ws j a bs : forall d,
  pairwise_apart (map (fun w => (fst w, length (snd w))) ws) ->
  (a, bs) ∈ ws -> (a <= j < a + length bs)%nat ->
  byte_after ws j d = default 0 (bs !! (j - a)%nat).
Proof.
  induction ws as [|w ws IH]; intros d Hap Hel Hj.
  - by apply elem_of_nil in Hel.
  - cbn [map pairwise_apart] in Hap. destruct Hap as [Hw Hap].
    cbn [byte_after]. apply elem_of_cons in Hel as [<-|Hel].
    + cbn [fst snd] in *. rewrite byte_after_out.
      * case_decide; [done | lia].
      * clear -Hw Hj. induction ws as [|w ws IH]; [constructor|].
        cbn [map] in Hw. apply Forall_cons in Hw as [H1 H2].
        constructor; [|by apply IH].
        cbn [fst snd] in H1. unfold apart in H1. lia.
    + by apply IH.
Qed.

(** A load, byte by byte. *)
Lemma load_bytes (m : list Z) a n :
  (a + n <= length m)%nat -> load m a n = map (fun i => byte_at m (a + i)) (seq 0 n).
Proof.
  intros H. apply list_eq. intros i. unfold load.
  destruct (decide (i < n)%nat) as [Hi|Hi].
  - rewrite lookup_take_lt, lookup_drop by done.
    rewrite list_lookup_fmap, lookup_seq_lt by done. cbn.
    unfold byte_at. destruct (lookup_lt_is_Some_2 m (a + i)) as [x ->]; [lia | done].
  - rewrite lookup_take_ge by lia.
    symmetry. apply lookup_ge_None_2. rewrite length_map, length_seq. lia.
Qed.

Lemma bytes_of_list (bs : list Z) :
  map (fun i => default 0 (bs !! i)) (seq 0 (length bs)) = bs.
Proof.
  apply list_eq. intros i. rewrite list_lookup_fmap.
  destruct (decide (i < length bs)%nat) as [Hi|Hi].
  - rewrite lookup_seq_lt by done. cbn.
    destruct (lookup_lt_is_Some_2 bs i) as [x ->]; done.
  - rewrite lookup_seq_ge by lia. symmetry. apply lookup_ge_None_2. lia.
Qed.

(** After writes that do not overlap, each byte string is where it was
    written, and the bytes no write covers are as before. *)
Lemma apply_writes_load ws buf a bs :
  pairwise_apart (map (fun w => (fst w, length (snd w))) ws) ->
  Forall (fun w => (fst w + length (snd w) <= length buf)%nat) ws ->
  (a, bs) ∈ ws ->
  load (apply_writes buf ws) a (length bs) = bs.
Proof.
  intros Hap Hin Hel.
  assert (a + length bs <= length buf)%nat as Hins.
  { rewrite Forall_forall in Hin. apply (Hin (a, bs)), Hel. }
  rewrite load_bytes by (by rewrite length_apply_writes).
  rewrite <- (bytes_of_list bs) at 2.
  apply map_ext_in. intros i Hi. apply in_seq in Hi.
  rewrite byte_at_apply_writes by done.
  rewrite (byte_after_in ws (a + i) a bs) by (done || lia).
  do 2 f_equal. lia.
Qed.

Lemma apply_writes_frame ws buf j :
  Forall (fun w => (fst w + length (snd w) <= length buf)%nat) ws ->
  Forall (fun w => ~ (fst w <= j < fst w + length (snd w))%nat) ws ->
  byte_at (apply_writes buf ws) j = byte_at buf j.
Proof.
  intros Hin Hout. rewrite byte_at_apply_writes by done. by apply byte_after_out.
Qed.

(** Writes that do not overlap can be made in any order. *)
Lemma apply_writes_perm ws1 ws2 buf :
  ws1 ≡ₚ ws2 ->
  pairwise_apart (map (fun w => (fst w, length (snd w))) ws1) ->
  pairwise_apart (map (fun w => (fst w, length (snd w))) ws2) ->
  Forall (fun w => (fst w + length (snd w) <= length buf)%nat) ws1 ->
  apply_writes buf ws1 = apply_writes buf ws2.
Proof.
  intros Hp Ha1 Ha2 Hin1.
  assert (Hin2 : Forall (fun w => (fst w + length (snd w) <= length buf)%nat) ws2)
    by (by rewrite <- Hp).
  apply byte_at_ext; [by rewrite !length_apply_writes|].
  intros j. rewrite !byte_at_apply_writes by done.
  destruct (decide (Exists (fun w => (fst w <= j < fst w + length (snd w))%nat) ws1))
    as [Hex|Hnex].
  - apply Exists_exists in Hex as ([a bs] & Hel & Hj). cbn [fst snd] in Hj.
    rewrite (byte_after_in ws1 j a bs) by done.
    rewrite (byte_after_in ws2 j a bs); [done..| |done]. by rewrite <- Hp.
  - apply not_Exists_Forall in Hnex; [|intros w; apply _].
    rewrite !byte_after_out; [done| |done]. by rewrite <- Hp.
Qed.

(** The loop that writes a hardware address stores its reversal. *)
Lemma mac_bytes_store (m : list Z) (a : nat) (mac : list Z) :
  is_mac mac -> (a + 6 <= length m)%nat ->
  for_upto 6 (fun i m => st8 m (a + i) (nth (5 - i) mac 0)) m = store m a (rev mac).
Proof.
  intros [Hl Hb] Hin. unfold for_upto. cbn [seq fold_left].
  apply byte_at_ext; [by rewrite !length_st8, length_store|].
  intros j. rewrite !byte_at_st8, byte_at_store, !length_st8, length_rev, Hl.
  repeat case_decide; try lia; try done;
    (rewrite Z.mod_small by (by apply nth_byte));
    symmetry;
    match goal with
    | |- _ = nth (5 - ?i) _ _ => replace (j - a)%nat with i by lia
    end;
    apply rev_lookup6; (done || lia).
Qed.

Lemma mac_loop_store (cmd : fsl_mc_command) (a : nat) (mac : list Z) :
  is_mac mac -> (a + 6 <= length (params cmd))%nat ->
  for_upto 6 (fun i cmd => wr8 cmd (a + i) (nth (5 - i) mac 0)) cmd =
  set_params cmd (store (params cmd) a (rev mac)).
Proof.
  intros Hm Hin. rewrite <- (mac_bytes_store _ _ _ Hm Hin).
  destruct cmd as [h p]. reflexivity.
Qed.

Lemma ld8_zeros n a : ld8 (replicate n 0) a = 0.
Proof. by rewrite ld8_byte_at, byte_at_zeros. Qed.

Lemma ld8_store_apart m a bs b :
  apart b 1 a (length bs) -> ld8 (store m a bs) b = ld8 m b.
Proof. intros H. unfold ld8. rewrite load_store_disjoint; [done | unfold apart in H; lia]. Qed.

(** ** Further properties: headers, status, portal *)

Lemma header_of_call (mc_io : fsl_mc_io) (c : dpsw_call) :
  exists cmd,
    io_sent (dpsw_run mc_io c) = io_sent mc_io ++ [cmd] /\
    header cmd =
    mc_encode_cmd_header (cmdid (call_cmdid c)) (call_flags c)
      (default 0 (call_token c)).
Proof.
  destruct c; cbn [dpsw_run call_token call_cmdid call_flags default];
    unfold_ops; answer e r p; (eexists; split; [reflexivity|]); header_of;
    reflexivity.
Qed.

Lemma call_cmdid_name (c1 c2 : dpsw_call) :
  call_cmdid c1 = call_cmdid c2 <->
  call_name c1 = call_name c2 \/
  (call_name c1 = "dpsw_if_get_primary_mac_addr" /\
   call_name c2 = "dpsw_if_set_primary_mac_addr") \/
  (call_name c1 = "dpsw_if_set_primary_mac_addr" /\
   call_name c2 = "dpsw_if_get_primary_mac_addr").
Proof.
  destruct c1, c2; cbn [call_cmdid call_name];
    (split;
     [ intros H;
       first [ discriminate H | left; reflexivity
             | right; left; split; reflexivity
             | right; right; split; reflexivity ]
     | intros [H|[[H1 H2]|[H1 H2]]];
       first [ reflexivity | discriminate H | discriminate H1 | discriminate H2 ] ]).
Qed.

(** X1.  The command id in the header of every operation's command is the
    16-bit value of the identifier the operation passes to
    [mc_encode_cmd_header] in dpsw.c ([call_cmdid]).  When the identifier
    table gives different identifiers different 16-bit values, the command
    ids two calls put on the wire are equal if and only if the calls are of
    the same operation, or one is [dpsw_if_get_primary_mac_addr] and the
    other [dpsw_if_set_primary_mac_addr]. *)
Theorem cmdid_identifies_operation (mc_io1 mc_io2 : fsl_mc_io) (c1 c2 : dpsw_call) :
  (forall a b, cpu_to_le16 (cmdid a) = cpu_to_le16 (cmdid b) -> a = b) ->
  exists cmd1 cmd2,
    io_sent (dpsw_run mc_io1 c1) = io_sent mc_io1 ++ [cmd1] /\
    io_sent (dpsw_run mc_io2 c2) = io_sent mc_io2 ++ [cmd2] /\
    hdr_cmd_id (header cmd1) = cpu_to_le16 (cmdid (call_cmdid c1)) /\
    hdr_cmd_id (header cmd2) = cpu_to_le16 (cmdid (call_cmdid c2)) /\
    (hdr_cmd_id (header cmd1) = hdr_cmd_id (header cmd2) <->
     call_name c1 = call_name c2 \/
     (call_name c1 = "dpsw_if_get_primary_mac_addr" /\
      call_name c2 = "dpsw_if_set_primary_mac_addr") \/
     (call_name c1 = "dpsw_if_set_primary_mac_addr" /\
      call_name c2 = "dpsw_if_get_primary_mac_addr")).
Proof.
  intros Hinj.
  destruct (header_of_call mc_io1 c1) as (cmd1 & Hs1 & Hh1).
  destruct (header_of_call mc_io2 c2) as (cmd2 & Hs2 & Hh2).
  exists cmd1, cmd2. split; [done|]. split; [done|].
  rewrite Hh1, Hh2. cbn [mc_encode_cmd_header hdr_cmd_id].
  split; [done|]. split; [done|].
  rewrite <- call_cmdid_name. split.
  - apply Hinj.
  - by intros ->.
Qed.

(** X2.  Every operation calls the transport exactly once.  It returns the
    status of that call as it is, zero or not, and leaves the portal in the
    state the call produced; the caller's [cmd_flags] are in the header of
    the command. *)
Theorem one_transport_call (mc_io : fsl_mc_io) (c : dpsw_call) :
  exists cmd,
    hdr_flags (header cmd) = u32 (call_flags c) /\
    let '(err, rsp, portal) := mc_exec (io_portal mc_io) cmd in
    dpsw_ret mc_io c = err /\
    dpsw_run mc_io c =
    {| io_portal := portal; io_sent := io_sent mc_io ++ [cmd] |}.
Proof.
  destruct c; cbn [dpsw_run dpsw_ret call_flags]; unfold_ops;
    (match goal with
     | |- context [mc_exec _ ?c] => exists c
     end; split;
     [ | match goal with
         | |- context [mc_exec ?s ?c] =>
             let e := fresh "e" in
             destruct (mc_exec s c) as [[e ?] ?];
             lazymatch goal with
             | |- context [negb (e =? 0)] =>
                 destruct (Z.eqb_spec e 0) as [->|?]
             | |- _ => idtac
             end
         end;
         cbn [negb fst snd]; split; reflexivity ]);
    header_of; reflexivity.
Qed.

(** X3.  Apart from [dpsw_get_irq_status], no operation with output
    parameters lets the values the caller's output objects hold before the
    call reach the transport: the status returned and the portal afterwards,
    with the command it was sent, are the same whatever those values are. *)
Theorem request_ignores_outputs (mc_io : fsl_mc_io)
    (cmd_flags token dpsw_id if_id type fdb_id iova_addr iova_size : Z)
    (acl_cfg : dpsw_acl_cfg.t) :
  (forall t1 t2,
     let r1 := dpsw_open mc_io cmd_flags dpsw_id t1 in
     let r2 := dpsw_open mc_io cmd_flags dpsw_id t2 in
     fst (fst r1) = fst (fst r2) /\ snd r1 = snd r2) /\
  (forall a1 a2,
     let r1 := dpsw_get_attributes mc_io cmd_flags token a1 in
     let r2 := dpsw_get_attributes mc_io cmd_flags token a2 in
     fst (fst r1) = fst (fst r2) /\ snd r1 = snd r2) /\
  (forall a1 a2,
     let r1 := dpsw_if_get_attributes mc_io cmd_flags token if_id a1 in
     let r2 := dpsw_if_get_attributes mc_io cmd_flags token if_id a2 in
     fst (fst r1) = fst (fst r2) /\ snd r1 = snd r2) /\
  (forall s1 s2,
     let r1 := dpsw_if_get_link_state mc_io cmd_flags token if_id s1 in
     let r2 := dpsw_if_get_link_state mc_io cmd_flags token if_id s2 in
     fst (fst r1) = fst (fst r2) /\ snd r1 = snd r2) /\
  (forall c1 c2,
     let r1 := dpsw_if_get_tci mc_io cmd_flags token if_id c1 in
     let r2 := dpsw_if_get_tci mc_io cmd_flags token if_id c2 in
     fst (fst r1) = fst (fst r2) /\ snd r1 = snd r2) /\
  (forall n1 n2,
     let r1 := dpsw_if_get_counter mc_io cmd_flags token if_id type n1 in
     let r2 := dpsw_if_get_counter mc_io cmd_flags token if_id type n2 in
     fst (fst r1) = fst (fst r2) /\ snd r1 = snd r2) /\
  (forall n1 n2,
     let r1 := dpsw_fdb_dump mc_io cmd_flags token fdb_id iova_addr iova_size n1 in
     let r2 := dpsw_fdb_dump mc_io cmd_flags token fdb_id iova_addr iova_size n2 in
     fst (fst r1) = fst (fst r2) /\ snd r1 = snd r2) /\
  (forall ma1 mi1 ma2 mi2,
     let r1 := dpsw_get_api_version mc_io cmd_flags ma1 mi1 in
     let r2 := dpsw_get_api_version mc_io cmd_flags ma2 mi2 in
     fst (fst r1) = fst (fst r2) /\ snd r1 = snd r2) /\
  (forall m1 m2,
     let r1 := dpsw_if_get_port_mac_addr mc_io cmd_flags token if_id m1 in
     let r2 := dpsw_if_get_port_mac_addr mc_io cmd_flags token if_id m2 in
     fst (fst r1) = fst (fst r2) /\ snd r1 = snd r2) /\
  (forall m1 m2,
     let r1 := dpsw_if_get_primary_mac_addr mc_io cmd_flags token if_id m1 in
     let r2 := dpsw_if_get_primary_mac_addr mc_io cmd_flags token if_id m2 in
     fst (fst r1) = fst (fst r2) /\ snd r1 = snd r2) /\
  (forall i1 i2,
     let r1 := dpsw_acl_add mc_io cmd_flags token i1 acl_cfg in
     let r2 := dpsw_acl_add mc_io cmd_flags token i2 acl_cfg in
     fst (fst r1) = fst (fst r2) /\ snd r1 = snd r2).
Proof.
  repeat split; intros; unfold_ops;
    match goal with
    | |- context [mc_exec ?s ?c] =>
        let e := fresh "e" in
        destruct (mc_exec s c) as [[e ?] ?]; destruct (negb (e =? 0))
    end;
    reflexivity.
Qed.

(** X4.  The token [dpsw_open] hands back on success is the 16-bit token of
    the response header, and every operation called with it afterwards puts
    that very token into the header of the one command it adds to those
    submitted. *)
Theorem open_token_session (mc_io : fsl_mc_io) (cmd_flags dpsw_id token0 : Z) (c : dpsw_call) :
  exists open_cmd,
    let '(err, rsp, _) := mc_exec (io_portal mc_io) open_cmd in
    let '(ret, token, mc_io1) := dpsw_open mc_io cmd_flags dpsw_id token0 in
    ret = err /\
    (err = 0 ->
     token = u16 (hdr_token (header rsp)) /\
     (call_token c = Some token ->
      exists cmd,
        io_sent (dpsw_run mc_io1 c) = io_sent mc_io ++ [open_cmd; cmd] /\
        hdr_token (header cmd) = token)).
Proof.
  unfold dpsw_open, mc_send_command. cbv zeta.
  match goal with
  | |- context [mc_exec _ ?c] => exists c
  end.
  match goal with
  | |- context [mc_exec ?s ?c] => destruct (mc_exec s c) as [[e r] p]
  end.
  cbn [fst snd]. destruct (Z.eqb_spec e 0) as [->|Hne]; cbn [negb].
  - split; [done|]. intros _. split; [reflexivity|]. intros Htok.
    match goal with
    | |- context [dpsw_run ?io c] =>
        destruct (header_of_call io c) as (cmd & Hs & Hh)
    end.
    exists cmd. cbn [io_sent] in Hs. rewrite Hs, <- app_assoc. split; [done|].
    rewrite Hh, Htok. cbn [mc_encode_cmd_header hdr_token from_option id].
    unfold mc_cmd_hdr_read_token, le16_to_cpu, cpu_to_le16, u16.
    by rewrite Z.mod_mod by lia.
  - split; [done|]. intros ->. done.
Qed.

(** ** Further properties: requests *)

(** Splits a statement about a list of byte ranges into one goal for each
    range or pair of ranges. *)
Ltac split_ranges :=
  repeat first
    [ apply conj | apply List.Forall_cons | apply List.Forall_nil | exact I ];
  cbn [fst snd].

(** X5.  [dpsw_fdb_add_unicast] writes [if_egress] before the hardware
    address and [dpsw_fdb_remove_unicast] after it; as the members of the
    request do not overlap, the two submit the same parameter bytes for the
    same arguments, under the same flags and token. *)
Theorem fdb_unicast_same_request (mc_io1 mc_io2 : fsl_mc_io)
    (cmd_flags token fdb_id : Z) (cfg : dpsw_fdb_unicast_cfg.t) :
  is_mac (dpsw_fdb_unicast_cfg.mac_addr cfg) ->
  members_apart "dpsw_cmd_fdb_unicast_op"
    [("fdb_id", 2); ("if_egress", 2); ("mac_addr", 6); ("type", 1)]%nat ->
  members_inside "dpsw_cmd_fdb_unicast_op"
    [("fdb_id", 2); ("if_egress", 2); ("mac_addr", 6); ("type", 1)]%nat
    (8 * MC_CMD_NUM_OF_PARAMS) ->
  exists c1 c2,
    io_sent (snd (dpsw_fdb_add_unicast mc_io1 cmd_flags token fdb_id cfg))
      = io_sent mc_io1 ++ [c1] /\
    io_sent (snd (dpsw_fdb_remove_unicast mc_io2 cmd_flags token fdb_id cfg))
      = io_sent mc_io2 ++ [c2] /\
    params c1 = params c2 /\
    hdr_flags (header c1) = hdr_flags (header c2) /\
    hdr_token (header c1) = hdr_token (header c2).
Proof.
  intros Hmac Hap Hin.
  unfold members_apart in Hap. cbn [map pairwise_apart fst snd] in Hap.
  destruct Hap as (Hf & He & Hm & _).
  repeat match goal with
         | H : Forall _ (_ :: _) |- _ => apply Forall_cons in H as [? H]
         end.
  unfold members_inside in Hin.
  repeat match goal with
         | H : Forall _ (_ :: _) |- _ => apply Forall_cons in H as [? H]
         end.
  cbn [fst snd] in *.
  unfold_ops.
  rewrite !mac_loop_store by (done || (params_length; lia)).
  do 2 match goal with
       | |- context [mc_exec ?s ?c] => destruct (mc_exec s c) as [[? ?] ?]
       end.
  cbn [fst snd io_sent]. do 2 eexists. split; [reflexivity|]. split; [reflexivity|].
  split; [|split; reflexivity].
  params_of. unfold st8, st16.
  rewrite !ld8_store_apart by (rewrite ?length_le_bytes, ?length_rev, ?(proj1 Hmac);
                               unfold apart in *; lia).
  rewrite ld8_zeros.
  match goal with
  | |- store (store (store (store ?z ?a1 ?b1) ?a2 ?b2) ?a3 ?b3) ?a4 ?b4 =
       store (store (store (store ?z ?a1 ?b1) ?a3 ?b3) ?a2 ?b2) ?a4 ?b4 =>
      change (apply_writes z [(a1, b1); (a2, b2); (a3, b3); (a4, b4)] =
              apply_writes z [(a1, b1); (a3, b3); (a2, b2); (a4, b4)])
  end.
  destruct Hmac as [Hl _].
  apply apply_writes_perm.
  - apply perm_skip, perm_swap.
  - cbn [map pairwise_apart fst snd]. rewrite !length_le_bytes, length_rev, Hl.
    unfold apart in *. split_ranges; lia.
  - cbn [map pairwise_apart fst snd]. rewrite !length_le_bytes, length_rev, Hl.
    unfold apart in *. split_ranges; lia.
  - rewrite length_replicate. split_ranges;
      rewrite ?length_le_bytes, ?length_rev, ?Hl; lia.
Qed.






(** ** Further properties: sub-byte fields *)

(** A field write keeps the low [SIZE] bits of the value. *)
Lemma dpsw_set_field_mod var field val :
  0 <= SIZE field ->
  dpsw_set_field var field val =
  Z.lor var (Z.shiftl (val mod 2 ^ SIZE field) (SHIFT field)).
Proof.
  intros Hn. unfold dpsw_set_field, DPSW_MASK.
  by rewrite <- Z.shiftl_land, Z.land_ones by done.
Qed.

Lemma dpsw_get_field_lor a b field :
  dpsw_get_field (Z.lor a b) field =
  Z.lor (dpsw_get_field a field) (dpsw_get_field b field).
Proof.
  unfold dpsw_get_field. by rewrite Z.land_lor_distr_l, Z.shiftr_lor.
Qed.

Lemma dpsw_get_field_own v field :
  0 <= SHIFT field -> 0 <= SIZE field ->
  dpsw_get_field (Z.shiftl (v mod 2 ^ SIZE field) (SHIFT field)) field =
  v mod 2 ^ SIZE field.
Proof.
  intros Hs Hn. unfold dpsw_get_field, DPSW_MASK.
  apply Z.bits_inj'. intros i Hi.
  rewrite Z.shiftr_spec, Z.land_spec, !Z.shiftl_spec by lia.
  replace (i + SHIFT field - SHIFT field) with i by lia.
  destruct (Z.lt_ge_cases i (SIZE field)).
  - rewrite Z.ones_spec_low by lia. apply andb_true_r.
  - rewrite Z.ones_spec_high by lia. rewrite andb_false_r.
    symmetry. apply Z.mod_pow2_bits_high. lia.
Qed.

Lemma dpsw_get_field_other v field g :
  0 <= SHIFT field -> 0 <= SIZE field -> 0 <= SHIFT g -> 0 <= SIZE g ->
  fields_apart field g ->
  dpsw_get_field (Z.shiftl (v mod 2 ^ SIZE g) (SHIFT g)) field = 0.
Proof.
  intros Hs Hn Hsg Hng Hap. unfold dpsw_get_field, DPSW_MASK.
  apply Z.bits_inj'. intros i Hi.
  rewrite Z.shiftr_spec, Z.land_spec, !Z.shiftl_spec, Z.bits_0 by lia.
  replace (i + SHIFT field - SHIFT field) with i by lia.
  destruct (Z.lt_ge_cases i (SIZE field)).
  - apply andb_false_intro1. destruct Hap as [Hap|Hap].
    + apply Z.testbit_neg_r. lia.
    + apply Z.mod_pow2_bits_high. lia.
  - rewrite Z.ones_spec_high by lia. apply andb_false_r.
Qed.


(** X8.  For every configuration [dpsw_if_set_tci] is given, each of the
    three fields read back from the [conf] member of the request is the
    low [SIZE] bits of the caller's value: a value too wide for its field
    is cut, not refused, and no field reaches into another. *)
Theorem tci_fields_read_back (mc_io : fsl_mc_io) (cmd_flags token if_id : Z)
    (cfg : dpsw_tci_cfg.t) :
  field_in VLAN_ID 16 -> field_in DEI 16 -> field_in PCP 16 ->
  fields_apart VLAN_ID DEI -> fields_apart VLAN_ID PCP -> fields_apart DEI PCP ->
  (offsetof "dpsw_cmd_if_set_tci" "conf" + 2 <= 8 * MC_CMD_NUM_OF_PARAMS)%nat ->
  exists cmd,
    io_sent (snd (dpsw_if_set_tci mc_io cmd_flags token if_id cfg))
      = io_sent mc_io ++ [cmd] /\
    let conf := rd16 cmd (offsetof "dpsw_cmd_if_set_tci" "conf") in
    dpsw_get_field conf VLAN_ID = dpsw_tci_cfg.vlan_id cfg mod 2 ^ SIZE VLAN_ID /\
    dpsw_get_field conf DEI = dpsw_tci_cfg.dei cfg mod 2 ^ SIZE DEI /\
    dpsw_get_field conf PCP = dpsw_tci_cfg.pcp cfg mod 2 ^ SIZE PCP.
Proof.
  intros (HsV & HnV & HfV) (HsD & HnD & HfD) (HsP & HnP & HfP) HVD HVP HDP Hin.
  unfold_ops.
  match goal with
  | |- context [mc_exec ?s ?c] => destruct (mc_exec s c) as [[e r] p]
  end.
  cbn [fst snd io_sent io_portal].
  eexists; split; [reflexivity|]. cbv zeta.
  params_of. unfold ld16, st16.
  rewrite le_load_store by (rewrite length_store, length_replicate; lia).
  change (2 ^ (8 * Z.of_nat 2)) with (2 ^ 16).
  rewrite !dpsw_set_field_mod by done. rewrite Z.lor_0_l.
  set (tV := Z.shiftl (dpsw_tci_cfg.vlan_id cfg mod 2 ^ SIZE VLAN_ID) (SHIFT VLAN_ID)).
  set (tD := Z.shiftl (dpsw_tci_cfg.dei cfg mod 2 ^ SIZE DEI) (SHIFT DEI)).
  set (tP := Z.shiftl (dpsw_tci_cfg.pcp cfg mod 2 ^ SIZE PCP) (SHIFT PCP)).
  assert (RV : 0 <= tV < 2 ^ 16).
  { apply (shiftl_range _ (SIZE VLAN_ID)); try done.
    apply Z.mod_pos_bound. by apply Z.pow_pos_nonneg. }
  assert (RD : 0 <= tD < 2 ^ 16).
  { apply (shiftl_range _ (SIZE DEI)); try done.
    apply Z.mod_pos_bound. by apply Z.pow_pos_nonneg. }
  assert (RP : 0 <= tP < 2 ^ 16).
  { apply (shiftl_range _ (SIZE PCP)); try done.
    apply Z.mod_pos_bound. by apply Z.pow_pos_nonneg. }
  pose proof (lor_range 16 _ _ ltac:(lia) RV RD) as RVD.
  pose proof (lor_range 16 _ _ ltac:(lia) RVD RP) as RVDP.
  unfold cpu_to_le16, u16.
  rewrite (Z.mod_small tV) by done.
  rewrite (Z.mod_small (Z.lor tV tD)) by done.
  rewrite !(Z.mod_small (Z.lor (Z.lor tV tD) tP)) by done.
  rewrite !dpsw_get_field_lor. subst tV tD tP.
  assert (fields_apart DEI VLAN_ID) by (unfold fields_apart in *; lia).
  assert (fields_apart PCP VLAN_ID) by (unfold fields_apart in *; lia).
  assert (fields_apart PCP DEI) by (unfold fields_apart in *; lia).
  rewrite !dpsw_get_field_own by done.
  rewrite !dpsw_get_field_other by done.
  by rewrite !Z.lor_0_r, !Z.lor_0_l.
Qed.

(** ** Further properties: the ACL key buffer *)

Lemma byte_at_st8_ne m a v j : j <> a -> byte_at (st8 m a v) j = byte_at m j.
Proof. intros H. rewrite byte_at_st8. case_decide; [lia | done]. Qed.

Lemma byte_at_st8_eq m a v : (a < length m)%nat -> byte_at (st8 m a v) a = v mod 256.
Proof. intros H. rewrite byte_at_st8. case_decide; [done | lia]. Qed.

(** Byte [i] of one of the four addresses, once the ranges of the other
    three are known not to hold it. *)
Ltac mac4_member i :=
  repeat match goal with
         | H : _ \/ _ |- _ => clear H
         end;
  destruct i as [|[|[|[|[|[|?]]]]]]; [..|lia];
    repeat first [ rewrite decide_True by lia | rewrite decide_False by done ];
    repeat first [ rewrite byte_at_st8_ne by lia
                 | rewrite byte_at_st8_eq by (rewrite ?length_st8; lia) ];
    (rewrite Z.mod_small by (by apply nth_byte));
    symmetry;
    match goal with
    | |- default 0 (rev _ !! (?a + ?k - ?a)%nat) = _ =>
        replace (a + k - a)%nat with k by lia
    end;
    apply rev_lookup6; (done || lia).

(** The loop over the four hardware addresses of a key stores the reversal
    of each. *)
Lemma mac4_store (buf : list Z) (a1 a2 a3 a4 : nat) (M1 M2 M3 M4 : list Z) :
  is_mac M1 -> is_mac M2 -> is_mac M3 -> is_mac M4 ->
  pairwise_apart [(a1, 6); (a2, 6); (a3, 6); (a4, 6)]%nat ->
  Forall (fun a => (a + 6 <= length buf)%nat) [a1; a2; a3; a4] ->
  for_upto 6 (fun i buf =>
      st8 (st8 (st8 (st8 buf (a1 + i) (nth (5 - i) M1 0))
                    (a2 + i) (nth (5 - i) M2 0))
               (a3 + i) (nth (5 - i) M3 0))
          (a4 + i) (nth (5 - i) M4 0)) buf =
  apply_writes buf [(a1, rev M1); (a2, rev M2); (a3, rev M3); (a4, rev M4)].
Proof.
  intros [Hl1 Hb1] [Hl2 Hb2] [Hl3 Hb3] [Hl4 Hb4] Hap Hin.
  cbn [pairwise_apart fst snd] in Hap. destruct_and!.
  repeat match goal with
         | H : Forall _ (_ :: _) |- _ => apply Forall_cons in H as [? H]
         end.
  cbn [fst snd] in *. unfold apart in *.
  unfold for_upto. cbn [seq fold_left].
  apply byte_at_ext; [by rewrite !length_st8, length_apply_writes|].
  intros j. rewrite byte_at_apply_writes
    by (split_ranges; rewrite length_rev; lia).
  cbn [byte_after fst snd]. rewrite !length_rev, Hl1, Hl2, Hl3, Hl4.
  assert (Hcase : (exists i, i < 6 /\ j = a1 + i)%nat \/ (exists i, i < 6 /\ j = a2 + i)%nat \/
                  (exists i, i < 6 /\ j = a3 + i)%nat \/ (exists i, i < 6 /\ j = a4 + i)%nat \/
                  (~ (a1 <= j < a1 + 6) /\ ~ (a2 <= j < a2 + 6) /\
                   ~ (a3 <= j < a3 + 6) /\ ~ (a4 <= j < a4 + 6))%nat).
  { destruct (decide (a1 <= j < a1 + 6)%nat); [left; exists (j - a1)%nat; lia|].
    destruct (decide (a2 <= j < a2 + 6)%nat); [right; left; exists (j - a2)%nat; lia|].
    destruct (decide (a3 <= j < a3 + 6)%nat);
      [right; right; left; exists (j - a3)%nat; lia|].
    destruct (decide (a4 <= j < a4 + 6)%nat);
      [right; right; right; left; exists (j - a4)%nat; lia|].
    by repeat right. }
  destruct Hcase as [(i & Hi & ->)|[(i & Hi & ->)|[(i & Hi & ->)|[(i & Hi & ->)|Hout]]]].
  - assert (~ (a2 <= a1 + i < a2 + 6) /\ ~ (a3 <= a1 + i < a3 + 6) /\
            ~ (a4 <= a1 + i < a4 + 6))%nat as (? & ? & ?) by lia.
    mac4_member i.
  - assert (~ (a1 <= a2 + i < a1 + 6) /\ ~ (a3 <= a2 + i < a3 + 6) /\
            ~ (a4 <= a2 + i < a4 + 6))%nat as (? & ? & ?) by lia.
    mac4_member i.
  - assert (~ (a1 <= a3 + i < a1 + 6) /\ ~ (a2 <= a3 + i < a2 + 6) /\
            ~ (a4 <= a3 + i < a4 + 6))%nat as (? & ? & ?) by lia.
    mac4_member i.
  - assert (~ (a1 <= a4 + i < a1 + 6) /\ ~ (a2 <= a4 + i < a2 + 6) /\
            ~ (a3 <= a4 + i < a3 + 6))%nat as (? & ? & ?) by lia.
    mac4_member i.
  - destruct Hout as (? & ? & ? & ?).
    repeat match goal with
           | H : _ \/ _ |- _ => clear H
           end.
    rewrite !decide_False by done.
    by rewrite !byte_at_st8_ne by lia.
Qed.

Lemma le_bytes_le16 v : le_bytes 2 (cpu_to_le16 v) = le_bytes 2 v.
Proof.
  apply le_bytes_congr. unfold cpu_to_le16, u16.
  change (2 ^ (8 * Z.of_nat 2)) with (2 ^ 16). by rewrite Z.mod_mod by lia.
Qed.

Lemma le_bytes_le32 v : le_bytes 4 (cpu_to_le32 v) = le_bytes 4 v.
Proof.
  apply le_bytes_congr. unfold cpu_to_le32, u32.
  change (2 ^ (8 * Z.of_nat 4)) with (2 ^ 32). by rewrite Z.mod_mod by lia.
Qed.

(** The flattening is a sequence of writes: one for each member. *)
Lemma dpsw_acl_prepare_entry_cfg_writes (key : dpsw_acl_key.t) (buf : list Z) :
  is_mac (dpsw_acl_fields.l2_dest_mac (dpsw_acl_key.match_ key)) ->
  is_mac (dpsw_acl_fields.l2_source_mac (dpsw_acl_key.match_ key)) ->
  is_mac (dpsw_acl_fields.l2_dest_mac (dpsw_acl_key.mask key)) ->
  is_mac (dpsw_acl_fields.l2_source_mac (dpsw_acl_key.mask key)) ->
  members_apart "dpsw_prep_acl_entry" acl_entry_members ->
  members_inside "dpsw_prep_acl_entry" acl_entry_members (length buf) ->
  dpsw_acl_prepare_entry_cfg key buf =
  apply_writes buf
    (map (fun fb => (offsetof "dpsw_prep_acl_entry" (fst fb), snd fb))
       (acl_entry_image key)).
Proof.
  intros H1 H2 H3 H4 Hap Hin.
  unfold dpsw_acl_prepare_entry_cfg. cbv zeta.
  rewrite mac4_store;
    [unfold st8, st16, st32; by rewrite !le_bytes_le16, !le_bytes_le32|done..| |].
  - unfold members_apart, acl_entry_members in Hap.
    cbn [map pairwise_apart fst snd] in Hap.
    destruct Hap as (Ha & Hb & Hc & _).
    apply Forall_cons in Ha as [? Ha]. apply Forall_cons in Ha as [? Ha].
    apply Forall_cons in Ha as [? _].
    apply Forall_cons in Hb as [? Hb]. apply Forall_cons in Hb as [? _].
    apply Forall_cons in Hc as [? _].
    cbn [pairwise_apart fst snd]. by split_ranges.
  - unfold members_inside, acl_entry_members in Hin.
    apply Forall_cons in Hin as [? Hin]. apply Forall_cons in Hin as [? Hin].
    apply Forall_cons in Hin as [? Hin]. apply Forall_cons in Hin as [? _].
    by split_ranges.
Qed.

Lemma acl_entry_image_ranges (key : dpsw_acl_key.t) :
  is_mac (dpsw_acl_fields.l2_dest_mac (dpsw_acl_key.match_ key)) ->
  is_mac (dpsw_acl_fields.l2_source_mac (dpsw_acl_key.match_ key)) ->
  is_mac (dpsw_acl_fields.l2_dest_mac (dpsw_acl_key.mask key)) ->
  is_mac (dpsw_acl_fields.l2_source_mac (dpsw_acl_key.mask key)) ->
  map (fun fb => (fst fb, length (snd fb))) (acl_entry_image key) = acl_entry_members.
Proof.
  intros [H1 _] [H2 _] [H3 _] [H4 _].
  unfold acl_entry_image. cbv zeta. cbn [map fst snd].
  by rewrite !length_rev, H1, H2, H3, H4.
Qed.

(** X9.  [dpsw_acl_prepare_entry_cfg], for every key and every buffer that
    holds the members of the structure without overlap: afterwards each of
    the 26 members holds its field of the key, the hardware addresses
    byte-reversed and the other fields little-endian, whatever the buffer
    held; the buffer keeps its size, and every byte outside the members is
    as it was. *)
Theorem acl_prepare_entry_cfg_image (key : dpsw_acl_key.t) (buf : list Z) :
  is_mac (dpsw_acl_fields.l2_dest_mac (dpsw_acl_key.match_ key)) ->
  is_mac (dpsw_acl_fields.l2_source_mac (dpsw_acl_key.match_ key)) ->
  is_mac (dpsw_acl_fields.l2_dest_mac (dpsw_acl_key.mask key)) ->
  is_mac (dpsw_acl_fields.l2_source_mac (dpsw_acl_key.mask key)) ->
  members_apart "dpsw_prep_acl_entry" acl_entry_members ->
  members_inside "dpsw_prep_acl_entry" acl_entry_members (length buf) ->
  let out := dpsw_acl_prepare_entry_cfg key buf in
  length out = length buf /\
  Forall (fun fb =>
            load out (offsetof "dpsw_prep_acl_entry" (fst fb)) (length (snd fb))
            = snd fb) (acl_entry_image key) /\
  (forall j,
     Forall (fun fw => ~ (offsetof "dpsw_prep_acl_entry" (fst fw) <= j
                          < offsetof "dpsw_prep_acl_entry" (fst fw) + snd fw)%nat)
       acl_entry_members ->
     byte_at out j = byte_at buf j).
Proof.
  intros H1 H2 H3 H4 Hap Hin out. subst out.
  rewrite dpsw_acl_prepare_entry_cfg_writes by done.
  pose proof (acl_entry_image_ranges key H1 H2 H3 H4) as Hr.
  set (ws := map (fun fb => (offsetof "dpsw_prep_acl_entry" (fst fb), snd fb))
               (acl_entry_image key)).
  assert (Hws : map (fun w => (fst w, length (snd w))) ws =
                map (fun fw => (offsetof "dpsw_prep_acl_entry" (fst fw), snd fw))
                  acl_entry_members).
  { subst ws. rewrite <- Hr, !map_map. reflexivity. }
  assert (Hap' : pairwise_apart (map (fun w => (fst w, length (snd w))) ws))
    by (by rewrite Hws).
  assert (Hin' : Forall (fun w => (fst w + length (snd w) <= length buf)%nat) ws).
  { unfold members_inside in Hin.
    apply (Forall_fmap (fun w : nat * list Z => (fst w, length (snd w)))
             (fun r : nat * nat => (fst r + snd r <= length buf)%nat)).
    change (Forall (fun r : nat * nat => (fst r + snd r <= length buf)%nat)
              (map (fun w : nat * list Z => (fst w, length (snd w))) ws)).
    rewrite Hws. by apply Forall_fmap. }
  split; [apply length_apply_writes|]. split.
  - apply Forall_forall. intros [f bs] Hel. cbn [fst snd].
    apply apply_writes_load; [done..|].
    subst ws. change (offsetof "dpsw_prep_acl_entry" f, bs)
      with ((fun fb : string * list Z =>
               (offsetof "dpsw_prep_acl_entry" (fst fb), snd fb)) (f, bs)).
    by apply list_elem_of_fmap_2.
  - intros j Hout. apply apply_writes_frame; [done|].
    apply (Forall_fmap
             (fun w : nat * list Z => (fst w, length (snd w)))
             (fun r : nat * nat => ~ (fst r <= j < fst r + snd r)%nat)).
    change (Forall (fun r : nat * nat => ~ (fst r <= j < fst r + snd r)%nat)
              (map (fun w : nat * list Z => (fst w, length (snd w))) ws)).
    rewrite Hws. by apply Forall_fmap.
Qed.

(** ** Further properties: the parameters of the scalar requests *)

Lemma le_bytes_le64 v : le_bytes 8 (cpu_to_le64 v) = le_bytes 8 v.
Proof.
  apply le_bytes_congr. unfold cpu_to_le64, u64.
  change (2 ^ (8 * Z.of_nat 8)) with (2 ^ 64). by rewrite Z.mod_mod by lia.
Qed.

(** Members written one after the other into a buffer they do not overlap
    in: each holds its bytes, the rest of the buffer is as before. *)
Lemma writes_image (s : string) (img : list (string * list Z)) (buf : list Z) :
  members_apart s (image_members img) ->
  members_inside s (image_members img) (length buf) ->
  let out := apply_writes buf (map (fun fb => (offsetof s (fst fb), snd fb)) img) in
  length out = length buf /\
  Forall (fun fb => load out (offsetof s (fst fb)) (length (snd fb)) = snd fb) img /\
  (forall j,
     Forall (fun fb => ~ (offsetof s (fst fb) <= j
                          < offsetof s (fst fb) + length (snd fb))%nat) img ->
     byte_at out j = byte_at buf j).
Proof.
  intros Hap Hin out. subst out.
  set (ws := map (fun fb => (offsetof s (fst fb), snd fb)) img).
  assert (Hws : map (fun w => (fst w, length (snd w))) ws =
                map (fun fw => (offsetof s (fst fw), snd fw)) (image_members img)).
  { subst ws. unfold image_members. by rewrite !map_map. }
  assert (Hap' : pairwise_apart (map (fun w => (fst w, length (snd w))) ws))
    by (by rewrite Hws).
  assert (Hin' : Forall (fun w => (fst w + length (snd w) <= length buf)%nat) ws).
  { subst ws. unfold members_inside, image_members in Hin.
    apply Forall_fmap. apply Forall_fmap in Hin. exact Hin. }
  split; [apply length_apply_writes|]. split.
  - apply Forall_forall. intros [f bs] Hel. cbn [fst snd].
    apply apply_writes_load; [done..|].
    subst ws. change (offsetof s f, bs)
      with ((fun fb : string * list Z => (offsetof s (fst fb), snd fb)) (f, bs)).
    by apply list_elem_of_fmap_2.
  - intros j Hout. apply apply_writes_frame; [done|].
    subst ws. apply Forall_fmap. exact Hout.
Qed.

(** X10.  The parameters of every request made of scalars: each member the
    operation writes holds the low bytes of its argument, little-endian,
    whatever the order of the writes, and every other byte of the
    parameters is zero; nothing else of the caller's data is sent. *)
Theorem request_members_read_back (mc_io : fsl_mc_io) (c : dpsw_call)
    (s : string) (img : list (string * list Z)) :
  call_request c = Some (s, img) ->
  members_apart s (image_members img) ->
  members_inside s (image_members img) (8 * MC_CMD_NUM_OF_PARAMS) ->
  exists cmd,
    io_sent (dpsw_run mc_io c) = io_sent mc_io ++ [cmd] /\
    length (params cmd) = (8 * MC_CMD_NUM_OF_PARAMS)%nat /\
    Forall (fun fb => load (params cmd) (offsetof s (fst fb)) (length (snd fb)) = snd fb)
      img /\
    (forall j,
       Forall (fun fb => ~ (offsetof s (fst fb) <= j
                            < offsetof s (fst fb) + length (snd fb))%nat) img ->
       byte_at (params cmd) j = 0).
Proof.
  intros Hc Hap Hin.
  assert (Hgen : forall p,
    p = apply_writes (replicate (8 * MC_CMD_NUM_OF_PARAMS) 0)
          (map (fun fb => (offsetof s (fst fb), snd fb)) img) ->
    length p = (8 * MC_CMD_NUM_OF_PARAMS)%nat /\
    Forall (fun fb => load p (offsetof s (fst fb)) (length (snd fb)) = snd fb) img /\
    (forall j,
       Forall (fun fb => ~ (offsetof s (fst fb) <= j
                            < offsetof s (fst fb) + length (snd fb))%nat) img ->
       byte_at p j = 0)).
  { intros p ->.
    destruct (writes_image s img (replicate (8 * MC_CMD_NUM_OF_PARAMS) 0))
      as (Hl & Hld & Hfr); [done | by rewrite length_replicate |].
    rewrite length_replicate in Hl. split; [done|]. split; [done|].
    intros j Hj. rewrite Hfr by done. apply byte_at_zeros. }
  pose proof Hap as Hap'.
  destruct c; try discriminate Hc;
    cbv beta iota delta [call_request] in Hc;
    match type of Hc with
    | Some (?a, ?b) = Some (_, _) =>
        assert (s = a) by congruence; assert (img = b) by congruence
    end;
    subst s img; clear Hc;
    unfold members_apart, image_members in Hap';
    cbn [map pairwise_apart fst snd] in Hap';
    rewrite ?length_le_bytes in Hap';
    destruct_and?;
    repeat match goal with
           | H : Forall _ (_ :: _) |- _ => apply Forall_cons in H as [? H]
           end;
    cbn [fst snd] in *;
    cbn [dpsw_run]; unfold_ops;
    match goal with
    | |- context [mc_exec ?s ?c] => destruct (mc_exec s c) as [[e ?] ?]
    end;
    try destruct (negb (e =? 0));
    cbn [fst snd io_sent]; (eexists; split; [reflexivity|]);
    apply Hgen; params_of; unfold st8, st16, st32, st64;
    rewrite ?ld8_store_apart by (rewrite length_le_bytes; unfold apart in *; lia);
    rewrite ?ld8_zeros, ?le_bytes_le16, ?le_bytes_le32, ?le_bytes_le64;
    reflexivity.
Qed.


(** ** Further properties: the count of the bitmap builder *)

Lemma build_if_id_bitmap_from_count bmap id n1 n2 fuel : forall i m,
  Z.to_nat (Z.min n1 DPSW_MAX_IF) = Z.to_nat (Z.min n2 DPSW_MAX_IF) ->
  build_if_id_bitmap_from fuel i m bmap id n1 =
  build_if_id_bitmap_from fuel i m bmap id n2.
Proof.
  induction fuel as [|fuel IH]; intros i m Hn; [done|].
  cbn [build_if_id_bitmap_from]. rewrite !loop_cond, Hn.
  case_bool_decide; [by apply IH | done].
Qed.

(** X12.  The count reaches [build_if_id_bitmap] through [min(count, 64)]
    alone: with a count of zero the buffer is handed back as it is, whatever
    the ids, and every count of 64 or more builds what the count 64
    builds. *)
Theorem build_if_id_bitmap_count (m : list Z) (bmap : nat) (id : list Z) (num_ifs : Z) :
  (num_ifs <= 0 -> build_if_id_bitmap m bmap id num_ifs = m) /\
  (DPSW_MAX_IF <= num_ifs ->
   build_if_id_bitmap m bmap id num_ifs = build_if_id_bitmap m bmap id DPSW_MAX_IF).
Proof.
  split; intros Hn; unfold build_if_id_bitmap.
  - rewrite (build_if_id_bitmap_from_count bmap id num_ifs 0)
      by (unfold DPSW_MAX_IF; lia).
    reflexivity.
  - apply build_if_id_bitmap_from_count. unfold DPSW_MAX_IF in *. lia.
Qed.

End DPSW.

(** ** The statements on the concrete tables *)

Lemma build_if_id_bitmap_bits_witness :
  (0 + 8 <= length (replicate 8 0))%nat /\
  Forall (fun x => 0 <= x < 2 ^ 16) [5; 70; 5] /\
  (Z.to_nat (Z.min 3 DPSW_MAX_IF) <= length [5; 70; 5])%nat /\
  (let m' := build_if_id_bitmap (replicate 8 0) 0 [5; 70; 5] 3 in
   length m' = length (replicate 8 0) /\
   (forall (k : nat) (j : Z),
      (0 + 8 * k + 8 <= length (replicate 8 0))%nat -> 0 <= j < 64 ->
      Z.testbit (ld64 m' (0 + 8 * k)) j =
      Z.testbit (ld64 (replicate 8 0) (0 + 8 * k)) j ||
      existsb (fun x => (x <? DPSW_MAX_IF) && (x / 64 =? Z.of_nat k) && (x mod 64 =? j))
        (take (Z.to_nat (Z.min 3 DPSW_MAX_IF)) [5; 70; 5])) /\
   (forall a, (a < 0 \/ 0 + 8 <= a)%nat -> byte_at m' a = byte_at (replicate 8 0) a)).
Proof.
  assert (H1 : (0 + 8 <= length (replicate 8 0))%nat) by (simpl; lia).
  assert (H2 : Forall (fun x => 0 <= x < 2 ^ 16) [5; 70; 5]) by (repeat constructor; lia).
  assert (H3 : (Z.to_nat (Z.min 3 DPSW_MAX_IF) <= length [5; 70; 5])%nat) by (simpl; lia).
  split; [exact H1|]. split; [exact H2|]. split; [exact H3|].
  exact (build_if_id_bitmap_bits (replicate 8 0) 0 [5; 70; 5] 3 H1 H2 H3).
Defined.

Lemma build_if_id_bitmap_drops_high_witness :
  (Z.to_nat (Z.min 2 DPSW_MAX_IF) <= length [64; 3])%nat /\
  build_if_id_bitmap (replicate 8 0) 0 [64] 1 = replicate 8 0 /\
  build_if_id_bitmap (replicate 8 0) 0 [64; 3] 2 =
  fold_left (fun m x => bitmap_set m 0 x)
    (List.filter (fun x => x <? DPSW_MAX_IF) (take (Z.to_nat (Z.min 2 DPSW_MAX_IF)) [64; 3]))
    (replicate 8 0).
Proof.
  assert (H : (Z.to_nat (Z.min 2 DPSW_MAX_IF) <= length [64; 3])%nat) by (simpl; lia).
  split; [exact H|]. split.
  - exact (proj1 build_if_id_bitmap_drops_high (replicate 8 0) 0%nat).
  - exact (proj2 build_if_id_bitmap_drops_high (replicate 8 0) 0%nat [64; 3] 2 H).
Defined.

Lemma build_if_id_bitmap_idempotent_witness :
  (0 + 8 <= length (replicate 8 0))%nat /\
  Forall (fun x => 0 <= x < 2 ^ 16) [5; 70; 5] /\
  Forall (fun x => 0 <= x < 2 ^ 16) [5] /\
  (Z.to_nat (Z.min 3 DPSW_MAX_IF) <= length [5; 70; 5])%nat /\
  (Z.to_nat (Z.min 1 DPSW_MAX_IF) <= length [5])%nat /\
  (forall x, x < DPSW_MAX_IF ->
     In x (take (Z.to_nat (Z.min 3 DPSW_MAX_IF)) [5; 70; 5]) <->
     In x (take (Z.to_nat (Z.min 1 DPSW_MAX_IF)) [5])) /\
  build_if_id_bitmap (replicate 8 0) 0 [5; 70; 5] 3 =
  build_if_id_bitmap (replicate 8 0) 0 [5] 1.
Proof.
  assert (H1 : (0 + 8 <= length (replicate 8 0))%nat) by (simpl; lia).
  assert (H2 : Forall (fun x => 0 <= x < 2 ^ 16) [5; 70; 5]) by (repeat constructor; lia).
  assert (H3 : Forall (fun x => 0 <= x < 2 ^ 16) [5]) by (repeat constructor; lia).
  assert (H4 : (Z.to_nat (Z.min 3 DPSW_MAX_IF) <= length [5; 70; 5])%nat) by (simpl; lia).
  assert (H5 : (Z.to_nat (Z.min 1 DPSW_MAX_IF) <= length [5])%nat) by (simpl; lia).
  assert (H6 : forall x, x < DPSW_MAX_IF ->
            In x (take (Z.to_nat (Z.min 3 DPSW_MAX_IF)) [5; 70; 5]) <->
            In x (take (Z.to_nat (Z.min 1 DPSW_MAX_IF)) [5])).
  { intros x Hx. unfold DPSW_MAX_IF in Hx. simpl. intuition lia. }
  repeat (split; [assumption|]).
  exact (proj2 build_if_id_bitmap_idempotent (replicate 8 0) 0%nat
           [5; 70; 5] 3 [5] 1 H1 H2 H3 H4 H5 H6).
Defined.

Lemma token_in_header_witness :
  (forall t, call_token (call_close 0 0x1234) = Some t -> 0 <= t < 2 ^ 16) /\
  exists cmd,
    io_sent unit
      (dpsw_run sample_cmdid sample_shift sample_size sample_offsetof
         sample_num_of_params unit sample_exec (mk_io unit tt []) (call_close 0 0x1234))
      = io_sent unit (mk_io unit tt []) ++ [cmd] /\
    Some (hdr_token (header cmd)) = call_token (call_close 0 0x1234).
Proof.
  assert (H : forall t, call_token (call_close 0 0x1234) = Some t -> 0 <= t < 2 ^ 16).
  { intros t Ht. injection Ht as <-. lia. }
  split; [exact H|].
  exact (token_in_header sample_cmdid sample_shift sample_size sample_offsetof
           sample_num_of_params unit sample_exec (mk_io unit tt []) (call_close 0 0x1234) H).
Defined.

Lemma status_and_outputs_witness :
  let cfg0 := {| dpsw_tci_cfg.pcp := 0; dpsw_tci_cfg.dei := 0;
                 dpsw_tci_cfg.vlan_id := 0 |} in
  fst (dpsw_if_get_tci sample_cmdid sample_offsetof sample_num_of_params unit
         (sample_exec_with 0 sample_tci_rsp) (mk_io unit tt []) 0 0x1234 3 cfg0) =
  (0, {| dpsw_tci_cfg.pcp := 5; dpsw_tci_cfg.dei := 1;
         dpsw_tci_cfg.vlan_id := 0xABC |}) /\
  fst (dpsw_if_get_tci sample_cmdid sample_offsetof sample_num_of_params unit
         (sample_exec_with (-22) sample_tci_rsp) (mk_io unit tt []) 0 0x1234 3 cfg0) =
  (-22, cfg0).
Proof.
  intros cfg0. split.
  - destruct (status_and_outputs sample_cmdid sample_shift sample_size sample_offsetof
                sample_num_of_params unit (sample_exec_with 0 sample_tci_rsp)
                0 0x1234 0 0 3 0 0 0 0 (dpsw_acl_cfg.mk 0))
      as (_ & _ & _ & _ & _ & Htci & _).
    destruct (Htci (mk_io unit tt []) cfg0 I) as [cmd H].
    unfold mc_send_command, sample_exec_with in H. cbv beta iota in H.
    destruct H as [_ H].
    refine (f_equal fst
              (H eq_refl
                 {| dpsw_tci_cfg.pcp := 5; dpsw_tci_cfg.dei := 1;
                    dpsw_tci_cfg.vlan_id := 0xABC |} I _)).
    unfold rsp_holds.
    repeat (apply List.Forall_cons; [vm_compute; reflexivity|]).
    apply List.Forall_nil.
  - destruct (status_and_outputs sample_cmdid sample_shift sample_size sample_offsetof
                sample_num_of_params unit (sample_exec_with (-22) sample_tci_rsp)
                0 0x1234 0 0 3 0 0 0 0 (dpsw_acl_cfg.mk 0))
      as (_ & _ & _ & _ & _ & Htci & _).
    destruct (Htci (mk_io unit tt []) cfg0 I) as [cmd H].
    unfold mc_send_command, sample_exec_with in H. cbv beta iota in H.
    destruct H as [H _].
    refine (f_equal fst (H _)). discriminate.
Defined.

Lemma irq_status_in_request_witness :
  0 <= 0 < 2 ^ 32 /\ 0 <= 5 < 2 ^ 32 /\ 0 <> 5 /\
  (sample_offsetof "dpsw_cmd_get_irq_status" "status" + 4 <= 8 * sample_num_of_params)%nat /\
  (sample_offsetof "dpsw_cmd_get_irq_status" "irq_index" <
     sample_offsetof "dpsw_cmd_get_irq_status" "status" \/
   sample_offsetof "dpsw_cmd_get_irq_status" "status" + 4 <=
     sample_offsetof "dpsw_cmd_get_irq_status" "irq_index")%nat /\
  exists c1 c2,
    io_sent unit (snd (dpsw_get_irq_status sample_cmdid sample_offsetof
                         sample_num_of_params unit sample_exec (mk_io unit tt []) 0 0x1234 1 0))
      = io_sent unit (mk_io unit tt []) ++ [c1] /\
    io_sent unit (snd (dpsw_get_irq_status sample_cmdid sample_offsetof
                         sample_num_of_params unit sample_exec (mk_io unit tt []) 0 0x1234 1 5))
      = io_sent unit (mk_io unit tt []) ++ [c2] /\
    rd32 c1 (sample_offsetof "dpsw_cmd_get_irq_status" "status") = 0 /\
    rd32 c2 (sample_offsetof "dpsw_cmd_get_irq_status" "status") = 5 /\
    c1 <> c2.
Proof.
  assert (H1 : 0 <= 0 < 2 ^ 32) by lia.
  assert (H2 : 0 <= 5 < 2 ^ 32) by lia.
  assert (H3 : 0 <> 5) by lia.
  assert (H4 : (sample_offsetof "dpsw_cmd_get_irq_status" "status" + 4
                <= 8 * sample_num_of_params)%nat) by (vm_compute; lia).
  assert (H5 : (sample_offsetof "dpsw_cmd_get_irq_status" "irq_index" <
                  sample_offsetof "dpsw_cmd_get_irq_status" "status" \/
                sample_offsetof "dpsw_cmd_get_irq_status" "status" + 4 <=
                  sample_offsetof "dpsw_cmd_get_irq_status" "irq_index")%nat)
    by (vm_compute; lia).
  repeat (split; [assumption|]).
  exact (irq_status_in_request sample_cmdid sample_offsetof sample_num_of_params
           unit sample_exec (mk_io unit tt []) 0 0x1234 1 0 5 H1 H2 H3 H4 H5).
Defined.

Lemma tci_packing_witness :
  sample_size PCP = 3 /\ sample_size DEI = 1 /\ sample_size VLAN_ID = 12 /\
  (0 <= sample_shift PCP /\ sample_shift PCP + sample_size PCP <= 16) /\
  (0 <= sample_shift DEI /\ sample_shift DEI + sample_size DEI <= 16) /\
  (0 <= sample_shift VLAN_ID /\ sample_shift VLAN_ID + sample_size VLAN_ID <= 16) /\
  (sample_offsetof "dpsw_cmd_if_set_tci" "conf" + 2 <= 8 * sample_num_of_params)%nat /\
  (exists cmd,
     io_sent unit
       (snd (dpsw_if_set_tci sample_cmdid sample_shift sample_size sample_offsetof
               sample_num_of_params unit sample_exec (mk_io unit tt []) 0 0x1234 3
               {| dpsw_tci_cfg.pcp := 7; dpsw_tci_cfg.dei := 1;
                  dpsw_tci_cfg.vlan_id := 0xABC |}))
       = io_sent unit (mk_io unit tt []) ++ [cmd] /\
     rd16 cmd (sample_offsetof "dpsw_cmd_if_set_tci" "conf") = 0xFABC) /\
  (forall var field val i,
     0 <= sample_size field ->
     ~ (sample_shift field <= i < sample_shift field + sample_size field) ->
     Z.testbit (dpsw_set_field sample_shift sample_size var field val) i = Z.testbit var i).
Proof.
  assert (H1 : sample_size PCP = 3) by reflexivity.
  assert (H2 : sample_size DEI = 1) by reflexivity.
  assert (H3 : sample_size VLAN_ID = 12) by reflexivity.
  assert (H4 : 0 <= sample_shift PCP /\ sample_shift PCP + sample_size PCP <= 16)
    by (simpl; lia).
  assert (H5 : 0 <= sample_shift DEI /\ sample_shift DEI + sample_size DEI <= 16)
    by (simpl; lia).
  assert (H6 : 0 <= sample_shift VLAN_ID /\ sample_shift VLAN_ID + sample_size VLAN_ID <= 16)
    by (simpl; lia).
  assert (H7 : (sample_offsetof "dpsw_cmd_if_set_tci" "conf" + 2
                <= 8 * sample_num_of_params)%nat) by (vm_compute; lia).
  repeat (split; [assumption|]).
  exact (tci_packing sample_cmdid sample_shift sample_size sample_offsetof
           sample_num_of_params unit sample_exec (mk_io unit tt []) 0 0x1234 3 H1 H2 H3 H4 H5 H6 H7).
Defined.

Lemma sample_mac_members_inside : mac_members_inside sample_offsetof sample_num_of_params.
Proof. unfold mac_members_inside, apart. vm_compute. lia. Defined.

Lemma sample_mac_is_mac : is_mac sample_mac.
Proof. split; [reflexivity|]. unfold sample_mac. repeat constructor; lia. Defined.

Lemma sample_mask_is_mac : is_mac sample_mask.
Proof. split; [reflexivity|]. unfold sample_mask. repeat constructor; lia. Defined.

Lemma mac_addr_reversed_witness :
  mac_members_inside sample_offsetof sample_num_of_params /\
  is_mac sample_mac /\
  (to_wire sample_mac = rev sample_mac /\ from_wire sample_mac = rev sample_mac /\
   from_wire (to_wire sample_mac) = sample_mac) /\
  (exists cmd,
     io_sent unit
       (snd (dpsw_if_set_primary_mac_addr sample_cmdid sample_offsetof
               sample_num_of_params unit sample_exec (mk_io unit tt []) 0 0x1234 3 sample_mac))
       = io_sent unit (mk_io unit tt []) ++ [cmd] /\
     mac_at (params cmd) (sample_offsetof "dpsw_cmd_if_set_mac_addr" "mac_addr")
       = to_wire sample_mac).
Proof.
  split; [exact sample_mac_members_inside|].
  split; [exact sample_mac_is_mac|].
  destruct (mac_addr_reversed sample_cmdid sample_shift sample_size sample_offsetof
              sample_num_of_params unit sample_exec sample_mac_members_inside)
    as (Hpure & _ & _ & _ & _ & Hset & _).
  split.
  - exact (Hpure sample_mac sample_mac_is_mac).
  - exact (Hset (mk_io unit tt []) 0 0x1234 3 sample_mac sample_mac_is_mac).
Defined.

Lemma sample_acl_layout_ok : acl_layout_ok sample_offsetof.
Proof.
  unfold acl_layout_ok, acl_other_members, apart.
  split; [vm_compute; lia|]. split; [vm_compute; lia|]. split; [vm_compute; lia|].
  repeat (constructor; [vm_compute; lia|]).
  constructor.
Defined.

Lemma acl_key_dest_mac_only_witness :
  is_mac sample_mac /\ is_mac sample_mask /\ acl_layout_ok sample_offsetof /\
  dpsw_acl_prepare_entry_cfg sample_offsetof
    {| dpsw_acl_key.match_ := dest_mac_only sample_mac;
       dpsw_acl_key.mask := dest_mac_only sample_mask |}
    (replicate 256 0) =
  store (store (replicate 256 0)
           (sample_offsetof "dpsw_prep_acl_entry" "match_l2_dest_mac") (rev sample_mac))
        (sample_offsetof "dpsw_prep_acl_entry" "mask_l2_dest_mac") (rev sample_mask).
Proof.
  split; [exact sample_mac_is_mac|].
  split; [exact sample_mask_is_mac|].
  split; [exact sample_acl_layout_ok|].
  exact (acl_key_dest_mac_only sample_offsetof sample_mac sample_mask
           sample_mac_is_mac sample_mask_is_mac sample_acl_layout_ok).
Defined.

(** ** The further properties on the concrete tables *)

Lemma sample_cmdid_injective (a b : cmdid_name) :
  cpu_to_le16 (sample_cmdid a) = cpu_to_le16 (sample_cmdid b) -> a = b.
Proof.
  destruct a, b; vm_compute; intros H; first [reflexivity | discriminate H].
Qed.

Lemma cmdid_identifies_operation_witness :
  exists cmd1 cmd2,
    io_sent unit
      (dpsw_run sample_cmdid sample_shift sample_size sample_offsetof
         sample_num_of_params unit sample_exec (mk_io unit tt [])
         (call_if_get_primary_mac_addr 0 0x1234 3 sample_mac))
      = io_sent unit (mk_io unit tt []) ++ [cmd1] /\
    io_sent unit
      (dpsw_run sample_cmdid sample_shift sample_size sample_offsetof
         sample_num_of_params unit sample_exec (mk_io unit tt [])
         (call_if_set_primary_mac_addr 0 0x1234 3 sample_mac))
      = io_sent unit (mk_io unit tt []) ++ [cmd2] /\
    hdr_cmd_id (header cmd1) =
      cpu_to_le16 (sample_cmdid
        (call_cmdid (call_if_get_primary_mac_addr 0 0x1234 3 sample_mac))) /\
    hdr_cmd_id (header cmd2) =
      cpu_to_le16 (sample_cmdid
        (call_cmdid (call_if_set_primary_mac_addr 0 0x1234 3 sample_mac))) /\
    (hdr_cmd_id (header cmd1) = hdr_cmd_id (header cmd2) <->
     call_name (call_if_get_primary_mac_addr 0 0x1234 3 sample_mac) =
     call_name (call_if_set_primary_mac_addr 0 0x1234 3 sample_mac) \/
     (call_name (call_if_get_primary_mac_addr 0 0x1234 3 sample_mac) =
        "dpsw_if_get_primary_mac_addr" /\
      call_name (call_if_set_primary_mac_addr 0 0x1234 3 sample_mac) =
        "dpsw_if_set_primary_mac_addr") \/
     (call_name (call_if_get_primary_mac_addr 0 0x1234 3 sample_mac) =
        "dpsw_if_set_primary_mac_addr" /\
      call_name (call_if_set_primary_mac_addr 0 0x1234 3 sample_mac) =
        "dpsw_if_get_primary_mac_addr")).
Proof.
  exact (cmdid_identifies_operation sample_cmdid sample_shift sample_size
           sample_offsetof sample_num_of_params unit sample_exec
           (mk_io unit tt []) (mk_io unit tt [])
           (call_if_get_primary_mac_addr 0 0x1234 3 sample_mac)
           (call_if_set_primary_mac_addr 0 0x1234 3 sample_mac)
           sample_cmdid_injective).
Defined.

Lemma open_token_session_witness :
  exists open_cmd cmd,
    io_sent unit
      (dpsw_run sample_cmdid sample_shift sample_size sample_offsetof
         sample_num_of_params unit sample_exec_token
         (snd (dpsw_open sample_cmdid sample_offsetof sample_num_of_params unit
                 sample_exec_token (mk_io unit tt []) 0 7 0))
         (call_close 0 0x2a5))
      = [open_cmd; cmd] /\
    hdr_token (header cmd) = 0x2a5 /\
    snd (fst (dpsw_open sample_cmdid sample_offsetof sample_num_of_params unit
                sample_exec_token (mk_io unit tt []) 0 7 0)) = 0x2a5.
Proof.
  destruct (open_token_session sample_cmdid sample_shift sample_size
              sample_offsetof sample_num_of_params unit sample_exec_token
              (mk_io unit tt []) 0 7 0 (call_close 0 0x2a5)) as [open_cmd H].
  unfold sample_exec_token at 1 in H. cbv beta iota in H.
  change (dpsw_open sample_cmdid sample_offsetof sample_num_of_params unit
            sample_exec_token (mk_io unit tt []) 0 7 0)
    with (0, 0x2a5,
          snd (dpsw_open sample_cmdid sample_offsetof sample_num_of_params unit
                 sample_exec_token (mk_io unit tt []) 0 7 0)) in H.
  cbv beta iota in H.
  destruct H as [_ H]. destruct (H eq_refl) as [_ H2].
  destruct (H2 eq_refl) as (cmd & Hs & Ht).
  exists open_cmd, cmd. split; [exact Hs|]. split; [exact Ht | reflexivity].
Defined.

Lemma sample_unicast_apart :
  members_apart sample_offsetof "dpsw_cmd_fdb_unicast_op"
    [("fdb_id", 2); ("if_egress", 2); ("mac_addr", 6); ("type", 1)]%nat.
Proof.
  unfold members_apart. cbn [map pairwise_apart fst snd].
  repeat first [ apply conj | apply List.Forall_cons | apply List.Forall_nil | exact I ];
    vm_compute; lia.
Qed.

Lemma sample_unicast_inside :
  members_inside sample_offsetof "dpsw_cmd_fdb_unicast_op"
    [("fdb_id", 2); ("if_egress", 2); ("mac_addr", 6); ("type", 1)]%nat
    (8 * sample_num_of_params).
Proof.
  unfold members_inside.
  repeat first [ apply List.Forall_cons | apply List.Forall_nil ]; vm_compute; lia.
Qed.

Lemma fdb_unicast_same_request_witness :
  exists c1 c2,
    io_sent unit
      (snd (dpsw_fdb_add_unicast sample_cmdid sample_shift sample_size
              sample_offsetof sample_num_of_params unit sample_exec
              (mk_io unit tt []) 0 0x1234 1
              {| dpsw_fdb_unicast_cfg.type := 1;
                 dpsw_fdb_unicast_cfg.mac_addr := sample_mac;
                 dpsw_fdb_unicast_cfg.if_egress := 5 |}))
      = io_sent unit (mk_io unit tt []) ++ [c1] /\
    io_sent unit
      (snd (dpsw_fdb_remove_unicast sample_cmdid sample_shift sample_size
              sample_offsetof sample_num_of_params unit sample_exec
              (mk_io unit tt []) 0 0x1234 1
              {| dpsw_fdb_unicast_cfg.type := 1;
                 dpsw_fdb_unicast_cfg.mac_addr := sample_mac;
                 dpsw_fdb_unicast_cfg.if_egress := 5 |}))
      = io_sent unit (mk_io unit tt []) ++ [c2] /\
    params c1 = params c2 /\
    hdr_flags (header c1) = hdr_flags (header c2) /\
    hdr_token (header c1) = hdr_token (header c2).
Proof.
  exact (fdb_unicast_same_request sample_cmdid sample_shift sample_size
           sample_offsetof sample_num_of_params unit sample_exec
           (mk_io unit tt []) (mk_io unit tt []) 0 0x1234 1
           {| dpsw_fdb_unicast_cfg.type := 1;
              dpsw_fdb_unicast_cfg.mac_addr := sample_mac;
              dpsw_fdb_unicast_cfg.if_egress := 5 |}
           sample_mac_is_mac sample_unicast_apart sample_unicast_inside).
Defined.



Lemma tci_fields_read_back_witness :
  exists cmd,
    io_sent unit
      (snd (dpsw_if_set_tci sample_cmdid sample_shift sample_size sample_offsetof
              sample_num_of_params unit sample_exec (mk_io unit tt []) 0 0x1234 3
              {| dpsw_tci_cfg.pcp := 9; dpsw_tci_cfg.dei := 1;
                 dpsw_tci_cfg.vlan_id := 0x1ABC |}))
      = io_sent unit (mk_io unit tt []) ++ [cmd] /\
    let conf := rd16 cmd (sample_offsetof "dpsw_cmd_if_set_tci" "conf") in
    dpsw_get_field sample_shift sample_size conf VLAN_ID = 0x1ABC mod 2 ^ sample_size VLAN_ID /\
    dpsw_get_field sample_shift sample_size conf DEI = 1 mod 2 ^ sample_size DEI /\
    dpsw_get_field sample_shift sample_size conf PCP = 9 mod 2 ^ sample_size PCP.
Proof.
  apply (tci_fields_read_back sample_cmdid sample_shift sample_size
           sample_offsetof sample_num_of_params unit sample_exec
           (mk_io unit tt []) 0 0x1234 3
           {| dpsw_tci_cfg.pcp := 9; dpsw_tci_cfg.dei := 1;
              dpsw_tci_cfg.vlan_id := 0x1ABC |});
    first [ unfold field_in, sample_shift, sample_size; lia
          | unfold fields_apart, sample_shift, sample_size; lia
          | vm_compute; lia ].
Defined.

Lemma sample_acl_members_apart :
  members_apart sample_offsetof "dpsw_prep_acl_entry" acl_entry_members.
Proof.
  unfold members_apart, acl_entry_members. cbn [map pairwise_apart fst snd].
  repeat first [ apply conj | apply List.Forall_cons | apply List.Forall_nil | exact I ];
    vm_compute; lia.
Qed.

Lemma sample_acl_members_inside :
  members_inside sample_offsetof "dpsw_prep_acl_entry" acl_entry_members 256.
Proof.
  unfold members_inside, acl_entry_members.
  repeat first [ apply List.Forall_cons | apply List.Forall_nil ]; vm_compute; lia.
Qed.

Lemma acl_prepare_entry_cfg_image_witness :
  let key :=
    {| dpsw_acl_key.match_ :=
         {| dpsw_acl_fields.l2_dest_mac := sample_mac;
            dpsw_acl_fields.l2_source_mac := sample_mask;
            dpsw_acl_fields.l2_tpid := 0x8100; dpsw_acl_fields.l2_pcp_dei := 5;
            dpsw_acl_fields.l2_vlan_id := 0x0abc;
            dpsw_acl_fields.l2_ether_type := 0x0800;
            dpsw_acl_fields.l3_dscp := 46; dpsw_acl_fields.l3_protocol := 6;
            dpsw_acl_fields.l3_source_ip := 0xc0a80001;
            dpsw_acl_fields.l3_dest_ip := 0xc0a80002;
            dpsw_acl_fields.l4_source_port := 1024;
            dpsw_acl_fields.l4_dest_port := 443;
            dpsw_acl_fields.frame_flags := 1 |};
       dpsw_acl_key.mask := dest_mac_only sample_mask |} in
  let out := dpsw_acl_prepare_entry_cfg sample_offsetof key (replicate 256 0xee) in
  length out = length (replicate 256 0xee) /\
  Forall (fun fb =>
            load out (sample_offsetof "dpsw_prep_acl_entry" (fst fb)) (length (snd fb))
            = snd fb) (acl_entry_image key) /\
  (forall j,
     Forall (fun fw => ~ (sample_offsetof "dpsw_prep_acl_entry" (fst fw) <= j
                          < sample_offsetof "dpsw_prep_acl_entry" (fst fw) + snd fw)%nat)
       acl_entry_members ->
     byte_at out j = byte_at (replicate 256 0xee) j).
Proof.
  intros key.
  apply (acl_prepare_entry_cfg_image sample_offsetof key (replicate 256 0xee)).
  - exact sample_mac_is_mac.
  - exact sample_mask_is_mac.
  - exact sample_mask_is_mac.
  - split; [reflexivity | repeat constructor; lia].
  - exact sample_acl_members_apart.
  - exact sample_acl_members_inside.
Defined.

Lemma request_members_read_back_witness :
  let cfg :=
    {| dpsw_acl_entry_cfg.key_iova := 0x1122334455667788;
       dpsw_acl_entry_cfg.result :=
         {| dpsw_acl_result.action := 2; dpsw_acl_result.if_id := 7;
            dpsw_acl_result.lookup_table := 1 |};
       dpsw_acl_entry_cfg.precedence := 10 |} in
  exists s img cmd,
    call_request sample_shift sample_size (call_acl_add_entry 0 0x1234 4 cfg)
      = Some (s, img) /\
    io_sent unit
      (dpsw_run sample_cmdid sample_shift sample_size sample_offsetof
         sample_num_of_params unit sample_exec (mk_io unit tt [])
         (call_acl_add_entry 0 0x1234 4 cfg))
      = io_sent unit (mk_io unit tt []) ++ [cmd] /\
    length (params cmd) = (8 * sample_num_of_params)%nat /\
    Forall (fun fb => load (params cmd) (sample_offsetof s (fst fb)) (length (snd fb))
                      = snd fb) img /\
    (forall j,
       Forall (fun fb => ~ (sample_offsetof s (fst fb) <= j
                            < sample_offsetof s (fst fb) + length (snd fb))%nat) img ->
       byte_at (params cmd) j = 0).
Proof.
  intros cfg.
  destruct (call_request sample_shift sample_size (call_acl_add_entry 0 0x1234 4 cfg))
    as [[s img]|] eqn:E; [|discriminate E].
  destruct (request_members_read_back sample_cmdid sample_shift sample_size
              sample_offsetof sample_num_of_params unit sample_exec
              (mk_io unit tt []) (call_acl_add_entry 0 0x1234 4 cfg) s img E)
    as (cmd & H).
  - injection E as <- <-. unfold members_apart, image_members.
    cbn [map pairwise_apart fst snd].
    repeat first [ apply conj | apply List.Forall_cons | apply List.Forall_nil | exact I ];
      vm_compute; lia.
  - injection E as <- <-. unfold members_inside, image_members. cbn [map].
    repeat first [ apply List.Forall_cons | apply List.Forall_nil ]; vm_compute; lia.
  - exists s, img, cmd. split; [reflexivity | exact H].
Defined.


Lemma build_if_id_bitmap_count_witness :
  build_if_id_bitmap (replicate 16 0) 8 [5; 70; 5] 0 = replicate 16 0 /\
  build_if_id_bitmap (replicate 16 0) 8 (replicate 80 3) 80 =
  build_if_id_bitmap (replicate 16 0) 8 (replicate 80 3) DPSW_MAX_IF.
Proof.
  split.
  - apply (build_if_id_bitmap_count (replicate 16 0) 8 [5; 70; 5] 0). lia.
  - apply (build_if_id_bitmap_count (replicate 16 0) 8 (replicate 80 3) 80).
    unfold DPSW_MAX_IF. lia.
Defined.

(** On the concrete tables: [dpsw_if_get_primary_mac_addr] and
    [dpsw_if_set_primary_mac_addr] both submit the identifier [0xA91]. *)
Example get_primary_mac_addr_cmdid_sample :
  map (fun cmd => hdr_cmd_id (header cmd))
    (io_sent unit
       (snd (dpsw_if_get_primary_mac_addr sample_cmdid sample_offsetof
               sample_num_of_params unit sample_exec (mk_io unit tt []) 0 0x1234 3 sample_mac)))
    = [0xA91] /\
  map (fun cmd => hdr_cmd_id (header cmd))
    (io_sent unit
       (snd (dpsw_if_set_primary_mac_addr sample_cmdid sample_offsetof
               sample_num_of_params unit sample_exec (mk_io unit tt []) 0 0x1234 3 sample_mac)))
    = [0xA91].
Proof. split; vm_compute; reflexivity. Qed.

(** On the concrete tables the TCI word of the example is [0xFABC], in
    memory the bytes [0xBC], [0xFA], and each field reads back as it was
    written. *)
Example tci_sample :
  map (fun cmd => rd16 cmd (sample_offsetof "dpsw_cmd_if_set_tci" "conf"))
    (io_sent unit
       (snd (dpsw_if_set_tci sample_cmdid sample_shift sample_size sample_offsetof
               sample_num_of_params unit sample_exec (mk_io unit tt []) 0 0x1234 3
               {| dpsw_tci_cfg.pcp := 7; dpsw_tci_cfg.dei := 1;
                  dpsw_tci_cfg.vlan_id := 0xABC |})))
    = [0xFABC] /\
  map (fun cmd => load (params cmd) (sample_offsetof "dpsw_cmd_if_set_tci" "conf") 2)
    (io_sent unit
       (snd (dpsw_if_set_tci sample_cmdid sample_shift sample_size sample_offsetof
               sample_num_of_params unit sample_exec (mk_io unit tt []) 0 0x1234 3
               {| dpsw_tci_cfg.pcp := 7; dpsw_tci_cfg.dei := 1;
                  dpsw_tci_cfg.vlan_id := 0xABC |})))
    = [[0xBC; 0xFA]] /\
  dpsw_get_field sample_shift sample_size 0xFABC PCP = 7 /\
  dpsw_get_field sample_shift sample_size 0xFABC DEI = 1 /\
  dpsw_get_field sample_shift sample_size 0xFABC VLAN_ID = 0xABC.
Proof. vm_compute. auto. Qed.

(** The bitmap of [5, 70, 5] in a zeroed word, byte by byte; an id of 64
    alone leaves the word zero. *)
Example bitmap_sample :
  build_if_id_bitmap (replicate 8 0) 0 [5; 70; 5] 3 = [32; 0; 0; 0; 0; 0; 0; 0] /\
  build_if_id_bitmap (replicate 8 0) 0 [64] 1 = [0; 0; 0; 0; 0; 0; 0; 0] /\
  build_if_id_bitmap (replicate 8 0) 0 [0; 9; 63] 3 = [1; 2; 0; 0; 0; 0; 0; 128] /\
  build_if_id_bitmap (replicate 8 0) 0 [0; 9; 63] 2 = [1; 2; 0; 0; 0; 0; 0; 0].
Proof. vm_compute. auto. Qed.

(** A set of the primary MAC address followed by a get through a transport
    that hands the buffer back: the request carries the address reversed at
    offset 2, and the get returns it in host order. *)
Example mac_sample :
  map (fun cmd => load (params cmd) 2 6)
    (io_sent unit
       (snd (dpsw_if_set_primary_mac_addr sample_cmdid sample_offsetof
               sample_num_of_params unit sample_exec (mk_io unit tt []) 0 0x1234 3 sample_mac)))
    = [[0xb2; 0xa1; 0x05; 0x9f; 0x04; 0x00]] /\
  from_wire [0xb2; 0xa1; 0x05; 0x9f; 0x04; 0x00] = sample_mac.
Proof. vm_compute. auto. Qed.
